(** * Opine offline cache and interview store: a shallow embedding

  The development follows three classes of the application:
  - [BundledDataService] (module [bundledDataService]), the bundled data set;
  - [OfflineDataCacheService] (module [offlineDataCache]), the reference
    data cache and the bulk download;
  - [OfflineStorageService], the interview record store.

  Conventions.
  - A JavaScript string is a [string] of ASCII characters; its [length] is
    the number of characters.
  - A JSON number is an integer ([Z]).
  - AsyncStorage holds, under each key, the value that was passed to
    [JSON.stringify] when the key was written ([JSON.parse] of that text
    gives the value back), so a stored text is represented by its value.
  - An asynchronous method is a computation over a [World]: the storage,
    the console, the outcomes the storage will report for its next calls,
    and the fields of the service objects. *)

From Stdlib Require Import ZArith Ascii String DecimalString.
From stdpp Require Import gmap strings list.

Set Warnings "-register-all".

Local Open Scope string_scope.
Local Open Scope Z_scope.

(** ** JavaScript strings *)

Module JsString.

(** [\s] of a regular expression and the characters [trim] removes. *)
Definition is_space (c : ascii) : bool :=
  let n := nat_of_ascii c in
  ((9 <=? n)%nat && (n <=? 13)%nat) || (n =? 32)%nat.

(** [\d] *)
Definition is_digit (c : ascii) : bool :=
  let n := nat_of_ascii c in (48 <=? n)%nat && (n <=? 57)%nat.

Definition lower_char (c : ascii) : ascii :=
  let n := nat_of_ascii c in
  if (65 <=? n)%nat && (n <=? 90)%nat then ascii_of_nat (n + 32) else c.

(** [s.toLowerCase()] *)
Fixpoint toLowerCase (s : string) : string :=
  match s with
  | EmptyString => EmptyString
  | String c t => String (lower_char c) (toLowerCase t)
  end.

(** [s.length] *)
Fixpoint length_from (acc : Z) (s : string) : Z :=
  match s with
  | EmptyString => acc
  | String _ t => length_from (acc + 1) t
  end.

Definition length (s : string) : Z := length_from 0 s.

(** [s.trimStart()] *)
Fixpoint trimStart (s : string) : string :=
  match s with
  | EmptyString => EmptyString
  | String c t => if is_space c then trimStart t else s
  end.

(** [s.trimEnd()] *)
Fixpoint trimEnd (s : string) : string :=
  match s with
  | EmptyString => EmptyString
  | String c t =>
      match trimEnd t with
      | EmptyString => if is_space c then EmptyString else String c EmptyString
      | t' => String c t'
      end
  end.

(** [s.trim()] *)
Definition trim (s : string) : string := trimEnd (trimStart s).

(** [s.startsWith(p)] *)
Fixpoint startsWith (s p : string) : bool :=
  match p, s with
  | EmptyString, _ => true
  | String a p', String b s' => Ascii.eqb a b && startsWith s' p'
  | String _ _, EmptyString => false
  end.

(** [s.endsWith(p)] is not needed by the functions below. *)

(** [s.includes(sub)] *)
Fixpoint includes (s sub : string) : bool :=
  if startsWith s sub then true
  else match s with
       | EmptyString => false
       | String _ t => includes t sub
       end.

(** The rest of [s] after the prefix [p]. *)
Fixpoint after_prefix (s p : string) : option string :=
  match p, s with
  | EmptyString, _ => Some s
  | String a p', String b s' =>
      if Ascii.eqb a b then after_prefix s' p' else None
  | String _ _, EmptyString => None
  end.

(** [s.replace(pat, '')] with a string pattern: the first occurrence of
    [pat] is removed. *)
Fixpoint remove_first (s pat : string) : string :=
  match after_prefix s pat with
  | Some rest => rest
  | None =>
      match s with
      | EmptyString => EmptyString
      | String c t => String c (remove_first t pat)
      end
  end.

(** [s.replace(/\s+/g, ' ')]: [in_ws] tells that the previous character
    belonged to a run of white space that was already replaced. *)
Fixpoint collapse_from (in_ws : bool) (s : string) : string :=
  match s with
  | EmptyString => EmptyString
  | String c t =>
      if is_space c
      then (if in_ws then collapse_from true t
            else String " " (collapse_from true t))
      else String c (collapse_from false t)
  end.

Definition collapse_ws (s : string) : string := collapse_from false s.

(** The text after the first [")"], the end of a match of [[^)]*\)]. *)
Fixpoint after_close (s : string) : option string :=
  match s with
  | EmptyString => None
  | String c t => if Ascii.eqb c ")" then Some t else after_close t
  end.

(** A match of [\s*\([^)]*\)\s*] anchored at the start of [s]; the result
    is the text that follows the match.  The first [\s*] is greedy and the
    character after the run is not white space, so giving characters back
    cannot help; [[^)]*] can only stop at the first [")"]. *)
Definition match_paren_group (s : string) : option string :=
  match trimStart s with
  | String c t =>
      if Ascii.eqb c "("
      then match after_close t with
           | Some rest => Some (trimStart rest)
           | None => None
           end
      else None
  | EmptyString => None
  end.

(** [s.replace(/\s*\([^)]*\)\s*/g, '')]: the matches are found from left
    to right, each search starting where the previous match ended.  A match
    is never empty, so [fuel] decreases with the text. *)
Fixpoint strip_from (fuel : nat) (s : string) : string :=
  match fuel with
  | O => s
  | S fuel' =>
      match match_paren_group s with
      | Some rest => strip_from fuel' rest
      | None =>
          match s with
          | EmptyString => EmptyString
          | String c t => String c (strip_from fuel' t)
          end
      end
  end.

Definition strip_parens (s : string) : string :=
  strip_from (S (String.length s)) s.

(** [/^\d+$/.test(s)] *)
Fixpoint all_digits (s : string) : bool :=
  match s with
  | EmptyString => true
  | String c t => is_digit c && all_digits t
  end.

Definition is_number_text (s : string) : bool :=
  match s with
  | EmptyString => false
  | _ => all_digits s
  end.

(** Truthiness of a string. *)
Definition nonempty (s : string) : bool :=
  match s with EmptyString => false | _ => true end.

End JsString.

(** ** Property reads on plain objects *)

Module JsObject.

(** The property names of [Object.prototype] (ECMAScript, annex B
    included).  A plain object, such as a literal or a value of
    [JSON.parse], inherits them: [o[name]] for one of these names that is
    not an own property of [o] is the member of [Object.prototype], a
    function, or [Object.prototype] itself for "__proto__". *)
Definition object_prototype_names : list string :=
  ["constructor"; "hasOwnProperty"; "isPrototypeOf"; "propertyIsEnumerable";
   "toLocaleString"; "toString"; "valueOf"; "__proto__";
   "__defineGetter__"; "__defineSetter__"; "__lookupGetter__";
   "__lookupSetter__"].

Definition is_inherited (name : string) : bool :=
  existsb (String.eqb name) object_prototype_names.

(** What [o[name]] finds. *)
Inductive Got (A : Type) :=
| Own (a : A)
| Inherited (name : string)
| Undefined.

Arguments Own {A} a.
Arguments Inherited {A} name.
Arguments Undefined {A}.

(** [o[name]], from the own property of that name, if any. *)
Definition get {A : Type} (own : option A) (name : string) : Got A :=
  match own with
  | Some a => Own a
  | None => if is_inherited name then Inherited name else Undefined
  end.

End JsObject.

(** ** The bundled data set (class [BundledDataService]) *)

Module Bundled.
Import JsString.

(** An entry of [polling_stations.json]: [data[state][acCode]].  The groups
    and their stations play no part in the name resolution. *)
Record ACRecord := {
  ac_name : string;
  pc_no : Z;
  pc_name : string;
  district : string;
  groups : list (string * list string);
}.

(** [data[state]]: the entries in the order of [Object.entries]. *)
Abbreviation StateData := (list (string * ACRecord)).

(** [PollingStationData]: the content of [polling_stations.json].  The
    file is not part of the sources; it is an argument of the functions
    below. *)
Abbreviation PollingStationData := (gmap string StateData).

(** The body of the [for] loop of [findACNumberByName] for one entry:
    does the entry answer the search? *)
Definition entry_matches (normalizedSearchName : string) (acData : ACRecord)
  : bool :=
  if negb (nonempty (ac_name acData)) then false
  else
    let normalizedStoredName :=
      collapse_ws (toLowerCase (trim (ac_name acData))) in
    if String.eqb normalizedStoredName normalizedSearchName then true
    else if includes normalizedStoredName normalizedSearchName
            || includes normalizedSearchName
                 (trim (strip_parens normalizedStoredName))
    then true
    else
      let storedWithoutParens := trim (strip_parens normalizedStoredName) in
      let searchWithoutParens := trim (strip_parens normalizedSearchName) in
      String.eqb storedWithoutParens searchWithoutParens.

Fixpoint first_match (normalizedSearchName : string) (entries : StateData)
  : option string :=
  match entries with
  | [] => None
  | (acNo, acData) :: rest =>
      if entry_matches normalizedSearchName acData then Some acNo
      else first_match normalizedSearchName rest
  end.

(** [findACNumberByName(state, acName)] *)
Definition findACNumberByName (data : PollingStationData)
    (state acName : string) : option string :=
  match data !! state with
  | None => None
  | Some entries =>
      if negb (nonempty acName) then None
      else
        let acNameStr := trim acName in
        if negb (nonempty acNameStr) || String.eqb acNameStr "N/A" then None
        else
          let normalizedSearchName := collapse_ws (toLowerCase acNameStr) in
          first_match normalizedSearchName entries
  end.

End Bundled.

(** ** AC name normalisation (class [OfflineDataCacheService]) *)

(** [normalizeACName] is a private method; its one call, in
    [downloadDependentDataForSurveys], stands in the part of the body that
    is commented out.  The names that [findACNumberByName] receives have not
    gone through the table. *)

Module ACName.
Import JsString.

Definition acNameMappings : list (string * string) :=
  [ ("Cooch Behar Uttar", "COOCHBEHAR UTTAR (SC)");
    ("Cooch Behar Dakshin", "COOCHBEHAR DAKSHIN");
    ("Coochbehar Uttar", "COOCHBEHAR UTTAR (SC)");
    ("Coochbehar Dakshin", "COOCHBEHAR DAKSHIN");
    ("COOCH BEHAR UTTAR", "COOCHBEHAR UTTAR (SC)");
    ("COOCH BEHAR DAKSHIN", "COOCHBEHAR DAKSHIN") ].

Fixpoint exact_mapping (m : list (string * string)) (acName : string)
  : option string :=
  match m with
  | [] => None
  | (k, v) :: rest => if String.eqb k acName then Some v else exact_mapping rest acName
  end.

Fixpoint caseless_mapping (m : list (string * string)) (normalized : string)
  : option string :=
  match m with
  | [] => None
  | (k, v) :: rest =>
      if String.eqb (toLowerCase k) (toLowerCase normalized) then Some v
      else caseless_mapping rest normalized
  end.

(** A value that [normalizeACName] receives or returns: a string, or the
    member [Object.prototype[name]], which is not a string. *)
Inductive Name :=
| Text (s : string)
| Member (name : string).

(** [normalizeACName(acName)].  The members of [Object.prototype] are
    truthy, so that the first test returns them for the names the table
    inherits. *)
Definition normalizeACName (acName : Name) : Name :=
  match acName with
  | Member _ => acName
  | Text s =>
      if negb (nonempty s) then acName
      else
        match JsObject.get (exact_mapping acNameMappings s) s with
        | JsObject.Own v => Text v
        | JsObject.Inherited name => Member name
        | JsObject.Undefined =>
            let normalized := trim s in
            match caseless_mapping acNameMappings normalized with
            | Some v => Text v
            | None => acName
            end
        end
  end.

End ACName.

(** ** JSON values *)

Module Json.

Inductive JSON :=
| JNull
| JBool (b : bool)
| JNum (n : Z)
| JStr (s : string)
| JArr (items : list JSON)
| JObj (fields : list (string * JSON)).

(** The own properties of an object, in insertion order. *)
Definition Obj := list (string * JSON).

(** A JavaScript value read from JSON data: [None] is [undefined]. *)
Definition Value := option JSON.

Fixpoint get_field (fields : Obj) (k : string) : Value :=
  match fields with
  | [] => None
  | (k', v) :: rest => if String.eqb k' k then Some v else get_field rest k
  end.

(** [v.k] for one of the property names used by the services; a value
    that is not a plain object has none of them. *)
Definition prop (v : JSON) (k : string) : Value :=
  match v with
  | JObj fields => get_field fields k
  | _ => None
  end.

(** [obj.k = v]: an existing property keeps its place, a new one is added
    at the end. *)
Fixpoint set_field (k : string) (v : JSON) (fields : Obj) : Obj :=
  match fields with
  | [] => [(k, v)]
  | (k', v') :: rest =>
      if String.eqb k' k then (k, v) :: rest
      else (k', v') :: set_field k v rest
  end.

(** Removing a property: what [JSON.stringify] does with a property whose
    value is [undefined]. *)
Fixpoint drop_field (k : string) (fields : Obj) : Obj :=
  match fields with
  | [] => []
  | (k', v') :: rest =>
      if String.eqb k' k then drop_field k rest
      else (k', v') :: drop_field k rest
  end.

(** Truthiness. *)
Definition truthy (v : JSON) : bool :=
  match v with
  | JNull => false
  | JBool b => b
  | JNum n => negb (n =? 0)
  | JStr s => JsString.nonempty s
  | JArr _ | JObj _ => true
  end.

Definition truthy_value (v : Value) : bool :=
  match v with Some x => truthy x | None => false end.

(** [v === s] for a string [s]. *)
Definition is_string (v : Value) (s : string) : bool :=
  match v with
  | Some (JStr s') => String.eqb s' s
  | _ => false
  end.

(** [a === b] where [a] and [b] come from two different [JSON.parse]
    calls or literals: objects and arrays are then never identical. *)
Definition strict_eq (a b : Value) : bool :=
  match a, b with
  | None, None => true
  | Some JNull, Some JNull => true
  | Some (JBool x), Some (JBool y) => Bool.eqb x y
  | Some (JNum x), Some (JNum y) => x =? y
  | Some (JStr x), Some (JStr y) => String.eqb x y
  | _, _ => false
  end.

(** [typeof v === 'object'] *)
Definition typeof_object (v : JSON) : bool :=
  match v with
  | JNull | JArr _ | JObj _ => true
  | _ => false
  end.

(** The own properties of a value that is spread into an object literal. *)
Definition own_fields (v : JSON) : Obj :=
  match v with
  | JObj fields => fields
  | _ => []
  end.

Definition Z_to_string (n : Z) : string :=
  NilEmpty.string_of_int (Z.to_int n).

Definition hex_digit (n : nat) : ascii :=
  if (n <? 10)%nat then ascii_of_nat (48 + n) else ascii_of_nat (87 + n).

(** The text [JSON.stringify] writes for one character of a string. *)
Definition dquote : ascii := ascii_of_nat 34.
Definition backslash : ascii := ascii_of_nat 92.

Definition escaped (c : ascii) : string := String backslash (String c "").

(** The text [JSON.stringify] writes for one character of a string. *)
Definition escape_char (c : ascii) : string :=
  let n := nat_of_ascii c in
  if (n =? 34)%nat then escaped dquote
  else if (n =? 92)%nat then escaped backslash
  else if (n =? 8)%nat then escaped "b"
  else if (n =? 9)%nat then escaped "t"
  else if (n =? 10)%nat then escaped "n"
  else if (n =? 12)%nat then escaped "f"
  else if (n =? 13)%nat then escaped "r"
  else if (n <? 32)%nat
  then escaped "u" +:+ "00"
         +:+ String (hex_digit (n / 16)) (String (hex_digit (n mod 16)) "")
  else String c "".

Fixpoint escape (s : string) : string :=
  match s with
  | EmptyString => EmptyString
  | String c t => escape_char c +:+ escape t
  end.

Definition quote (s : string) : string :=
  String dquote (escape s +:+ String dquote "").

Fixpoint join (sep : string) (parts : list string) : string :=
  match parts with
  | [] => ""
  | [p] => p
  | p :: rest => p +:+ sep +:+ join sep rest
  end.

(** [JSON.stringify(v)] *)
Fixpoint stringify (v : JSON) : string :=
  match v with
  | JNull => "null"
  | JBool true => "true"
  | JBool false => "false"
  | JNum n => Z_to_string n
  | JStr s => quote s
  | JArr items => "[" +:+ join "," (map stringify items) +:+ "]"
  | JObj fields =>
      "{" +:+ join "," (map (fun kv => quote (fst kv) +:+ ":" +:+ stringify (snd kv)) fields)
        +:+ "}"
  end.

(** [JSON.stringify(v).length] *)
Definition size (v : JSON) : Z := JsString.length (stringify v).

(** [String(v)], as used by [+] when an operand is not a number. *)
Fixpoint to_text (v : JSON) : string :=
  match v with
  | JNull => "null"
  | JBool true => "true"
  | JBool false => "false"
  | JNum n => Z_to_string n
  | JStr s => s
  | JArr items =>
      join "," (map (fun x => match x with JNull => "" | _ => to_text x end) items)
  | JObj _ => "[object Object]"
  end.

(** Numbers are doubles: the integers of magnitude up to 2^53 are all
    doubles, a larger integer is rounded to the nearest one with 53
    significant bits, ties to the even one; [None] is an infinity, from
    2^1024 - 2^970 on. *)
Definition to_double (z : Z) : option Z :=
  let a := Z.abs z in
  if a <=? 2 ^ 53 then Some z
  else
    let e := Z.log2 a - 52 in
    let q := a / 2 ^ e in
    let r := a mod 2 ^ e in
    let half := 2 ^ (e - 1) in
    let rounded :=
      if r <? half then q
      else if half <? r then q + 1
      else if Z.even q then q else q + 1 in
    if 2 ^ 1024 <=? rounded * 2 ^ e then None
    else Some (Z.sgn z * (rounded * 2 ^ e)).

(** [n + 1] on the double written [n].  An infinity is written [null] by
    [JSON.stringify], and the record that receives the sum is only
    serialized afterwards. *)
Definition plus_one (n : Z) : JSON :=
  match to_double n with
  | Some d =>
      match to_double (d + 1) with
      | Some sum => JNum sum
      | None => JNull
      end
  | None => JNull
  end.

(** [(v || 0) + 1] *)
Definition or_zero_plus_one (v : Value) : JSON :=
  match v with
  | Some (JNum n) => plus_one n
  | Some (JBool true) => JNum 2
  | Some x => if truthy x then JStr (to_text x +:+ "1") else JNum 1
  | None => JNum 1
  end.

(** [l.length] of an array. *)
Definition len {A} (l : list A) : Z := Z.of_nat (List.length l).

End Json.

(** ** The world of the services: storage, console, pending outcomes *)

Module Env.
Import Json.

(** [allACsData[state]]: [{ acs, cachedAt }]; a stored entry may lack
    [acs]. *)
Record StateACs := {
  acs : option (list JSON);
  acs_cachedAt : string;
}.

(** [interface PollingGroup] *)
Record PollingGroup := {
  pg_state : string;
  pg_acIdentifier : string;
  pg_groups : list string;
  pg_ac_name : option string;
  pg_more : Obj;
}.

(** AsyncStorage.  The keys the services below read and write hold typed
    values; every other key is kept as text. *)
Record AsyncStorage := {
  offline_all_acs_for_state : option (gmap string StateACs);
  offline_polling_groups : option (list (string * PollingGroup));
  offline_interviews : option (list JSON);
  other_keys : gmap string string;
}.

Record Key (V : Type) := {
  read : AsyncStorage -> option V;
  write : option V -> AsyncStorage -> AsyncStorage;
}.
Arguments read {V}.
Arguments write {V}.

(** [STORAGE_KEYS.ALL_ACS_FOR_STATE] *)
Definition ALL_ACS_FOR_STATE : Key (gmap string StateACs) := {|
  read := offline_all_acs_for_state;
  write v s := {| offline_all_acs_for_state := v;
                  offline_polling_groups := offline_polling_groups s;
                  offline_interviews := offline_interviews s;
                  other_keys := other_keys s |};
|}.

(** [STORAGE_KEYS.POLLING_GROUPS] *)
Definition POLLING_GROUPS : Key (list (string * PollingGroup)) := {|
  read := offline_polling_groups;
  write v s := {| offline_all_acs_for_state := offline_all_acs_for_state s;
                  offline_polling_groups := v;
                  offline_interviews := offline_interviews s;
                  other_keys := other_keys s |};
|}.

(** [STORAGE_KEYS.OFFLINE_INTERVIEWS] *)
Definition OFFLINE_INTERVIEWS : Key (list JSON) := {|
  read := offline_interviews;
  write v s := {| offline_all_acs_for_state := offline_all_acs_for_state s;
                  offline_polling_groups := offline_polling_groups s;
                  offline_interviews := v;
                  other_keys := other_keys s |};
|}.

Inductive Level := LOG | WARN | ERROR.

(** The console messages of the services, without their decoration. *)
Inductive Msg :=
(* getOfflineInterviews *)
| NoOfflineInterviews
| DataVeryLarge (bytes : Z)
| AttemptingToParse
| Retrieved (n : Z)
| EntryNotAnObject
| EntryWithoutID
| EntrySuspiciouslyLarge (id : Value) (bytes : Z)
| RemovedCorrupted (n : Z)
| CleanedAndSaved
| ErrorSavingCleaned (e : string)
| ErrorGettingInterviews (e : string)
| RowTooBigClearing
| ClearedCorrupted
| ErrorClearingCorrupted (e : string)
(* saveOfflineInterview *)
| UpdatingExisting (id old new : Value)
| AddingNew (id status : Value)
| DataSize (bytes count : Z)
| DataIsLarge (bytes : Z)
| SavedInterview (id : Value) (total : Z) (status : Value)
| ErrorSavingInterview (e : string)
| RowTooBigOnSave
| CannotBeSaved
(* the other methods of the interview store *)
| PendingFound (n total : Z)
| ErrorGettingPending (e : string)
| ErrorGettingById (e : string)
| DeletedInterview (id : string)
| ErrorUpdatingStatus (e : string)
| ErrorDeleting (e : string)
(* all ACs of a state *)
| StatesInCache (states : list string)
| ErrorAllACsForAllStates (e : string)
| FoundCachedACs (state : string) (count : Z)
| OnlyFewACs (state : string) (count expected : Z)
| CacheIncompleteClearing
| ErrorAllACsForState (e : string)
| ClearingACCache (state : string)
| BeforeClear (count : Z) (state : string)
| VerifiedCleared (state : string) (before : Z)
| FailedToClear (after : Z)
| ErrorClearingACCache (e : string)
(* polling groups *)
| ErrorAllPollingGroups (e : string)
| FoundByACName (acIdentifier cachedACName cachedKey : string)
| FoundByACCode (acIdentifier cachedACIdentifier cachedACName : string)
| FoundByCacheKey (acIdentifier cachedACIdentifier cachedKey : string)
| SearchFailed (acIdentifier state : string)
| AvailableCachedACs (shown : list string) (more : bool)
| NoCachedACs (state : string)
| ErrorPollingGroups (e : string)
(* bulk download *)
| DownloadAlreadyInProgress
| StartingDownload
| ProcessingSurveys (n : Z)
| GPSSkipped
| ErrorInDownload (e : string).

Record World := {
  storage : AsyncStorage;
  (** What AsyncStorage answers to its next calls, first call first:
      [None] resolves, [Some m] rejects with an [Error] whose message is
      [m].  When the list is used up every call resolves. *)
  outcomes : list (option string);
  (** The console, the latest line first. *)
  console : list (Level * Msg);
  (** [OfflineDataCacheService.isDownloading] *)
  isDownloading : bool;
}.

(** How a promise settles. *)
Inductive Settled (A : Type) :=
| Resolved (a : A)
| Rejected (message : string).
Arguments Resolved {A}.
Arguments Rejected {A}.

Definition Async (A : Type) := World -> Settled A * World.

Definition ret {A} (a : A) : Async A := fun w => (Resolved a, w).

Definition throw {A} (message : string) : Async A :=
  fun w => (Rejected message, w).

Definition bind {A B} (m : Async A) (k : A -> Async B) : Async B :=
  fun w =>
    match m w with
    | (Resolved a, w') => k a w'
    | (Rejected e, w') => (Rejected e, w')
    end.

(** [try { m } catch (error) { handler error }] *)
Definition try_catch {A} (m : Async A) (handler : string -> Async A) : Async A :=
  fun w =>
    match m w with
    | (Resolved a, w') => (Resolved a, w')
    | (Rejected e, w') => handler e w'
    end.

(** [try { m } finally { w := cleanup w }] *)
Definition try_finally {A} (m : Async A) (cleanup : World -> World) : Async A :=
  fun w => let '(r, w') := m w in (r, cleanup w').

Definition say (l : Level) (m : Msg) : Async unit :=
  fun w => (Resolved tt,
            {| storage := storage w; outcomes := outcomes w;
               console := (l, m) :: console w;
               isDownloading := isDownloading w |}).

(** Several lines, written in the order of the list. *)
Definition say_all (lines : list (Level * Msg)) : Async unit :=
  fun w => (Resolved tt,
            {| storage := storage w; outcomes := outcomes w;
               console := rev_append lines (console w);
               isDownloading := isDownloading w |}).

Definition when (b : bool) (m : Async unit) : Async unit :=
  if b then m else ret tt.

(** Reading and assigning a field of a service object. *)
Definition field {A} (f : World -> A) : Async A :=
  fun w => (Resolved (f w), w).

Definition assign (f : World -> World) : Async unit :=
  fun w => (Resolved tt, f w).

Definition set_storage (s : AsyncStorage) (w : World) : World :=
  {| storage := s; outcomes := outcomes w; console := console w;
     isDownloading := isDownloading w |}.

Definition set_downloading (b : bool) (w : World) : World :=
  {| storage := storage w; outcomes := outcomes w; console := console w;
     isDownloading := b |}.

(** One call of AsyncStorage: it takes the next outcome. *)
Definition storage_call : Async unit :=
  fun w =>
    match outcomes w with
    | [] => (Resolved tt, w)
    | o :: rest =>
        let w' := {| storage := storage w; outcomes := rest;
                     console := console w;
                     isDownloading := isDownloading w |} in
        match o with
        | None => (Resolved tt, w')
        | Some message => (Rejected message, w')
        end
    end.

(** [AsyncStorage.getItem(key)], already parsed. *)
Definition getItem {V} (key : Key V) : Async (option V) :=
  bind storage_call (fun _ w => (Resolved (read key (storage w)), w)).

(** [AsyncStorage.setItem(key, JSON.stringify(v))] *)
Definition setItem {V} (key : Key V) (v : V) : Async unit :=
  bind storage_call
    (fun _ w => (Resolved tt, set_storage (write key (Some v) (storage w)) w)).

(** [AsyncStorage.removeItem(key)] *)
Definition removeItem {V} (key : Key V) : Async unit :=
  bind storage_call
    (fun _ w => (Resolved tt, set_storage (write key None (storage w)) w)).

(** [error.message && error.message.includes(text)] *)
Definition message_includes (message text : string) : bool :=
  JsString.nonempty message && JsString.includes message text.

End Env.

Declare Scope async_scope.
Delimit Scope async_scope with async.
Notation "x <- m ;; k" := (Env.bind m (fun x => k))
(at level 100, m at next level, right associativity) : async_scope.
Notation "m ;; k" := (Env.bind m (fun _ => k))
(at level 100, right associativity) : async_scope.

(** ** The interview record store (class [OfflineStorageService]) *)

Module OfflineStorage.
Import Json Env.
Local Open Scope async_scope.

(** [OfflineInterview['status']] *)
Inductive Status := pending | syncing | synced | failed.

Definition status_text (s : Status) : string :=
  match s with
  | pending => "pending"
  | syncing => "syncing"
  | synced => "synced"
  | failed => "failed"
  end.

(** What the callback of [interviews.filter] in [getOfflineInterviews]
    finds out about one entry. *)
Inductive Verdict :=
| Valid
| NotAnObject
| WithoutID
| SuspiciouslyLarge (id : Value) (bytes : Z).

Definition inspect (interview : JSON) : Verdict :=
  if negb (truthy interview) || negb (typeof_object interview) then NotAnObject
  else if negb (truthy_value (prop interview "id")) then WithoutID
  else
    let interviewSize := size interview in
    if 2000000 <? interviewSize
    then SuspiciouslyLarge (prop interview "id") interviewSize
    else Valid.

(** The value the callback returns. *)
Definition kept (interview : JSON) : bool :=
  match inspect interview with
  | Valid => true
  | _ => false
  end.

(** The line the callback writes. *)
Definition complaint (interview : JSON) : option (Level * Msg) :=
  match inspect interview with
  | Valid => None
  | NotAnObject => Some (WARN, EntryNotAnObject)
  | WithoutID => Some (WARN, EntryWithoutID)
  | SuspiciouslyLarge id bytes => Some (WARN, EntrySuspiciouslyLarge id bytes)
  end.

(** [getOfflineInterviews()] *)
Definition getOfflineInterviews : Async (list JSON) :=
  try_catch
    (data <- getItem OFFLINE_INTERVIEWS ;;
     match data with
     | None => say LOG NoOfflineInterviews ;; ret []
     | Some interviews =>
         when (5000000 <? size (JArr interviews))
           (say WARN (DataVeryLarge (size (JArr interviews))) ;;
            say WARN AttemptingToParse) ;;
         say LOG (Retrieved (len interviews)) ;;
         say_all (omap complaint interviews) ;;
         let validInterviews := List.filter kept interviews in
         when (len validInterviews <? len interviews)
           (say WARN (RemovedCorrupted (len interviews - len validInterviews)) ;;
            try_catch
              (setItem OFFLINE_INTERVIEWS validInterviews ;;
               say LOG CleanedAndSaved)
              (fun saveError => say ERROR (ErrorSavingCleaned saveError))) ;;
         ret validInterviews
     end)
    (fun error =>
       say ERROR (ErrorGettingInterviews error) ;;
       if message_includes error "Row too big"
       then
         say ERROR RowTooBigClearing ;;
         try_catch
           (removeItem OFFLINE_INTERVIEWS ;;
            say LOG ClearedCorrupted ;;
            ret [])
           (fun clearError =>
              say ERROR (ErrorClearingCorrupted clearError) ;; ret [])
       else ret []).

(** The callback of [interviews.filter] in [getPendingInterviews]. *)
Definition is_pending (i : JSON) : bool :=
  let status := prop i "status" in
  negb (truthy_value status)
  || is_string status "pending" || is_string status "failed".

(** [getPendingInterviews()] *)
Definition getPendingInterviews : Async (list JSON) :=
  try_catch
    (interviews <- getOfflineInterviews ;;
     let pending := List.filter is_pending interviews in
     say LOG (PendingFound (len pending) (len interviews)) ;;
     ret pending)
    (fun error => say ERROR (ErrorGettingPending error) ;; ret []).

(** [getOfflineInterviewById(interviewId)]; [None] is [null]. *)
Definition getOfflineInterviewById (interviewId : string)
  : Async (option JSON) :=
  try_catch
    (interviews <- getOfflineInterviews ;;
     ret (List.find (fun i => is_string (prop i "id") interviewId) interviews))
    (fun error => say ERROR (ErrorGettingById error) ;; ret None).

(** [interview.surveyName || interview.survey?.surveyName || undefined] *)
Definition surveyName_to_keep (interview : Obj) : Value :=
  let own := get_field interview "surveyName" in
  if truthy_value own then own
  else
    let of_survey :=
      match get_field interview "survey" with
      | Some survey => prop survey "surveyName"
      | None => None
      end in
    if truthy_value of_survey then of_survey else None.

(** [{ ...interview, survey: null, surveyName: ... }]; a property whose
    value is [undefined] is not written by [JSON.stringify]. *)
Definition interviewToSave (interview : Obj) : Obj :=
  let with_survey := set_field "survey" JNull interview in
  match surveyName_to_keep interview with
  | Some name => set_field "surveyName" name with_survey
  | None => drop_field "surveyName" with_survey
  end.

(** [interviews.findIndex(callback)] *)
Fixpoint findIndex {A} (f : A -> bool) (l : list A) : option nat :=
  match l with
  | [] => None
  | x :: rest => if f x then Some O else option_map S (findIndex f rest)
  end.

(** [saveOfflineInterview(interview)] *)
Definition saveOfflineInterview (interview : Obj) : Async unit :=
  try_catch
    (let toSave := interviewToSave interview in
     let id := get_field interview "id" in
     interviews <- getOfflineInterviews ;;
     updated <-
       match findIndex (fun i => strict_eq (prop i "id") id) interviews with
       | Some existingIndex =>
           say LOG (UpdatingExisting id
                      (from_option (fun old => prop old "status") None
                         (interviews !! existingIndex))
                      (get_field interview "status")) ;;
           ret (<[existingIndex := JObj (set_field "survey" JNull toSave)]> interviews)
       | None =>
           say LOG (AddingNew id
                      (if truthy_value (get_field interview "status")
                       then get_field interview "status"
                       else Some (JStr "pending"))) ;;
           let toSave :=
             if negb (truthy_value (get_field toSave "status"))
             then set_field "status" (JStr "pending") toSave
             else toSave in
           ret (interviews ++ [JObj toSave])%list
       end ;;
     let dataLength := size (JArr updated) in
     say LOG (DataSize dataLength (len updated)) ;;
     when (2000000 <? dataLength) (say WARN (DataIsLarge dataLength)) ;;
     setItem OFFLINE_INTERVIEWS updated ;;
     say LOG (SavedInterview id (len updated) (get_field interview "status")))
    (fun error =>
       say ERROR (ErrorSavingInterview error) ;;
       if message_includes error "Row too big"
       then
         say ERROR RowTooBigOnSave ;;
         say ERROR CannotBeSaved ;;
         throw "Interview data too large to save. Please sync existing interviews first."
       else throw error).

(** The assignments of [updateInterviewStatus] to the record it found;
    [now] is the value of [new Date().toISOString()]. *)
Definition with_status (now : string) (status : Status) (error : option string)
    (found : JSON) : Obj :=
  let interview := own_fields found in
  let interview := set_field "status" (JStr (status_text status)) interview in
  let interview := set_field "lastSyncAttempt" (JStr now) interview in
  match error with
  | Some message =>
      if JsString.nonempty message
      then
        let interview := set_field "error" (JStr message) interview in
        set_field "syncAttempts"
          (or_zero_plus_one (get_field interview "syncAttempts")) interview
      else interview
  | None => interview
  end.

(** [updateInterviewStatus(interviewId, status, error?)] *)
Definition updateInterviewStatus (now : string) (interviewId : string)
    (status : Status) (error : option string) : Async unit :=
  try_catch
    (interviews <- getOfflineInterviews ;;
     match List.find (fun i => is_string (prop i "id") interviewId) interviews with
     | Some found => saveOfflineInterview (with_status now status error found)
     | None => ret tt
     end)
    (fun error => say ERROR (ErrorUpdatingStatus error) ;; throw error).

(** [deleteSyncedInterview(interviewId)] *)
Definition deleteSyncedInterview (interviewId : string) : Async unit :=
  try_catch
    (interviews <- getOfflineInterviews ;;
     let filtered :=
       List.filter (fun i => negb (is_string (prop i "id") interviewId)) interviews in
     setItem OFFLINE_INTERVIEWS filtered ;;
     say LOG (DeletedInterview interviewId))
    (fun error => say ERROR (ErrorDeleting error) ;; throw error).

End OfflineStorage.

(** ** The reference data cache (class [OfflineDataCacheService]) *)

Module OfflineDataCache.
Import JsString Json Env.
Local Open Scope async_scope.

(** *** All ACs of a state *)

(** [getAllACsForAllStates()].  The console line lists the states in the
    order of [elements]; [Object.keys] lists them as they were inserted. *)
Definition getAllACsForAllStates : Async (gmap string StateACs) :=
  try_catch
    (data <- getItem ALL_ACS_FOR_STATE ;;
     let parsed := default ∅ data in
     say LOG (StatesInCache (elements (dom parsed))) ;;
     ret parsed)
    (fun error => say ERROR (ErrorAllACsForAllStates error) ;; ret ∅).

(** [allACsData[state]?.acs?.length || 0] *)
Definition count_of (allACsData : gmap string StateACs) (state : string) : Z :=
  match allACsData !! state with
  | Some stateData =>
      match acs stateData with
      | Some l => len l
      | None => 0
      end
  | None => 0
  end.

(** [clearACsForState(state)] *)
Definition clearACsForState (state : string) : Async unit :=
  try_catch
    (say LOG (ClearingACCache state) ;;
     allACsData <- getAllACsForAllStates ;;
     let beforeCount := count_of allACsData state in
     say LOG (BeforeClear beforeCount state) ;;
     setItem ALL_ACS_FOR_STATE (delete state allACsData) ;;
     verifyData <- getAllACsForAllStates ;;
     let afterCount := count_of verifyData state in
     if afterCount =? 0
     then say LOG (VerifiedCleared state beforeCount)
     else say ERROR (FailedToClear afterCount))
    (fun error => say ERROR (ErrorClearingACCache error) ;; throw error).

(** [state === 'West Bengal' ? 200 : 50] *)
Definition minExpectedACs (state : string) : Z :=
  if String.eqb state "West Bengal" then 200 else 50.

(** [getAllACsForState(state)] *)
Definition getAllACsForState (state : string) : Async (list JSON) :=
  try_catch
    (allACsData <- getAllACsForAllStates ;;
     match allACsData !! state with
     | Some stateData =>
         match acs stateData with
         | Some cachedACs =>
             let acCount := len cachedACs in
             if minExpectedACs state <=? acCount
             then
               say LOG (FoundCachedACs state acCount) ;;
               ret cachedACs
             else
               say WARN (OnlyFewACs state acCount (minExpectedACs state)) ;;
               say WARN CacheIncompleteClearing ;;
               clearACsForState state ;;
               ret []
         | None => ret []
         end
     | None => ret []
     end)
    (fun error => say ERROR (ErrorAllACsForState error) ;; ret []).

(** *** Polling groups *)

(** [getAllPollingGroups()] *)
Definition getAllPollingGroups : Async (list (string * PollingGroup)) :=
  try_catch
    (data <- getItem POLLING_GROUPS ;;
     ret (default [] data))
    (fun error => say ERROR (ErrorAllPollingGroups error) ;; ret []).

(** [allGroups[key]] *)
Fixpoint group_at (allGroups : list (string * PollingGroup)) (key : string)
  : option PollingGroup :=
  match allGroups with
  | [] => None
  | (k, v) :: rest => if String.eqb k key then Some v else group_at rest key
  end.

(** [x.toLowerCase().replace(/\s*\([^)]*\)\s*/g, '').trim().replace(/\s+/g, ' ')] *)
Definition normalized_name (x : string) : string :=
  collapse_ws (trim (strip_parens (toLowerCase x))).

(** [a === b || a.includes(b) || b.includes(a)] *)
Definition names_agree (a b : string) : bool :=
  String.eqb a b || includes a b || includes b a.

(** The body of the [for] loop of [getPollingGroups] for one entry of the
    cache: the line written when the entry is returned, [None] when the
    loop goes on. *)
Definition entry_found (state acIdentifier normalizedSearchName : string)
    (cachedKey : string) (cachedData : PollingGroup) : option Msg :=
  let prefix := state +:+ "::" in
  if startsWith cachedKey prefix then
    let cachedACIdentifier := remove_first cachedKey prefix in
    let cachedACName := default "" (pg_ac_name cachedData) in
    let normalizedCachedName :=
      if nonempty cachedACName then normalized_name cachedACName else "" in
    if nonempty cachedACName
       && names_agree normalizedCachedName normalizedSearchName
    then Some (FoundByACName acIdentifier cachedACName cachedKey)
    else if is_number_text cachedACIdentifier && nonempty cachedACName
            && names_agree normalizedCachedName normalizedSearchName
    then Some (FoundByACCode acIdentifier cachedACIdentifier cachedACName)
    else
      let normalizedCachedKey := normalized_name cachedACIdentifier in
      if names_agree normalizedCachedKey normalizedSearchName
      then Some (FoundByCacheKey acIdentifier cachedACIdentifier cachedKey)
      else None
  else None.

Fixpoint scan_groups (state acIdentifier normalizedSearchName : string)
    (entries : list (string * PollingGroup)) : option (Msg * PollingGroup) :=
  match entries with
  | [] => None
  | (cachedKey, cachedData) :: rest =>
      match entry_found state acIdentifier normalizedSearchName
              cachedKey cachedData with
      | Some line => Some (line, cachedData)
      | None => scan_groups state acIdentifier normalizedSearchName rest
      end
  end.

(** The keys listed when the search fails. *)
Definition availableKeys (state : string)
    (allGroups : list (string * PollingGroup)) : list string :=
  let prefix := state +:+ "::" in
  map (fun kv =>
         let acId := remove_first (fst kv) prefix in
         let name := default "" (pg_ac_name (snd kv)) in
         acId +:+ " (ac_name: " +:+ (if nonempty name then name else "N/A") +:+ ")")
    (List.filter (fun kv => startsWith (fst kv) prefix) allGroups).

(** [getPollingGroups(state, acIdentifier)]; [None] is [null]. *)
Definition getPollingGroups (state acIdentifier : string)
  : Async (option PollingGroup) :=
  try_catch
    (allGroups <- getAllPollingGroups ;;
     let key := state +:+ "::" +:+ acIdentifier in
     match group_at allGroups key with
     | Some result => ret (Some result)
     | None =>
         let normalizedSearchName := normalized_name acIdentifier in
         match scan_groups state acIdentifier normalizedSearchName allGroups with
         | Some (line, cachedData) =>
             say LOG line ;; ret (Some cachedData)
         | None =>
             say LOG (SearchFailed acIdentifier state) ;;
             let keys := availableKeys state allGroups in
             (if 0 <? len keys
              then say LOG (AvailableCachedACs (take 10 keys) (10 <? len keys))
              else say LOG (NoCachedACs state)) ;;
             ret None
         end
     end)
    (fun error => say ERROR (ErrorPollingGroups error) ;; ret None).

(** *** Bulk download *)

Section BulkDownload.

(** The body of the [try] block of [downloadDependentDataForSurveys]:
    the remote calls and the cache writes of a provisioning run. *)
Variable provisioning : list JSON -> bool -> Async unit.

(** [downloadDependentDataForSurveys(surveys, includeGPS)] *)
Definition downloadDependentDataForSurveys (surveys : list JSON)
    (includeGPS : bool) : Async unit :=
  busy <- field isDownloading ;;
  if busy
  then say LOG DownloadAlreadyInProgress
  else
    assign (set_downloading true) ;;
    say LOG StartingDownload ;;
    say LOG (ProcessingSurveys (len surveys)) ;;
    when (negb includeGPS) (say LOG GPSSkipped) ;;
    try_finally
      (try_catch
         (provisioning surveys includeGPS)
         (fun error => say ERROR (ErrorInDownload error) ;; throw error))
      (set_downloading false).

End BulkDownload.

End OfflineDataCache.


(** ** The properties of the specification, in its own words *)

Module Spec.
Import Json Env OfflineStorage.

(** The completeness floor of a state: 200 for West Bengal, 50 for every
    other state. *)
Definition floor_of (state : string) : Z :=
  if decide (state = "West Bengal") then 200 else 50.

(** A well-formed entry of the interview collection: an object that
    carries an id. *)
Definition well_formed (entry : JSON) : bool :=
  match entry with
  | JObj fields =>
      match get_field fields "id" with
      | Some id => truthy id
      | None => false
      end
  | _ => false
  end.

(** An entry that [listAll] serves: well-formed and not anomalously
    large. *)
Definition served (entry : JSON) : bool :=
  well_formed entry && (size entry <=? 2000000).

(** The status of a record is absent, or one of the four named ones. *)
Definition typed_status (record : JSON) : Prop :=
  prop record "status" = None
  \/ exists st : Status, prop record "status" = Some (JStr (status_text st)).

(** A record of [listPending]: status absent, pending or failed. *)
Definition awaits_sync (record : JSON) : bool :=
  match prop record "status" with
  | None => true
  | Some (JStr s) => String.eqb s "pending" || String.eqb s "failed"
  | Some _ => false
  end.

Definition has_status (record : JSON) (st : Status) : Prop :=
  prop record "status" = Some (JStr (status_text st)).

(** The transitions the specification lists as valid. *)
Definition valid_transition (from to : Status) : bool :=
  match from, to with
  | pending, syncing
  | syncing, synced
  | syncing, failed
  | failed, pending
  | failed, syncing => true
  | _, _ => false
  end.

End Spec.

(** ** Derived views of the interview store *)

Module Views.
Import Json Env OfflineStorage.

(** What [getOfflineInterviews] returns when the storage answers. *)
Definition valid_of (data : option (list JSON)) : list JSON :=
  List.filter kept (default [] data).

(** The storage after [getOfflineInterviews] when the storage answers. *)
Definition healed (s : AsyncStorage) : AsyncStorage :=
  match offline_interviews s with
  | None => s
  | Some l => write OFFLINE_INTERVIEWS (Some (List.filter kept l)) s
  end.

(** The record [saveOfflineInterview] stores for [interview]. *)
Definition stored_form (interview : Obj) : JSON :=
  JObj (interviewToSave interview).

(** [i.id === interviewId] *)
Definition has_id (interviewId : string) (i : JSON) : bool :=
  is_string (prop i "id") interviewId.

(** The collection [saveOfflineInterview] writes when it has read
    [interviews]. *)
Definition upsert (interview : Obj) (interviews : list JSON) : list JSON :=
  let toSave := interviewToSave interview in
  match findIndex (fun i => strict_eq (prop i "id") (get_field interview "id"))
          interviews with
  | Some existingIndex =>
      <[existingIndex := JObj (set_field "survey" JNull toSave)]> interviews
  | None =>
      (interviews
         ++ [JObj (if negb (truthy_value (get_field toSave "status"))
                   then set_field "status" (JStr "pending") toSave
                   else toSave)])%list
  end.

(** A method that runs after another one. *)
Definition and_then {A B} (first : Async A) (second : Async B) : Async B :=
  bind first (fun _ => second).

End Views.

(** ** Concrete worlds *)

Module Examples.
Import Json Env OfflineStorage.

Definition empty_storage : AsyncStorage := {|
  offline_all_acs_for_state := None;
  offline_polling_groups := None;
  offline_interviews := None;
  other_keys := ∅;
|}.

Definition world_of (s : AsyncStorage) (answers : list (option string)) : World :=
  {| storage := s; outcomes := answers; console := []; isDownloading := false |}.

Definition with_interviews (l : list JSON) : AsyncStorage :=
  write OFFLINE_INTERVIEWS (Some l) empty_storage.

Definition interview_a : JSON :=
  JObj [("id", JStr "offline_1_a"); ("surveyId", JStr "s1");
        ("status", JStr "pending")].

Definition interview_b_synced : JSON :=
  JObj [("id", JStr "offline_2_b"); ("surveyId", JStr "s1");
        ("status", JStr "synced")].

Definition interview_c_failed : JSON :=
  JObj [("id", JStr "offline_3_c"); ("surveyId", JStr "s1");
        ("status", JStr "failed")].

Definition interview_d_legacy : JSON :=
  JObj [("id", JStr "offline_4_d"); ("surveyId", JStr "s1")].

Definition entry_without_id : JSON :=
  JObj [("surveyId", JStr "s1"); ("status", JStr "pending")].

(** A collection with one well-formed interview and one entry without
    an id. *)
Definition world_with_corruption : World :=
  world_of (with_interviews [interview_a; entry_without_id]) [].

Definition world_mixed_status : World :=
  world_of (with_interviews
              [interview_a; interview_b_synced; interview_c_failed;
               interview_d_legacy]) [].

(** A collection whose read is rejected by the platform. *)
Definition world_row_too_big : World :=
  world_of (with_interviews [interview_a; interview_b_synced])
    [Some "Row too big to fit into CursorWindow"].

(** No collection at all, and a storage that answers. *)
Definition world_no_data : World := world_of empty_storage [].

Definition world_synced : World :=
  world_of (with_interviews [interview_b_synced]) [].

(** An interview about to be saved, with free text of any length. *)
Definition interview_with_notes (notes : string) : Obj :=
  [("id", JStr "offline_5_e"); ("surveyId", JStr "s1");
   ("survey", JObj [("surveyName", JStr "Household survey")]);
   ("notes", JStr notes); ("status", JStr "pending")].

Fixpoint long_text (n : nat) : string :=
  match n with
  | O => EmptyString
  | S n' => String "a" (long_text n')
  end.

(** An interview of more than 2,000,000 characters. *)
Definition oversized_interview : Obj :=
  interview_with_notes (long_text (Z.to_nat 2000000)).

Definition interview_with_empty_id : Obj :=
  [("id", JStr ""); ("surveyId", JStr "s1"); ("status", JStr "pending")].

(** Two ACs cached for Bihar, far below the floor of 50. *)
Definition bihar_partial : StateACs :=
  {| acs := Some [JStr "Valmiki Nagar"; JStr "Ramnagar"];
     acs_cachedAt := "2025-01-01T00:00:00.000Z" |}.

Definition world_partial_bihar : World :=
  world_of (write ALL_ACS_FOR_STATE (Some {[ "Bihar" := bihar_partial ]})
              empty_storage) [].

(** The polling-groups mapping with the single key "West Bengal::23". *)
Definition example_group : PollingGroup :=
  {| pg_state := "West Bengal"; pg_acIdentifier := "23";
     pg_groups := ["Group 1"; "Group 2"];
     pg_ac_name := Some "Example AC (SC)";
     pg_more := [("cachedAt", JStr "2025-01-01T00:00:00.000Z")] |}.

Definition world_example_group : World :=
  world_of (write POLLING_GROUPS (Some [("West Bengal::23", example_group)])
              empty_storage) [].

(** A provisioning run in flight, and a run that writes to the cache. *)
Definition world_busy : World :=
  {| storage := empty_storage; outcomes := []; console := [];
     isDownloading := true |}.

Definition provisioning_that_writes (surveys : list JSON) (includeGPS : bool)
  : Async unit :=
  setItem POLLING_GROUPS [("West Bengal::23", example_group)].

(** A bundled data set whose only entry for West Bengal is the canonical
    one of Cooch Behar Uttar. *)
Definition cooch_behar_uttar : Bundled.ACRecord := {|
  Bundled.ac_name := "COOCHBEHAR UTTAR (SC)";
  Bundled.pc_no := 1;
  Bundled.pc_name := "COOCH BEHAR (SC)";
  Bundled.district := "COOCH BEHAR";
  Bundled.groups := [];
|}.

Definition bundled_only_canonical : Bundled.PollingStationData :=
  {[ "West Bengal" := [("3", cooch_behar_uttar)] ]}.

End Examples.

(** ** More methods of the three classes

  The console lines of the methods of this part are not recorded; an
  exception raised while a line is built is. *)

Module CacheMore.
Import JsString Json Env OfflineDataCache.
Local Open Scope async_scope.

(** [allGroups[key] = entry]: an existing key keeps its place, a new one is
    added at the end. *)
Fixpoint put_group (key : string) (entry : PollingGroup)
    (allGroups : list (string * PollingGroup)) : list (string * PollingGroup) :=
  match allGroups with
  | [] => [(key, entry)]
  | (k, v) :: rest =>
      if String.eqb k key then (key, entry) :: rest
      else (k, v) :: put_group key entry rest
  end.

(** [{ ...data, state, acIdentifier, cachedAt: now }] *)
Definition stamped_group (now state acIdentifier : string) (data : PollingGroup)
  : PollingGroup :=
  {| pg_state := state;
     pg_acIdentifier := acIdentifier;
     pg_groups := pg_groups data;
     pg_ac_name := pg_ac_name data;
     pg_more := set_field "cachedAt" (JStr now) (pg_more data) |}.

(** [savePollingGroups(state, acIdentifier, data)]; [now] is the value of
    [new Date().toISOString()]. *)
Definition savePollingGroups (now : string) (state acIdentifier : string)
    (data : PollingGroup) : Async unit :=
  try_catch
    (allGroups <- getAllPollingGroups ;;
     let key := state +:+ "::" +:+ acIdentifier in
     setItem POLLING_GROUPS
       (put_group key (stamped_group now state acIdentifier data) allGroups))
    (fun error => throw error).

(** [getAllPollingGroupsForState(state)] *)
Definition getAllPollingGroupsForState (state : string)
  : Async (list PollingGroup) :=
  try_catch
    (allGroups <- getAllPollingGroups ;;
     let stateKey := state +:+ "::" in
     ret (map snd (List.filter (fun kv => startsWith (fst kv) stateKey) allGroups)))
    (fun error => ret []).

(** The message of the [TypeError] of [ac.acName] for [ac] equal to
    [null]. *)
Definition null_property_error : string :=
  "Cannot read property 'acName' of null".

Definition is_null (v : JSON) : bool :=
  match v with JNull => true | _ => false end.

(** [allACsData[state] = entry].  The name "__proto__", when it is not
    an own property of the object, is the accessor of [Object.prototype]:
    the assignment of an object to it replaces the prototype of
    [allACsData] and adds no property, and [JSON.stringify] then writes the
    object as it was. *)
Definition assign_state (state : string) (entry : StateACs)
    (allACsData : gmap string StateACs) : gmap string StateACs :=
  match allACsData !! state with
  | Some _ => <[state := entry]> allACsData
  | None =>
      if String.eqb state "__proto__" then allACsData
      else <[state := entry]> allACsData
  end.

(** [saveAllACsForState(state, acs)].  The second console line evaluates
    [ac.acName || ac] for the first five entries, which throws for
    [null]. *)
Definition saveAllACsForState (now : string) (state : string) (acs : list JSON)
  : Async unit :=
  try_catch
    (when (existsb is_null (take 5 acs)) (throw null_property_error) ;;
     allACsData <- getAllACsForAllStates ;;
     setItem ALL_ACS_FOR_STATE
       (assign_state state {| Env.acs := Some acs; acs_cachedAt := now |}
          allACsData) ;;
     verifyData <- getAllACsForAllStates ;;
     ret tt)
    (fun error => throw error).

(** The keys of [clearAllCache] that are kept as text. *)
Definition cache_text_keys : list string :=
  ["offline_ac_data"; "offline_polling_stations"; "offline_polling_gps";
   "offline_gender_quotas"; "offline_cati_set_numbers"; "offline_user_data"].

(** [AsyncStorage.multiRemove(keys)]: one call of the storage. *)
Definition multiRemove (removal : AsyncStorage -> AsyncStorage) : Async unit :=
  bind storage_call
    (fun _ w => (Resolved tt, set_storage (removal (storage w)) w)).

(** [clearAllCache()] *)
Definition clearAllCache : Async unit :=
  try_catch
    (multiRemove (fun s =>
       {| offline_all_acs_for_state := None;
          offline_polling_groups := None;
          offline_interviews := offline_interviews s;
          other_keys := foldr delete (other_keys s) cache_text_keys |}))
    (fun error => throw error).

(** The start of the body of [downloadDependentDataForSurveys]: the assigned
    ACs and the states of the surveys. *)

(** [list.forEach(...)] of one of the interviewer lists of a survey: the ACs
    it pushes, or the [TypeError] it raises. *)
Definition assignment_acs (assignment : JSON) : option (list JSON) :=
  match assignment with
  | JNull => None
  | _ =>
      match prop assignment "assignedACs" with
      | Some (JArr assigned) => Some assigned
      | _ => Some []
      end
  end.

Fixpoint assignments_acs (assignments : list JSON) : option (list JSON) :=
  match assignments with
  | [] => Some []
  | a :: rest =>
      match assignment_acs a, assignments_acs rest with
      | Some l, Some ls => Some (l ++ ls)%list
      | _, _ => None
      end
  end.

(** [if (survey.k) survey.k.forEach(...)]: a truthy value that is not an
    array has no [forEach]. *)
Definition interviewers_acs (survey : JSON) (k : string) : option (list JSON) :=
  match prop survey k with
  | Some (JArr assignments) => assignments_acs assignments
  | Some v => if truthy v then None else Some []
  | None => Some []
  end.

(** The array [acs] built for one survey; [None] is a [TypeError]. *)
Definition survey_acs (survey : JSON) : option (list JSON) :=
  match survey with
  | JNull => None
  | _ =>
      match interviewers_acs survey "assignedInterviewers",
            interviewers_acs survey "capiInterviewers",
            interviewers_acs survey "catiInterviewers" with
      | Some a, Some b, Some c =>
          let direct :=
            match prop survey "assignedACs" with
            | Some (JArr assigned) => assigned
            | _ => []
            end in
          Some (a ++ b ++ c ++ direct)%list
      | _, _, _ => None
      end
  end.

(** [set.add(x)] for a [Set] of strings, in insertion order. *)
Definition set_add (x : string) (set : list string) : list string :=
  if existsb (String.eqb x) set then set else (set ++ [x])%list.

(** [acs.forEach(ac => { if (ac && typeof ac === 'string') assignedACs.add(ac) })] *)
Fixpoint add_acs (acs : list JSON) (assignedACs : list string) : list string :=
  match acs with
  | [] => assignedACs
  | JStr ac :: rest =>
      add_acs rest (if nonempty ac then set_add ac assignedACs else assignedACs)
  | _ :: rest => add_acs rest assignedACs
  end.

(** The loop over the surveys: the set of assigned ACs, or [None] when a
    survey raises a [TypeError]. *)
Fixpoint collect_acs (surveys : list JSON) (assignedACs : list string)
  : option (list string) :=
  match surveys with
  | [] => Some assignedACs
  | survey :: rest =>
      match survey_acs survey with
      | Some acs => collect_acs rest (add_acs acs assignedACs)
      | None => None
      end
  end.

(** [Array.from(assignedACs)] *)
Definition assigned_acs (surveys : list JSON) : option (list string) :=
  collect_acs surveys [].

End CacheMore.

Module StorageMore.
Import Json Env OfflineStorage CacheMore.
Local Open Scope async_scope.

(** The keys of [clearAllOfflineData] that are kept as text. *)
Definition offline_text_keys : list string :=
  ["offline_surveys"; "sync_queue"; "last_sync"; "survey_download_time"].

(** [clearAllOfflineData()] *)
Definition clearAllOfflineData : Async unit :=
  try_catch
    (multiRemove (fun s =>
       {| offline_all_acs_for_state := offline_all_acs_for_state s;
          offline_polling_groups := offline_polling_groups s;
          offline_interviews := None;
          other_keys := foldr delete (other_keys s) offline_text_keys |}))
    (fun error => throw error).

End StorageMore.

Module BundledMore.
Import JsString Bundled.

(** [data[state][key]] *)
Fixpoint record_at (entries : StateData) (key : string) : option ACRecord :=
  match entries with
  | [] => None
  | (k, v) :: rest => if String.eqb k key then Some v else record_at rest key
  end.

(** The last loop of [getGroupsForAC]. *)
Fixpoint last_resort (normalizedSearch : string) (entries : StateData)
  : option ACRecord :=
  match entries with
  | [] => None
  | (acNo, acData) :: rest =>
      if negb (nonempty (ac_name acData)) then last_resort normalizedSearch rest
      else if String.eqb (toLowerCase (trim (ac_name acData))) normalizedSearch
      then Some acData
      else if String.eqb (toLowerCase (trim (strip_parens (ac_name acData))))
                normalizedSearch
      then Some acData
      else last_resort normalizedSearch rest
  end.

(** What [getGroupsForAC] returns when it does not return [null]: an entry
    of the data set, or a value that is none: the member of
    [Object.prototype] of the name [name] for the path [[name]], the member
    [name] of [Object.prototype[owner]] for [[owner; name]]. *)
Inductive Answer :=
| Record (acData : ACRecord)
| BuiltIn (path : list string).

(** The read of a member of a built-in object of the run-time system. *)
Inductive Probe :=
| Truthy
| Falsy
| Raises.

(** How the promise of [getGroupsForAC] settles; [Returns None] is
    [null], [Throws] a rejection by a [TypeError] of the run-time system. *)
Inductive Outcome :=
| Returns (answer : option Answer)
| Throws.

Section Runtime.

(** [builtin_member owner name]: the read of the property [name] of the
    built-in object [Object.prototype[owner]].  The members of these objects
    are those of the run-time system; they are an argument of the method,
    as the data set is.  A built-in object has no enumerable property of its
    own: [Object.entries] of it is empty. *)
Variable builtin_member : string -> string -> Probe.

(** [getGroupsForAC(state, acIdentifier)] *)
Definition getGroupsForAC (data : PollingStationData)
    (state acIdentifier : string) : Outcome :=
  match JsObject.get (data !! state) state with
  | JsObject.Undefined => Returns None
  | JsObject.Inherited owner =>
      if negb (nonempty acIdentifier) then Returns None
      else
        match builtin_member owner acIdentifier with
        | Raises => Throws
        | Truthy => Returns (Some (BuiltIn [owner; acIdentifier]))
        | Falsy => Returns None
        end
  | JsObject.Own entries =>
      if negb (nonempty acIdentifier) then Returns None
      else
        match JsObject.get (record_at entries acIdentifier) acIdentifier with
        | JsObject.Own found => Returns (Some (Record found))
        | JsObject.Inherited name => Returns (Some (BuiltIn [name]))
        | JsObject.Undefined =>
            let by_name :=
              match findACNumberByName data state acIdentifier with
              | Some acNo =>
                  if nonempty acNo
                  then JsObject.get (record_at entries acNo) acNo
                  else JsObject.Undefined
              | None => JsObject.Undefined
              end in
            match by_name with
            | JsObject.Own found => Returns (Some (Record found))
            | JsObject.Inherited name => Returns (Some (BuiltIn [name]))
            | JsObject.Undefined =>
                Returns (option_map Record
                           (last_resort (toLowerCase (trim acIdentifier)) entries))
            end
        end
  end.

End Runtime.

End BundledMore.

Module MoreExamples.
Import Json Env OfflineStorage Examples CacheMore.

(** A read rejected for another reason than the size of the row. *)
Definition world_locked : World :=
  world_of (with_interviews [interview_a; interview_b_synced])
    [Some "database is locked"].

(** A read that is answered and a write that is rejected. *)
Definition world_write_rejected : World :=
  world_of (with_interviews [interview_a])
    [None; Some "Row too big to fit into CursorWindow"].

Definition interview_e : Obj := interview_with_notes "met at the door".

Definition interview_c_attempts : JSON :=
  JObj [("id", JStr "offline_3_c"); ("surveyId", JStr "s1");
        ("status", JStr "failed"); ("syncAttempts", JNum 2)].

Definition world_attempts : World :=
  world_of (with_interviews [interview_a; interview_c_attempts]) [].

(** Fifty ACs cached for Bihar: the floor of the state. *)
Definition bihar_complete : StateACs :=
  {| acs := Some (replicate 50 (JObj [("acCode", JStr "1");
                                      ("acName", JStr "Valmiki Nagar")]));
     acs_cachedAt := "2025-01-01T00:00:00.000Z" |}.

Definition world_complete_bihar : World :=
  world_of (write ALL_ACS_FOR_STATE (Some {[ "Bihar" := bihar_complete ]})
              empty_storage) [].

Definition world_clear_rejected : World :=
  world_of (write ALL_ACS_FOR_STATE (Some {[ "Bihar" := bihar_partial ]})
              empty_storage) [None; Some "disk full"].

(** A console that already holds a line of the second fallback
    comparison. *)
Definition world_old_line : World :=
  {| storage := storage world_example_group; outcomes := [];
     console := [(LOG, FoundByACCode "Example AC" "23" "Example AC (SC)")];
     isDownloading := false |}.

Definition world_idle : World := world_of empty_storage [].

Definition world_text_keys : World :=
  world_of
    {| offline_all_acs_for_state := Some {[ "Bihar" := bihar_partial ]};
       offline_polling_groups := Some [("West Bengal::23", example_group)];
       offline_interviews := Some [interview_a];
       other_keys := {[ "offline_user_data" := "{}"; "sync_queue" := "[]" ]} |}
    [].




(** Some members of the built-in objects, as a run-time system may answer
    for them: [Object.keys] and the [name] of a function are truthy. *)
Definition example_runtime (owner name : string) : BundledMore.Probe :=
  if String.eqb owner "constructor" && String.eqb name "keys"
  then BundledMore.Truthy
  else if String.eqb name "name" && negb (String.eqb owner "__proto__")
  then BundledMore.Truthy
  else BundledMore.Falsy.

Definition survey_with_acs : JSON :=
  JObj [("_id", JStr "s1");
        ("assignedInterviewers",
         JArr [JObj [("assignedACs", JArr [JStr "Natabari"; JStr "Sitai"])]]);
        ("capiInterviewers",
         JArr [JObj [("assignedACs", JArr [JStr "Sitai"; JStr ""; JNum 7])]]);
        ("assignedACs", JArr [JStr "Dinhata"])].

Definition survey_broken : JSON :=
  JObj [("_id", JStr "s2"); ("catiInterviewers", JStr "none")].

End MoreExamples.

(** ** Proofs *)

Import Json Env.

(** *** The monad *)

Ltac run :=
cbv beta iota zeta delta
  [bind try_catch try_finally ret throw say say_all when
   getItem setItem removeItem storage_call field assign
   set_storage set_downloading] in *;
simpl in *.

(** One case distinction on what the computation looks at next. *)
Ltac step :=
match goal with
| H : outcomes ?w = _ |- context [outcomes ?w] => rewrite H
| |- context [match outcomes ?w with _ => _ end] =>
    destruct (outcomes w) as [|[?|] ?] eqn:?
| |- context [match ?l with [] => _ | _ :: _ => _ end] =>
    is_var l; destruct l as [|[?|] ?]
| |- context [match offline_interviews ?s with _ => _ end] =>
    destruct (offline_interviews s) eqn:?
| |- context [match ?m !! ?k with _ => _ end] => destruct (m !! k) eqn:?
| |- context [match acs ?x with _ => _ end] => destruct (acs x) eqn:?
| |- context [if ?a <=? ?b then _ else _] => destruct (a <=? b) eqn:?
| |- context [if ?a <? ?b then _ else _] => destruct (a <? b) eqn:?
| |- context [if ?a =? ?b then _ else _] => destruct (a =? b) eqn:?
| |- context [if message_includes ?a ?b then _ else _] =>
    destruct (message_includes a b) eqn:?
end; simpl.

Section StorageFacts.

Lemma write_read_interviews v s :
  offline_interviews (write OFFLINE_INTERVIEWS v s) = v.
Proof. reflexivity. Qed.

Lemma write_write_interviews v v' s :
  write OFFLINE_INTERVIEWS v (write OFFLINE_INTERVIEWS v' s)
  = write OFFLINE_INTERVIEWS v s.
Proof. reflexivity. Qed.

Lemma write_same_interviews s :
  write OFFLINE_INTERVIEWS (offline_interviews s) s = s.
Proof. destruct s; reflexivity. Qed.

Lemma filter_all_kept {A} (f : A -> bool) (l : list A) :
  List.length (List.filter f l) = List.length l -> List.filter f l = l.
Proof.
  induction l as [|x l IH]; simpl; [reflexivity|].
  destruct (f x); simpl; intros H.
  - f_equal. apply IH. lia.
  - pose proof (List.filter_length_le f l). lia.
Qed.

Lemma filter_twice {A} (f : A -> bool) (l : list A) :
  List.filter f (List.filter f l) = List.filter f l.
Proof.
  induction l as [|x l IH]; simpl; [reflexivity|].
  destruct (f x) eqn:E; simpl; rewrite ?E, IH; reflexivity.
Qed.

End StorageFacts.

Module StringFacts.
Import JsString.

Lemma length_from_shift acc b s :
  length_from (acc + b) s = acc + length_from b s.
Proof.
  revert b. induction s as [|c t IH]; intros b; simpl; [reflexivity|].
  rewrite <- Z.add_assoc. apply IH.
Qed.

Lemma length_from_acc acc s : length_from acc s = acc + length s.
Proof.
  unfold length. rewrite <- (length_from_shift acc 0 s). f_equal. lia.
Qed.

Lemma length_cons c t : length (String c t) = 1 + length t.
Proof. unfold length at 1. simpl. apply length_from_acc. Qed.

Lemma length_nonneg s : 0 <= length s.
Proof.
  induction s as [|c t IH]; [reflexivity|]. rewrite length_cons. lia.
Qed.

Lemma length_append a b : length (a +:+ b) = length a + length b.
Proof.
  induction a as [|c t IH]; [reflexivity|].
  change (String c t +:+ b) with (String c (t +:+ b)).
  rewrite !length_cons, IH. lia.
Qed.

Lemma length_escape_char c : 1 <= length (Json.escape_char c).
Proof.
  unfold Json.escape_char, Json.escaped.
  repeat match goal with
         | |- context [if ?b then _ else _] => destruct b
         end;
    rewrite ?length_append, ?length_cons;
    pose proof (length_nonneg ""); lia.
Qed.

Lemma length_escape s : length s <= length (Json.escape s).
Proof.
  induction s as [|c t IH]; simpl; [reflexivity|].
  rewrite length_cons, length_append.
  pose proof (length_escape_char c). lia.
Qed.

Lemma length_quote s : length s < length (Json.quote s).
Proof.
  unfold Json.quote. rewrite length_cons, length_append, length_cons.
  pose proof (length_escape s). pose proof (length_nonneg ""). lia.
Qed.

Lemma length_long_text n : length (Examples.long_text n) = Z.of_nat n.
Proof.
  induction n as [|n IH]; [reflexivity|].
  cbn [Examples.long_text]. rewrite length_cons, IH. lia.
Qed.

(** The matches of the regular expression are not empty, so the fuel of
    [strip_parens] is never used up. *)
Lemma trimStart_shorter s : (String.length (trimStart s) <= String.length s)%nat.
Proof.
  induction s as [|c t IH]; simpl; [lia|].
  destruct (is_space c); simpl; lia.
Qed.

Lemma after_close_shorter s rest :
  after_close s = Some rest -> (String.length rest < String.length s)%nat.
Proof.
  revert rest. induction s as [|c t IH]; simpl; intros rest; [discriminate|].
  destruct (Ascii.eqb c ")").
  - intros [= <-]. lia.
  - intros H. apply IH in H. lia.
Qed.

Lemma match_paren_group_shorter s rest :
  match_paren_group s = Some rest ->
  (String.length rest < String.length s)%nat.
Proof.
  unfold match_paren_group. pose proof (trimStart_shorter s) as Hs.
  destruct (trimStart s) as [|c t]; [discriminate|].
  destruct (Ascii.eqb c "("); [|discriminate].
  destruct (after_close t) as [r|] eqn:E; [|discriminate].
  intros [= <-]. apply after_close_shorter in E.
  pose proof (trimStart_shorter r). simpl in Hs. lia.
Qed.

Lemma strip_from_enough n m s :
  (String.length s < n)%nat -> (String.length s < m)%nat ->
  strip_from n s = strip_from m s.
Proof.
  revert m s. induction n as [|n IH]; intros m s Hn Hm; [lia|].
  destruct m as [|m]; [lia|]. simpl.
  destruct (match_paren_group s) as [rest|] eqn:E.
  - apply match_paren_group_shorter in E. apply IH; lia.
  - destruct s as [|c t]; [reflexivity|]. simpl in *. f_equal. apply IH; lia.
Qed.

Lemma length_join_member sep part parts :
  In part parts -> length part <= length (Json.join sep parts).
Proof.
  induction parts as [|p rest IH]; simpl; [tauto|].
  intros [-> | Hin].
  - destruct rest; [lia|]. rewrite length_append.
    pose proof (length_nonneg (sep +:+ Json.join sep (s :: rest))). lia.
  - specialize (IH Hin). destruct rest as [|q rest]; [destruct Hin|].
    rewrite !length_append.
    pose proof (length_nonneg p). pose proof (length_nonneg sep). lia.
Qed.

(** A string property is shorter than the serialized object. *)
Lemma size_string_field fields k text :
  In (k, Json.JStr text) fields ->
  length text < Json.size (Json.JObj fields).
Proof.
  intros Hin. unfold Json.size. cbn [Json.stringify].
  rewrite !length_append.
  pose proof (length_join_member ","
                (Json.quote k +:+ ":" +:+ Json.quote text)
                (map (fun kv => Json.quote (fst kv) +:+ ":" +:+ Json.stringify (snd kv))
                   fields)) as Hj.
  assert (Hmem : In (Json.quote k +:+ ":" +:+ Json.quote text)
                   (map (fun kv => Json.quote (fst kv) +:+ ":"
                                     +:+ Json.stringify (snd kv)) fields)).
  { apply List.in_map_iff. exists (k, Json.JStr text). split; [reflexivity|exact Hin]. }
  specialize (Hj Hmem). rewrite !length_append in Hj.
  pose proof (length_quote text). pose proof (length_nonneg (Json.quote k)).
  pose proof (length_nonneg ":"). pose proof (length_nonneg "{").
  pose proof (length_nonneg "}"). lia.
Qed.

End StringFacts.

Module JsonFacts.

Lemma get_field_set_field_eq k v fields :
  get_field (set_field k v fields) k = Some v.
Proof.
  induction fields as [|[k' v'] rest IH]; simpl.
  - rewrite String.eqb_refl. reflexivity.
  - destruct (String.eqb k' k) eqn:E; simpl.
    + rewrite String.eqb_refl. reflexivity.
    + rewrite E. exact IH.
Qed.

Lemma get_field_set_field_ne k k' v fields :
  String.eqb k k' = false ->
  get_field (set_field k v fields) k' = get_field fields k'.
Proof.
  intros Hne. induction fields as [|[k0 v0] rest IH]; simpl.
  - rewrite Hne. reflexivity.
  - destruct (String.eqb k0 k) eqn:E; simpl.
    + apply String.eqb_eq in E. subst k0. rewrite Hne. reflexivity.
    + rewrite IH. reflexivity.
Qed.

Lemma get_field_drop_field_ne k k' fields :
  String.eqb k k' = false ->
  get_field (drop_field k fields) k' = get_field fields k'.
Proof.
  intros Hne. induction fields as [|[k0 v0] rest IH]; simpl; [reflexivity|].
  destruct (String.eqb k0 k) eqn:E; simpl.
  - apply String.eqb_eq in E. subst k0. rewrite Hne. exact IH.
  - rewrite IH. reflexivity.
Qed.

Lemma set_field_same k v fields :
  get_field fields k = Some v -> set_field k v fields = fields.
Proof.
  induction fields as [|[k0 v0] rest IH]; simpl; [discriminate|].
  destruct (String.eqb k0 k) eqn:E; intros H.
  - apply String.eqb_eq in E. congruence.
  - rewrite IH by exact H. reflexivity.
Qed.

Lemma strict_eq_string v s : strict_eq v (Some (JStr s)) = is_string v s.
Proof. destruct v as [[]|]; reflexivity. Qed.

End JsonFacts.

Module StoreFacts.
Import OfflineStorage Views.

Lemma getOfflineInterviews_resolves w :
  exists l w', getOfflineInterviews w = (Resolved l, w').
Proof.
  unfold getOfflineInterviews. run. repeat step; eauto.
Qed.

Lemma getOfflineInterviews_healthy w :
  outcomes w = [] ->
  exists w',
    getOfflineInterviews w
    = (Resolved (valid_of (offline_interviews (storage w))), w')
    /\ storage w' = healed (storage w)
    /\ outcomes w' = []
    /\ isDownloading w' = isDownloading w.
Proof.
  intros H. unfold getOfflineInterviews, valid_of, healed. run. rewrite H. simpl.
  destruct (offline_interviews (storage w)) as [l|] eqn:E; simpl.
  2:{ eexists. repeat split; simpl; auto. }
  destruct (5000000 <? size (JArr l)); simpl;
    destruct (len (List.filter kept l) <? len l) eqn:Hlt; simpl; rewrite ?H; simpl;
    eexists; (split; [reflexivity|]); simpl; repeat split; auto.
  all: apply Z.ltb_ge in Hlt; unfold len in Hlt.
  all: pose proof (List.filter_length_le kept l) as Hle.
  all: rewrite (filter_all_kept kept l) by lia.
  all: rewrite <- E; symmetry; apply write_same_interviews.
Qed.

Lemma kept_served entry : kept entry = Spec.served entry.
Proof.
  unfold kept, inspect, Spec.served, Spec.well_formed, prop.
  destruct entry as [| b | n | t | items | fields]; simpl; try reflexivity.
  - destruct b; reflexivity.
  - destruct (n =? 0); reflexivity.
  - destruct (JsString.nonempty t); reflexivity.
  - destruct (get_field fields "id") as [id|]; simpl; [|reflexivity].
    destruct (truthy id); simpl; [|reflexivity].
    rewrite Z.leb_antisym. destruct (2000000 <? size (JObj fields)); reflexivity.
Qed.

Lemma filter_kept_served l : List.filter kept l = List.filter Spec.served l.
Proof. apply List.filter_ext. intros; apply kept_served. Qed.

(** C4: with a storage that answers, [getOfflineInterviews] returns
    exactly the entries of the stored collection that are well-formed (an
    object carrying an id) and at most 2,000,000 characters long when
    serialized, in their stored order; the storage key then holds exactly
    these entries, so that a raw read of the key shows only them, and it is
    rewritten only when an entry was dropped. *)
Theorem getOfflineInterviews_filters_and_heals (w : World) (stored : list JSON) :
  outcomes w = [] ->
  offline_interviews (storage w) = Some stored ->
  exists w',
    getOfflineInterviews w = (Resolved (List.filter Spec.served stored), w')
    /\ storage w'
       = write OFFLINE_INTERVIEWS (Some (List.filter Spec.served stored)) (storage w)
    /\ getItem OFFLINE_INTERVIEWS w'
       = (Resolved (Some (List.filter Spec.served stored)), w')
    /\ (List.filter Spec.served stored = stored -> storage w' = storage w).
Proof.
  intros Hok Hst.
  destruct (getOfflineInterviews_healthy w Hok) as (w' & Hrun & Hsto & Hout & _).
  unfold valid_of, healed in *. rewrite Hst in *. simpl in *.
  rewrite filter_kept_served in *.
  exists w'. repeat split; auto.
  - run. rewrite Hout, Hsto. reflexivity.
  - intros Hsame. rewrite Hsto, Hsame, <- Hst. apply write_same_interviews.
Qed.

(** C5, as amended: when the read of the collection is rejected with a
    message that contains "Row too big", [getOfflineInterviews] reports the
    condition on the console, calls [removeItem] on the key (the collection
    is gone when that call resolves, and no other key is touched) and
    resolves with the empty list. *)
Theorem getOfflineInterviews_row_too_big (w : World) (message : string)
    (rest : list (option string)) :
  outcomes w = Some message :: rest ->
  message_includes message "Row too big" = true ->
  exists w',
    getOfflineInterviews w = (Resolved [], w')
    /\ In (ERROR, RowTooBigClearing) (console w')
    /\ (hd None rest = None ->
        storage w' = write OFFLINE_INTERVIEWS None (storage w)).
Proof.
  intros Hout Hmsg. unfold getOfflineInterviews. run.
  rewrite Hout. simpl. rewrite Hmsg. simpl.
  destruct rest as [|[m2|] rest]; simpl; eexists; (split; [reflexivity|]);
    simpl; split; auto; intros Hhd; try discriminate; reflexivity.
Qed.

(** C6: [getPendingInterviews] returns records that [getOfflineInterviews]
    returns, none of them with status synced or syncing; when every status
    is absent or one of the four named ones, it returns exactly the
    records whose status is absent, pending or failed. *)
Theorem getPendingInterviews_subset (w : World) :
  exists all w1 w2,
    getOfflineInterviews w = (Resolved all, w1)
    /\ getPendingInterviews w
       = (Resolved (List.filter is_pending all), w2)
    /\ storage w2 = storage w1
    /\ (forall r, In r (List.filter is_pending all) ->
          In r all /\ ~ Spec.has_status r synced /\ ~ Spec.has_status r syncing)
    /\ (Forall Spec.typed_status all ->
        List.filter is_pending all = List.filter Spec.awaits_sync all).
Proof.
  destruct (getOfflineInterviews_resolves w) as (all & w1 & Hall).
  exists all, w1. unfold getPendingInterviews. run. rewrite Hall.
  eexists. split; [reflexivity|]. split; [reflexivity|]. simpl.
  split; [reflexivity|]. split.
  - intros r Hin. apply List.filter_In in Hin. destruct Hin as [Hin Hp].
    split; [exact Hin|]. unfold is_pending, Spec.has_status in *.
    split; intros Hs; rewrite Hs in Hp; discriminate.
  - intros Hty. clear Hall. induction Hty as [|r l Hr Hl IH]; simpl; [reflexivity|].
    rewrite IH. replace (is_pending r) with (Spec.awaits_sync r); [reflexivity|].
    unfold is_pending, Spec.awaits_sync.
    destruct Hr as [Hr | [st Hr]]; rewrite Hr; simpl; [reflexivity|].
    destruct st; reflexivity.
Qed.

(** *** Saving *)

Lemma valid_of_healed s :
  valid_of (offline_interviews (healed s)) = valid_of (offline_interviews s).
Proof.
  unfold valid_of, healed. destruct (offline_interviews s) eqn:E; simpl.
  - apply filter_twice.
  - rewrite E. reflexivity.
Qed.

Lemma write_healed v s :
  write OFFLINE_INTERVIEWS v (healed s) = write OFFLINE_INTERVIEWS v s.
Proof. unfold healed. destruct (offline_interviews s); reflexivity. Qed.

Lemma saveOfflineInterview_healthy (interview : Obj) (w : World) :
  outcomes w = [] ->
  exists w',
    saveOfflineInterview interview w = (Resolved tt, w')
    /\ storage w'
       = write OFFLINE_INTERVIEWS
           (Some (upsert interview (valid_of (offline_interviews (storage w)))))
           (storage w)
    /\ outcomes w' = []
    /\ isDownloading w' = isDownloading w.
Proof.
  intros Hok.
  destruct (getOfflineInterviews_healthy w Hok) as (w1 & Hrun & Hsto & Hout & Hdl).
  unfold saveOfflineInterview, upsert. run. rewrite Hrun.
  destruct (findIndex _ (valid_of (offline_interviews (storage w)))) as [idx|];
    simpl.
  - match goal with
    | |- context [if ?b then _ else _] => destruct b
    end; simpl; rewrite Hout; simpl; eexists; (split; [reflexivity|]); simpl;
      rewrite Hsto; repeat split; auto; apply (write_healed _ (storage w)).
  - match goal with
    | |- context [if 2000000 <? ?n then _ else _] => destruct (2000000 <? n)
    end; simpl; rewrite Hout; simpl; eexists; (split; [reflexivity|]); simpl;
      rewrite Hsto; repeat split; auto; apply (write_healed _ (storage w)).
Qed.

Lemma findIndex_ext {A} (f g : A -> bool) l :
  (forall a, f a = g a) -> findIndex f l = findIndex g l.
Proof.
  intros H. induction l as [|x l IH]; simpl; [reflexivity|].
  rewrite H, IH. reflexivity.
Qed.

Lemma find_findIndex {A} (f : A -> bool) l a :
  List.find f l = Some a -> exists idx, findIndex f l = Some idx.
Proof.
  induction l as [|x l IH]; simpl; [discriminate|].
  destruct (f x); [eauto|]. intros H. destruct (IH H) as [idx Hidx].
  rewrite Hidx. simpl. eauto.
Qed.

Lemma find_insert_first {A} (f : A -> bool) l idx r :
  findIndex f l = Some idx -> f r = true ->
  List.find f (<[idx := r]> l) = Some r.
Proof.
  revert idx. induction l as [|x l IH]; simpl; intros idx; [discriminate|].
  destruct (f x) eqn:E.
  - intros [= <-] Hr. simpl. rewrite Hr. reflexivity.
  - destruct (findIndex f l) as [i|]; simpl; [|discriminate].
    intros [= <-] Hr. simpl. rewrite E. apply IH; auto.
Qed.

Lemma find_app_last {A} (f : A -> bool) l r :
  findIndex f l = None -> f r = true ->
  List.find f (l ++ [r])%list = Some r.
Proof.
  induction l as [|x l IH]; simpl; intros Hnone Hr.
  - rewrite Hr. reflexivity.
  - destruct (f x); [discriminate|].
    destruct (findIndex f l); [discriminate|]. apply IH; auto.
Qed.

Lemma kept_valid_of data : Forall (fun i => kept i = true) (valid_of data).
Proof.
  unfold valid_of. apply List.Forall_forall. intros x Hx.
  apply List.filter_In in Hx. tauto.
Qed.

Lemma valid_of_all_kept l :
  Forall (fun i => kept i = true) l -> valid_of (Some l) = l.
Proof.
  intros H. unfold valid_of. simpl. apply List.forallb_filter_id.
  apply List.forallb_forall. rewrite List.Forall_forall in H. exact H.
Qed.

Lemma interviewToSave_field interview k :
  String.eqb "survey" k = false -> String.eqb "surveyName" k = false ->
  get_field (interviewToSave interview) k = get_field interview k.
Proof.
  intros H1 H2. unfold interviewToSave.
  destruct (surveyName_to_keep interview).
  - rewrite JsonFacts.get_field_set_field_ne by exact H2.
    apply JsonFacts.get_field_set_field_ne; exact H1.
  - rewrite JsonFacts.get_field_drop_field_ne by exact H2.
    apply JsonFacts.get_field_set_field_ne; exact H1.
Qed.

Lemma interviewToSave_survey interview :
  get_field (interviewToSave interview) "survey" = Some JNull.
Proof.
  unfold interviewToSave. destruct (surveyName_to_keep interview).
  - rewrite JsonFacts.get_field_set_field_ne by reflexivity.
    apply JsonFacts.get_field_set_field_eq.
  - rewrite JsonFacts.get_field_drop_field_ne by reflexivity.
    apply JsonFacts.get_field_set_field_eq.
Qed.

(** The collection written for an interview that has a string id: the
    record is put in the place of the first record with that id, or added
    at the end. *)
Lemma upsert_by_id interview id l :
  get_field interview "id" = Some (JStr id) ->
  upsert interview l
  = match findIndex (has_id id) l with
    | Some idx => <[idx := stored_form interview]> l
    | None =>
        (l ++ [JObj (if negb (truthy_value (get_field interview "status"))
                     then set_field "status" (JStr "pending")
                            (interviewToSave interview)
                     else interviewToSave interview)])%list
    end.
Proof.
  intros Hid. unfold upsert, stored_form. rewrite Hid.
  rewrite (findIndex_ext _ (has_id id)) by (intros; apply JsonFacts.strict_eq_string).
  rewrite (JsonFacts.set_field_same "survey" JNull)
    by apply interviewToSave_survey.
  rewrite (interviewToSave_field interview "status") by reflexivity.
  reflexivity.
Qed.

(** C3, as amended: with a storage that answers, for an interview whose id
    is a non-empty string, whose status is one of the four named ones and
    whose stored form is at most 2,000,000 characters long when serialized,
    [saveOfflineInterview] followed by [getOfflineInterviewById] resolves
    with the stored form of the interview: same id, same status, and
    [survey] equal to [null]. *)
Theorem save_then_get_by_id (interview : Obj) (id : string) (st : Status)
    (w : World) :
  outcomes w = [] ->
  get_field interview "id" = Some (JStr id) ->
  JsString.nonempty id = true ->
  get_field interview "status" = Some (JStr (status_text st)) ->
  size (stored_form interview) <= 2000000 ->
  exists w',
    and_then (saveOfflineInterview interview) (getOfflineInterviewById id) w
    = (Resolved (Some (stored_form interview)), w')
    /\ prop (stored_form interview) "id" = Some (JStr id)
    /\ prop (stored_form interview) "status" = Some (JStr (status_text st))
    /\ prop (stored_form interview) "survey" = Some JNull.
Proof.
  intros Hok Hid Hne Hst Hsize.
  assert (Pid : prop (stored_form interview) "id" = Some (JStr id)).
  { simpl. rewrite interviewToSave_field by reflexivity. exact Hid. }
  assert (Pst : prop (stored_form interview) "status"
                = Some (JStr (status_text st))).
  { simpl. rewrite interviewToSave_field by reflexivity. exact Hst. }
  assert (Hkept : kept (stored_form interview) = true).
  { rewrite kept_served. unfold Spec.served, Spec.well_formed.
    simpl in Pid. simpl. rewrite Pid. simpl. rewrite Hne. simpl.
    apply Z.leb_le. exact Hsize. }
  assert (Hhas : has_id id (stored_form interview) = true).
  { unfold has_id. rewrite Pid. simpl. apply String.eqb_refl. }
  destruct (saveOfflineInterview_healthy interview w Hok)
    as (w1 & Hsave & Hsto1 & Hout1 & _).
  destruct (getOfflineInterviews_healthy w1 Hout1) as (w2 & Hget & _).
  set (valid := valid_of (offline_interviews (storage w))) in *.
  assert (Hup : upsert interview valid
                = match findIndex (has_id id) valid with
                  | Some idx => <[idx := stored_form interview]> valid
                  | None => (valid ++ [stored_form interview])%list
                  end).
  { rewrite (upsert_by_id interview id) by exact Hid.
    rewrite Hst. destruct st; reflexivity. }
  assert (Hall : Forall (fun i => kept i = true) (upsert interview valid)).
  { rewrite Hup. pose proof (kept_valid_of (offline_interviews (storage w))) as Hv.
    fold valid in Hv. destruct (findIndex (has_id id) valid).
    - apply Forall_insert; assumption.
    - apply Forall_app. split; [assumption|]. constructor; [assumption|constructor]. }
  assert (Hfind : List.find (has_id id) (upsert interview valid)
                  = Some (stored_form interview)).
  { rewrite Hup. destruct (findIndex (has_id id) valid) eqn:E.
    - apply find_insert_first; assumption.
    - apply find_app_last; assumption. }
  rewrite Hsto1 in Hget. rewrite write_read_interviews in Hget.
  rewrite (valid_of_all_kept _ Hall) in Hget.
  unfold and_then, getOfflineInterviewById. run.
  rewrite Hsave, Hget. fold (has_id id). rewrite Hfind.
  eexists. split; [reflexivity|]. split; [exact Pid|]. split; [exact Pst|].
  simpl. apply interviewToSave_survey.
Qed.

Lemma with_status_id now target error found id :
  has_id id found = true ->
  get_field (with_status now target error found) "id" = Some (JStr id).
Proof.
  unfold has_id, with_status. destruct found; simpl; try discriminate.
  destruct (get_field fields "id") as [[]|] eqn:E; simpl; try discriminate.
  intros H. apply String.eqb_eq in H. subst.
  destruct error as [message|]; [destruct (JsString.nonempty message)|];
    rewrite ?JsonFacts.get_field_set_field_ne by reflexivity; exact E.
Qed.

Lemma with_status_status now target error found :
  get_field (with_status now target error found) "status"
  = Some (JStr (status_text target)).
Proof.
  unfold with_status.
  destruct error as [message|]; [destruct (JsString.nonempty message)|];
    rewrite ?JsonFacts.get_field_set_field_ne by reflexivity;
    apply JsonFacts.get_field_set_field_eq.
Qed.

(** C2, as amended: with a storage that answers, [updateInterviewStatus]
    gives the requested status to the first served record with the given
    id, whatever the status of that record was (synced included): after
    the call the record found under the id has the requested status. *)
Theorem updateInterviewStatus_sets_any_status (now interviewId : string)
    (target : Status) (error : option string) (w : World) (found : JSON) :
  outcomes w = [] ->
  List.find (has_id interviewId) (valid_of (offline_interviews (storage w)))
  = Some found ->
  exists w' stored updated,
    updateInterviewStatus now interviewId target error w = (Resolved tt, w')
    /\ offline_interviews (storage w') = Some stored
    /\ List.find (has_id interviewId) stored = Some updated
    /\ Spec.has_status updated target.
Proof.
  intros Hok Hfound.
  destruct (getOfflineInterviews_healthy w Hok) as (w1 & Hget & Hsto1 & Hout1 & _).
  set (interview := with_status now target error found).
  destruct (saveOfflineInterview_healthy interview w1 Hout1)
    as (w2 & Hsave & Hsto2 & _).
  assert (Hhas : has_id interviewId found = true).
  { apply List.find_some in Hfound. tauto. }
  assert (Hid : get_field interview "id" = Some (JStr interviewId))
    by (apply with_status_id; exact Hhas).
  rewrite Hsto1, valid_of_healed in Hsto2.
  set (valid := valid_of (offline_interviews (storage w))) in *.
  destruct (find_findIndex _ _ _ Hfound) as [idx Hidx].
  rewrite (upsert_by_id interview interviewId) in Hsto2 by exact Hid.
  rewrite Hidx in Hsto2.
  exists w2, (<[idx := stored_form interview]> valid), (stored_form interview).
  split.
  - unfold updateInterviewStatus. run. rewrite Hget.
    fold (has_id interviewId). fold valid. rewrite Hfound.
    fold interview. rewrite Hsave. reflexivity.
  - split; [rewrite Hsto2; reflexivity|]. split.
    + apply find_insert_first; [exact Hidx|].
      unfold has_id. simpl. rewrite interviewToSave_field by reflexivity.
      rewrite Hid. simpl. apply String.eqb_refl.
    + unfold Spec.has_status. simpl. rewrite interviewToSave_field by reflexivity.
      apply with_status_status.
Qed.

(** C10, as amended: with a storage that answers, [deleteSyncedInterview]
    leaves under the key the entries served by [getOfflineInterviews] whose
    id differs from the given one, in their order, and touches no other
    key; when every stored entry is served and none has the given id, the
    stored collection is unchanged. *)
Theorem deleteSyncedInterview_frame (w : World) (interviewId : string) :
  outcomes w = [] ->
  exists w',
    deleteSyncedInterview interviewId w = (Resolved tt, w')
    /\ storage w'
       = write OFFLINE_INTERVIEWS
           (Some (List.filter (fun i => negb (has_id interviewId i))
                    (List.filter Spec.served
                       (default [] (offline_interviews (storage w))))))
           (storage w)
    /\ (forall stored,
          offline_interviews (storage w) = Some stored ->
          Forall (fun i => Spec.served i = true) stored ->
          Forall (fun i => has_id interviewId i = false) stored ->
          storage w' = storage w).
Proof.
  intros Hok.
  destruct (getOfflineInterviews_healthy w Hok) as (w1 & Hrun & Hsto & Hout & _).
  unfold deleteSyncedInterview. run. rewrite Hrun, Hout. simpl.
  eexists. split; [reflexivity|]. simpl. rewrite Hsto.
  unfold valid_of, healed, has_id. rewrite ?filter_kept_served.
  split.
  - destruct (offline_interviews (storage w)); reflexivity.
  - intros stored Hst Hserved Hid. rewrite Hst. simpl.
    rewrite (List.forallb_filter_id Spec.served stored).
    + rewrite List.forallb_filter_id.
      * destruct (storage w); simpl in *; subst; reflexivity.
      * apply List.forallb_forall. rewrite List.Forall_forall in Hid.
        intros x Hx. rewrite (Hid x Hx). reflexivity.
    + apply List.forallb_forall. rewrite List.Forall_forall in Hserved. auto.
Qed.

End StoreFacts.

Module CacheFacts.
Import JsString OfflineDataCache.

Lemma minExpectedACs_floor state : minExpectedACs state = Spec.floor_of state.
Proof.
  unfold minExpectedACs, Spec.floor_of.
  destruct (String.eqb_spec state "West Bengal"); case_decide; congruence.
Qed.

Lemma getAllACsForAllStates_healthy w :
  outcomes w = [] ->
  exists w',
    getAllACsForAllStates w
    = (Resolved (default ∅ (offline_all_acs_for_state (storage w))), w')
    /\ storage w' = storage w /\ outcomes w' = []
    /\ isDownloading w' = isDownloading w.
Proof.
  intros H. unfold getAllACsForAllStates. run. rewrite H. simpl.
  eexists. split; [reflexivity|]. simpl. auto.
Qed.

Lemma getAllACsForState_serves (state : string) (w : World) :
  exists l w',
    getAllACsForState state w = (Resolved l, w')
    /\ (l = [] \/ Spec.floor_of state <= len l).
Proof.
  rewrite <- minExpectedACs_floor.
  unfold getAllACsForState, clearACsForState, getAllACsForAllStates. run.
  repeat step; eexists; eexists; (split; [reflexivity|]); auto.
  all: right; apply Z.leb_le; assumption.
Qed.

Lemma getAllACsForState_evicts state w m entry cached :
  outcomes w = [] ->
  offline_all_acs_for_state (storage w) = Some m ->
  m !! state = Some entry ->
  acs entry = Some cached ->
  len cached < Spec.floor_of state ->
  exists w_mid w',
    getAllACsForState state w = (Resolved [], w')
    /\ storage w_mid = storage w
    /\ clearACsForState state w_mid = (Resolved tt, w')
    /\ storage w' = write ALL_ACS_FOR_STATE (Some (delete state m)) (storage w).
Proof.
  intros Hok Hm Hentry Hacs Hfew. rewrite <- minExpectedACs_floor in Hfew.
  apply Z.leb_gt in Hfew.
  unfold getAllACsForState, getAllACsForAllStates. run.
  rewrite Hok. simpl. rewrite Hm. simpl. rewrite Hentry, Hacs, Hfew. simpl.
  match goal with
  | |- context [clearACsForState state ?x] => exists x
  end.
  unfold clearACsForState, getAllACsForAllStates. run.
  rewrite Hok. simpl. rewrite Hm. simpl.
  destruct (count_of (delete state m) state =? 0); simpl;
    eexists; repeat split; reflexivity.
Qed.

(** C1: [getAllACsForState] resolves with the empty list or with a list
    of at least the completeness floor of the state (200 for West Bengal,
    50 otherwise); when the storage answers and the cached entry of the
    state is below the floor, the call resolves with the empty list after
    [clearACsForState] has removed the entry of the state from the
    stored mapping. *)
Theorem getAllACsForState_floor (state : string) (w : World) :
  exists l w',
    getAllACsForState state w = (Resolved l, w')
    /\ (l = [] \/ Spec.floor_of state <= len l)
    /\ (forall m entry cached,
          outcomes w = [] ->
          offline_all_acs_for_state (storage w) = Some m ->
          m !! state = Some entry ->
          acs entry = Some cached ->
          len cached < Spec.floor_of state ->
          l = []
          /\ (exists w_mid,
                storage w_mid = storage w
                /\ clearACsForState state w_mid = (Resolved tt, w'))
          /\ storage w'
             = write ALL_ACS_FOR_STATE (Some (delete state m)) (storage w)
          /\ default ∅ (offline_all_acs_for_state (storage w')) !! state = None).
Proof.
  destruct (getAllACsForState_serves state w) as (l & w' & Hrun & Hfloor).
  exists l, w'. split; [exact Hrun|]. split; [exact Hfloor|].
  intros m entry cached Hok Hm Hentry Hacs Hfew.
  destruct (getAllACsForState_evicts state w m entry cached Hok Hm Hentry Hacs Hfew)
    as (w_mid & w2 & Hrun2 & Hmid & Hclear & Hsto).
  rewrite Hrun in Hrun2. injection Hrun2 as -> ->.
  split; [reflexivity|]. split; [eauto|]. split; [exact Hsto|].
  rewrite Hsto. simpl. apply lookup_delete_eq.
Qed.

Lemma example_tier_by_name (cachedData : PollingGroup) :
  pg_ac_name cachedData = Some "Example AC (SC)" ->
  entry_found "West Bengal" "Example AC" (normalized_name "Example AC")
    "West Bengal::23" cachedData
  = Some (FoundByACName "Example AC" "Example AC (SC)" "West Bengal::23").
Proof.
  intros H. unfold entry_found. rewrite H. vm_compute. reflexivity.
Qed.

(** The body of the loop for the entry of the example, for any search. *)
Lemma example_entry_found (cachedData : PollingGroup) (acIdentifier search : string) :
  pg_ac_name cachedData = Some "Example AC (SC)" ->
  entry_found "West Bengal" acIdentifier search "West Bengal::23" cachedData
  = if String.eqb "example ac" search || includes "example ac" search
       || includes search "example ac"
    then Some (FoundByACName acIdentifier "Example AC (SC)" "West Bengal::23")
    else if String.eqb "23" search || includes "23" search || includes search "23"
    then Some (FoundByCacheKey acIdentifier "23" "West Bengal::23")
    else None.
Proof.
  intros H. unfold entry_found. rewrite H.
  change (startsWith "West Bengal::23" ("West Bengal" +:+ "::")) with true.
  change (remove_first "West Bengal::23" ("West Bengal" +:+ "::")) with "23".
  change (default "" (Some "Example AC (SC)")) with "Example AC (SC)".
  cbv beta iota zeta.
  change (nonempty "Example AC (SC)") with true.
  change (normalized_name "Example AC (SC)") with "example ac".
  change (is_number_text "23") with true.
  change (normalized_name "23") with "23".
  cbv beta iota. unfold names_agree.
  destruct (String.eqb "example ac" search || includes "example ac" search
            || includes search "example ac"); reflexivity.
Qed.

(** What [getPollingGroups] does when the storage answers: the entry of
    the exact key, or else what the scan of the entries finds. *)
Lemma getPollingGroups_exact state acIdentifier w allGroups result :
  outcomes w = [] ->
  offline_polling_groups (storage w) = Some allGroups ->
  group_at allGroups (state +:+ "::" +:+ acIdentifier) = Some result ->
  exists w',
    getPollingGroups state acIdentifier w = (Resolved (Some result), w')
    /\ storage w' = storage w
    /\ console w' = console w.
Proof.
  intros Hok Hgroups Hhit.
  unfold getPollingGroups, getAllPollingGroups. run.
  rewrite Hok. simpl. rewrite Hgroups. simpl. rewrite Hhit. simpl.
  eexists. repeat split.
Qed.

Lemma getPollingGroups_scan state acIdentifier w allGroups :
  outcomes w = [] ->
  offline_polling_groups (storage w) = Some allGroups ->
  group_at allGroups (state +:+ "::" +:+ acIdentifier) = None ->
  forall found,
    scan_groups state acIdentifier (normalized_name acIdentifier) allGroups
    = found ->
    exists w',
      getPollingGroups state acIdentifier w = (Resolved (option_map snd found), w')
      /\ storage w' = storage w
      /\ (forall line g, found = Some (line, g) ->
                         console w' = (LOG, line) :: console w).
Proof.
  intros Hok Hgroups Hmiss found Hscan.
  unfold getPollingGroups, getAllPollingGroups. run.
  rewrite Hok. simpl. rewrite Hgroups. simpl. rewrite Hmiss, Hscan.
  destruct found as [[line g]|]; simpl.
  - eexists. split; [reflexivity|]. split; [reflexivity|].
    intros line' g' [= <- <-]. reflexivity.
  - destruct (0 <? len (availableKeys state allGroups)); simpl;
      eexists; (split; [reflexivity|]); (split; [reflexivity|]);
      intros line g [=].
Qed.

(** C8: when the polling-groups mapping holds the single key
    "West Bengal::23" and its entry has [ac_name] "Example AC (SC)", the
    lookup of "Example AC" under "West Bengal" misses the exact key and
    resolves with that entry, found by the comparison of normalized AC names
    (first tier of the fallback scan), and leaves the storage as it was.
    Both names have the normal form "example ac": lower case, the remark in
    parentheses removed, white space trimmed and collapsed.  For every
    identifier the lookup returns the entry exactly when the normal form of
    the identifier is equal to, contains or is contained in "example ac",
    the normal form of the stored name, or "23", the rest of the key; it
    returns [null] otherwise. *)
Theorem getPollingGroups_fallback_by_name (w : World) (cachedData : PollingGroup) :
  outcomes w = [] ->
  offline_polling_groups (storage w) = Some [("West Bengal::23", cachedData)] ->
  pg_ac_name cachedData = Some "Example AC (SC)" ->
  (exists w',
     getPollingGroups "West Bengal" "Example AC" w = (Resolved (Some cachedData), w')
     /\ console w'
        = (LOG, FoundByACName "Example AC" "Example AC (SC)" "West Bengal::23")
            :: console w
     /\ storage w' = storage w)
  /\ group_at [("West Bengal::23", cachedData)] "West Bengal::Example AC" = None
  /\ normalized_name "Example AC (SC)" = "example ac"
  /\ normalized_name "Example AC" = "example ac"
  /\ (forall acIdentifier,
        let search :=
          collapse_ws (trim (strip_parens (toLowerCase acIdentifier))) in
        let by_name :=
          String.eqb "example ac" search || includes "example ac" search
          || includes search "example ac" in
        let by_key :=
          String.eqb "23" search || includes "23" search || includes search "23" in
        exists w',
          getPollingGroups "West Bengal" acIdentifier w
          = (Resolved (if by_name || by_key then Some cachedData else None), w')
          /\ storage w' = storage w
          /\ (acIdentifier <> "23" -> by_name = true ->
              console w'
              = (LOG, FoundByACName acIdentifier "Example AC (SC)"
                        "West Bengal::23") :: console w)).
Proof.
  intros Hok Hgroups Hname.
  assert (Hall :
            forall acIdentifier,
              let search :=
                collapse_ws (trim (strip_parens (toLowerCase acIdentifier))) in
              let by_name :=
                String.eqb "example ac" search || includes "example ac" search
                || includes search "example ac" in
              let by_key :=
                String.eqb "23" search || includes "23" search
                || includes search "23" in
              exists w',
                getPollingGroups "West Bengal" acIdentifier w
                = (Resolved (if by_name || by_key then Some cachedData else None),
                   w')
                /\ storage w' = storage w
                /\ (acIdentifier <> "23" -> by_name = true ->
                    console w'
                    = (LOG, FoundByACName acIdentifier "Example AC (SC)"
                              "West Bengal::23") :: console w)).
  { intros acIdentifier search by_name by_key.
    assert (Hkey : group_at [("West Bengal::23", cachedData)]
                     ("West Bengal" +:+ "::" +:+ acIdentifier)
                   = if String.eqb "23" acIdentifier then Some cachedData else None)
      by reflexivity.
    destruct (String.eqb "23" acIdentifier) eqn:Ekey.
    - destruct (getPollingGroups_exact "West Bengal" acIdentifier w _ cachedData
                  Hok Hgroups Hkey) as (w' & Hrun & Hsto & _).
      apply String.eqb_eq in Ekey. subst acIdentifier.
      exists w'. split; [exact Hrun|]. split; [exact Hsto|].
      intros Hne. exfalso. apply Hne. reflexivity.
    - assert (Hscan :
                scan_groups "West Bengal" acIdentifier (normalized_name acIdentifier)
                  [("West Bengal::23", cachedData)]
                = if by_name
                  then Some (FoundByACName acIdentifier "Example AC (SC)"
                               "West Bengal::23", cachedData)
                  else if by_key
                  then Some (FoundByCacheKey acIdentifier "23" "West Bengal::23",
                             cachedData)
                  else None).
      { cbn [scan_groups].
        rewrite (example_entry_found cachedData acIdentifier
                   (normalized_name acIdentifier) Hname).
        change (normalized_name acIdentifier) with search.
        fold by_name. fold by_key.
        destruct by_name; [reflexivity|]. destruct by_key; reflexivity. }
      destruct (getPollingGroups_scan "West Bengal" acIdentifier w _
                  Hok Hgroups Hkey _ Hscan) as (w' & Hrun & Hsto & Hline).
      exists w'. split; [|split; [exact Hsto|]].
      + rewrite Hrun. destruct by_name; [reflexivity|].
        destruct by_key; reflexivity.
      + intros _ Hby. rewrite Hby in Hline. apply (Hline _ _ eq_refl). }
  split; [|split; [|split; [|split]]].
  - destruct (Hall "Example AC") as (w' & Hrun & Hsto & Hline).
    exists w'. split; [exact Hrun|]. split; [|exact Hsto].
    apply Hline; [discriminate|reflexivity].
  - reflexivity.
  - vm_compute. reflexivity.
  - vm_compute. reflexivity.
  - exact Hall.
Qed.

(** C9: while [isDownloading] is set, [downloadDependentDataForSurveys]
    resolves at once, whatever the provisioning run would do: the storage,
    the pending storage answers and the flag are unchanged, and only the
    line telling that a download is in progress is written. *)
Theorem downloadDependentDataForSurveys_busy
    (provisioning : list JSON -> bool -> Async unit)
    (surveys : list JSON) (includeGPS : bool) (w : World) :
  isDownloading w = true ->
  downloadDependentDataForSurveys provisioning surveys includeGPS w
  = (Resolved tt,
     {| storage := storage w; outcomes := outcomes w;
        console := (LOG, DownloadAlreadyInProgress) :: console w;
        isDownloading := true |}).
Proof.
  intros Hbusy. unfold downloadDependentDataForSurveys. run.
  rewrite Hbusy. simpl. rewrite Hbusy. reflexivity.
Qed.

(** A call made by the provisioning run itself, that is while the first
    call is in flight, does nothing: the first call has set the flag before
    its body starts, and clears it when the body is over. *)
Lemma downloadDependentDataForSurveys_reentrant
    (provisioning : list JSON -> bool -> Async unit)
    (surveys : list JSON) (includeGPS : bool) (w : World) :
  isDownloading w = false ->
  exists w',
    downloadDependentDataForSurveys
      (fun again gps => downloadDependentDataForSurveys provisioning again gps)
      surveys includeGPS w
    = (Resolved tt, w')
    /\ storage w' = storage w
    /\ outcomes w' = outcomes w
    /\ isDownloading w' = false.
Proof.
  intros Hidle. unfold downloadDependentDataForSurveys. run.
  rewrite Hidle. destruct includeGPS; simpl; eexists; repeat split.
Qed.

End CacheFacts.

Module BundledFacts.
Import JsString Bundled ACName.









End BundledFacts.

(** *** The theorems at concrete inputs *)

Module Checks.
Import OfflineStorage OfflineDataCache Views Examples.

Lemma getAllACsForState_floor_witness :
  outcomes world_partial_bihar = []
  /\ offline_all_acs_for_state (storage world_partial_bihar)
     = Some {[ "Bihar" := bihar_partial ]}
  /\ ({[ "Bihar" := bihar_partial ]} : gmap string StateACs) !! "Bihar"
     = Some bihar_partial
  /\ len [JStr "Valmiki Nagar"; JStr "Ramnagar"] < Spec.floor_of "Bihar"
  /\ exists w',
       getAllACsForState "Bihar" world_partial_bihar = (Resolved [], w')
       /\ default ∅ (offline_all_acs_for_state (storage w')) !! "Bihar" = None.
Proof.
  assert (H1 : outcomes world_partial_bihar = []) by reflexivity.
  assert (H2 : offline_all_acs_for_state (storage world_partial_bihar)
               = Some {[ "Bihar" := bihar_partial ]}) by reflexivity.
  assert (H3 : ({[ "Bihar" := bihar_partial ]} : gmap string StateACs) !! "Bihar"
               = Some bihar_partial) by apply lookup_singleton_eq.
  assert (H4 : len [JStr "Valmiki Nagar"; JStr "Ramnagar"] < Spec.floor_of "Bihar")
    by (vm_compute; reflexivity).
  repeat (split; [assumption|]).
  destruct (CacheFacts.getAllACsForState_floor "Bihar" world_partial_bihar)
    as (l & w' & Hrun & _ & Hev).
  destruct (Hev _ _ _ H1 H2 H3 eq_refl H4) as (-> & _ & _ & Hgone).
  exists w'. split; assumption.
Defined.

Lemma getPollingGroups_fallback_witness :
  outcomes world_example_group = []
  /\ offline_polling_groups (storage world_example_group)
     = Some [("West Bengal::23", example_group)]
  /\ pg_ac_name example_group = Some "Example AC (SC)"
  /\ (exists w',
        getPollingGroups "West Bengal" "Example AC" world_example_group
        = (Resolved (Some example_group), w'))
  /\ (exists w',
        getPollingGroups "West Bengal" "  EXAMPLE   ac (General) "
          world_example_group
        = (Resolved (Some example_group), w'))
  /\ (exists w',
        getPollingGroups "West Bengal" "Sitalkuchi" world_example_group
        = (Resolved None, w')).
Proof.
  repeat (split; [reflexivity|]).
  destruct (CacheFacts.getPollingGroups_fallback_by_name
              world_example_group example_group eq_refl eq_refl eq_refl)
    as ((w' & Hrun & _) & _ & _ & _ & Hall).
  split; [exists w'; exact Hrun|]. split.
  - destruct (Hall "  EXAMPLE   ac (General) ") as (w1 & Hrun1 & _).
    exists w1. exact Hrun1.
  - destruct (Hall "Sitalkuchi") as (w2 & Hrun2 & _).
    exists w2. exact Hrun2.
Defined.

Lemma downloadDependentDataForSurveys_busy_witness :
  isDownloading world_busy = true
  /\ downloadDependentDataForSurveys provisioning_that_writes
       [JObj [("_id", JStr "s1")]] true world_busy
     = (Resolved tt,
        {| storage := empty_storage; outcomes := [];
           console := [(LOG, DownloadAlreadyInProgress)];
           isDownloading := true |}).
Proof.
  split; [reflexivity|].
  apply (CacheFacts.downloadDependentDataForSurveys_busy
           provisioning_that_writes [JObj [("_id", JStr "s1")]] true world_busy).
  reflexivity.
Defined.

(** *** The interview store *)

Lemma getOfflineInterviews_filters_witness :
  outcomes world_with_corruption = []
  /\ offline_interviews (storage world_with_corruption)
     = Some [interview_a; entry_without_id]
  /\ exists w',
       getOfflineInterviews world_with_corruption = (Resolved [interview_a], w')
       /\ getItem OFFLINE_INTERVIEWS w' = (Resolved (Some [interview_a]), w').
Proof.
  repeat (split; [reflexivity|]).
  destruct (StoreFacts.getOfflineInterviews_filters_and_heals
              world_with_corruption [interview_a; entry_without_id]
              eq_refl eq_refl)
    as (w' & Hrun & _ & Hraw & _).
  exists w'. split; [exact Hrun | exact Hraw].
Defined.

Lemma getOfflineInterviews_row_too_big_witness :
  outcomes world_row_too_big = [Some "Row too big to fit into CursorWindow"]
  /\ message_includes "Row too big to fit into CursorWindow" "Row too big" = true
  /\ exists w',
       getOfflineInterviews world_row_too_big = (Resolved [], w')
       /\ In (ERROR, RowTooBigClearing) (console w')
       /\ offline_interviews (storage w') = None.
Proof.
  repeat (split; [reflexivity|]).
  destruct (StoreFacts.getOfflineInterviews_row_too_big world_row_too_big
              "Row too big to fit into CursorWindow" [] eq_refl eq_refl)
    as (w' & Hrun & Hlog & Hgone).
  exists w'. split; [exact Hrun|]. split; [exact Hlog|].
  rewrite (Hgone eq_refl). reflexivity.
Defined.

(** C5, as stated, fails: the caller of [getOfflineInterviews] receives
    the same empty list when the read is rejected with "Row too big" (and
    two stored interviews are discarded) as when nothing is stored. *)
Lemma row_too_big_looks_like_no_data :
  outcomes world_row_too_big = [Some "Row too big to fit into CursorWindow"]
  /\ offline_interviews (storage world_row_too_big)
     = Some [interview_a; interview_b_synced]
  /\ outcomes world_no_data = []
  /\ offline_interviews (storage world_no_data) = None
  /\ fst (getOfflineInterviews world_row_too_big) = Resolved []
  /\ fst (getOfflineInterviews world_no_data) = Resolved [].
Proof. repeat split; vm_compute; reflexivity. Qed.

Lemma getPendingInterviews_subset_witness :
  Forall Spec.typed_status
    [interview_a; interview_b_synced; interview_c_failed; interview_d_legacy]
  /\ exists w2,
       getPendingInterviews world_mixed_status
       = (Resolved [interview_a; interview_c_failed; interview_d_legacy], w2).
Proof.
  split.
  - constructor; [right; exists pending; reflexivity|].
    constructor; [right; exists synced; reflexivity|].
    constructor; [right; exists failed; reflexivity|].
    constructor; [left; reflexivity|]. constructor.
  - destruct (StoreFacts.getPendingInterviews_subset world_mixed_status)
      as (all & w1 & w2 & Hall & Hpend & _).
    exists w2. rewrite Hpend.
    assert (Hl : fst (getOfflineInterviews world_mixed_status)
                 = Resolved [interview_a; interview_b_synced;
                             interview_c_failed; interview_d_legacy])
      by (vm_compute; reflexivity).
    rewrite Hall in Hl. simpl in Hl. injection Hl as ->. reflexivity.
Defined.

Lemma deleteSyncedInterview_frame_witness :
  outcomes world_mixed_status = []
  /\ exists w',
       deleteSyncedInterview "offline_2_b" world_mixed_status = (Resolved tt, w')
       /\ storage w'
          = with_interviews [interview_a; interview_c_failed; interview_d_legacy].
Proof.
  split; [reflexivity|].
  destruct (StoreFacts.deleteSyncedInterview_frame world_mixed_status
              "offline_2_b" eq_refl) as (w' & Hrun & Hsto & _).
  exists w'. split; [exact Hrun|]. rewrite Hsto. vm_compute. reflexivity.
Defined.

(** C10, as stated, fails: deleting an id that is not in the collection
    changes the stored collection when it holds an entry that
    [getOfflineInterviews] does not serve. *)
Lemma delete_of_absent_id_changes_collection :
  offline_interviews (storage world_with_corruption)
  = Some [interview_a; entry_without_id]
  /\ List.find (has_id "offline_9_z") [interview_a; entry_without_id] = None
  /\ offline_interviews
       (storage (snd (deleteSyncedInterview "offline_9_z" world_with_corruption)))
     = Some [interview_a].
Proof. repeat split; vm_compute; reflexivity. Qed.

Lemma updateInterviewStatus_witness :
  outcomes world_synced = []
  /\ List.find (has_id "offline_2_b")
       (valid_of (offline_interviews (storage world_synced)))
     = Some interview_b_synced
  /\ exists w' stored updated,
       updateInterviewStatus "2025-01-01T00:00:00.000Z" "offline_2_b" pending None
         world_synced = (Resolved tt, w')
       /\ offline_interviews (storage w') = Some stored
       /\ List.find (has_id "offline_2_b") stored = Some updated
       /\ Spec.has_status updated pending.
Proof.
  assert (H : List.find (has_id "offline_2_b")
                (valid_of (offline_interviews (storage world_synced)))
              = Some interview_b_synced) by (vm_compute; reflexivity).
  split; [reflexivity|]. split; [exact H|].
  apply (StoreFacts.updateInterviewStatus_sets_any_status
           "2025-01-01T00:00:00.000Z" "offline_2_b" pending None
           world_synced interview_b_synced eq_refl H).
Defined.

(** C2, as stated, fails: a record whose status is synced is given the
    status pending, a transition the specification does not list. *)
Lemma synced_record_is_requeued :
  Spec.has_status interview_b_synced synced
  /\ offline_interviews (storage world_synced) = Some [interview_b_synced]
  /\ Spec.valid_transition synced pending = false
  /\ offline_interviews
       (storage (snd (updateInterviewStatus "2025-01-01T00:00:00.000Z"
                        "offline_2_b" pending None world_synced)))
     = Some [JObj [("id", JStr "offline_2_b"); ("surveyId", JStr "s1");
                   ("status", JStr "pending");
                   ("lastSyncAttempt", JStr "2025-01-01T00:00:00.000Z");
                   ("survey", JNull)]].
Proof. repeat split; vm_compute; reflexivity. Qed.

Lemma save_then_get_by_id_witness :
  outcomes world_no_data = []
  /\ get_field (interview_with_notes "met at the door") "id"
     = Some (JStr "offline_5_e")
  /\ JsString.nonempty "offline_5_e" = true
  /\ get_field (interview_with_notes "met at the door") "status"
     = Some (JStr (status_text pending))
  /\ size (stored_form (interview_with_notes "met at the door")) <= 2000000
  /\ exists w',
       and_then (saveOfflineInterview (interview_with_notes "met at the door"))
         (getOfflineInterviewById "offline_5_e") world_no_data
       = (Resolved (Some (stored_form (interview_with_notes "met at the door"))), w').
Proof.
  assert (Hsize : size (stored_form (interview_with_notes "met at the door"))
                  <= 2000000) by (vm_compute; discriminate).
  repeat (split; [first [reflexivity | exact Hsize]|]).
  destruct (StoreFacts.save_then_get_by_id
              (interview_with_notes "met at the door") "offline_5_e" pending
              world_no_data eq_refl eq_refl eq_refl eq_refl Hsize)
    as (w' & Hrun & _).
  exists w'. exact Hrun.
Defined.

Lemma oversized_not_returned (notes : string) :
  2000000 <= JsString.length notes ->
  fst (and_then (saveOfflineInterview (interview_with_notes notes))
         (getOfflineInterviewById "offline_5_e") world_no_data)
  = Resolved None.
Proof.
  intros Hlong. set (interview := interview_with_notes notes).
  assert (Hbig : kept (stored_form interview) = false).
  { rewrite StoreFacts.kept_served. unfold Spec.served.
    apply andb_false_intro2. apply Z.leb_gt.
    pose proof (StringFacts.size_string_field (interviewToSave interview)
                  "notes" notes) as Hs.
    unfold stored_form. apply Z.le_lt_trans with (1 := Hlong). apply Hs.
    cbn. tauto. }
  destruct (StoreFacts.saveOfflineInterview_healthy interview world_no_data eq_refl)
    as (w1 & Hsave & Hsto1 & Hout1 & _).
  destruct (StoreFacts.getOfflineInterviews_healthy w1 Hout1) as (w2 & Hget & _).
  rewrite Hsto1 in Hget. rewrite write_read_interviews in Hget.
  rewrite (StoreFacts.upsert_by_id interview "offline_5_e") in Hget by reflexivity.
  change (valid_of (offline_interviews (storage world_no_data))) with (@nil JSON) in Hget.
  cbn [findIndex] in Hget.
  change (get_field interview "status") with (Some (JStr "pending")) in Hget.
  cbn [truthy_value truthy JsString.nonempty negb app] in Hget.
  fold (stored_form interview) in Hget.
  unfold valid_of in Hget.
  change (List.filter kept (default [] (Some [stored_form interview])))
    with (if kept (stored_form interview) then [stored_form interview] else [])
    in Hget.
  rewrite Hbig in Hget.
  unfold and_then, getOfflineInterviewById. run. rewrite Hsave, Hget. reflexivity.
Qed.

(** C3, as stated, fails: an interview of more than 2,000,000 characters
    is stored by [saveOfflineInterview], and [getOfflineInterviewById]
    then resolves with [null]. *)
Lemma oversized_interview_not_returned :
  get_field oversized_interview "id" = Some (JStr "offline_5_e")
  /\ get_field oversized_interview "status" = Some (JStr "pending")
  /\ fst (and_then (saveOfflineInterview oversized_interview)
            (getOfflineInterviewById "offline_5_e") world_no_data)
     = Resolved None.
Proof.
  split; [reflexivity|]. split; [reflexivity|].
  apply oversized_not_returned.
  rewrite StringFacts.length_long_text, Z2Nat.id; lia.
Qed.

(** An interview whose id is the empty string is not returned either. *)
Lemma empty_id_not_returned :
  fst (and_then (saveOfflineInterview interview_with_empty_id)
         (getOfflineInterviewById "") world_no_data)
  = Resolved None.
Proof. vm_compute. reflexivity. Qed.

(** *** The bundled data set *)



End Checks.

(** *** More about the interview store *)

Module StoreExtras.
Import OfflineStorage Views Examples.

Lemma healed_twice s : healed (healed s) = healed s.
Proof.
  unfold healed. destruct (offline_interviews s) as [l|] eqn:E; simpl.
  - rewrite filter_twice. reflexivity.
  - rewrite E. reflexivity.
Qed.

(** X1: with a storage that answers, a second [getOfflineInterviews] right
    after a first one returns the same list and writes nothing. *)
Theorem getOfflineInterviews_twice (w : World) :
  outcomes w = [] ->
  exists l w1 w2,
    getOfflineInterviews w = (Resolved l, w1)
    /\ getOfflineInterviews w1 = (Resolved l, w2)
    /\ storage w2 = storage w1.
Proof.
  intros Hok.
  destruct (StoreFacts.getOfflineInterviews_healthy w Hok)
    as (w1 & Hrun1 & Hsto1 & Hout1 & _).
  destruct (StoreFacts.getOfflineInterviews_healthy w1 Hout1)
    as (w2 & Hrun2 & Hsto2 & _).
  exists (valid_of (offline_interviews (storage w))), w1, w2.
  split; [exact Hrun1|]. split.
  - rewrite Hrun2, Hsto1, StoreFacts.valid_of_healed. reflexivity.
  - rewrite Hsto2, Hsto1. apply healed_twice.
Qed.

(** X2: when the read of the collection is rejected with a message that does
    not contain "Row too big", [getOfflineInterviews] resolves with the empty
    list and leaves the storage as it is: the collection stays stored. *)
Theorem getOfflineInterviews_other_read_error (w : World) (message : string)
    (rest : list (option string)) :
  outcomes w = Some message :: rest ->
  message_includes message "Row too big" = false ->
  exists w',
    getOfflineInterviews w = (Resolved [], w')
    /\ storage w' = storage w
    /\ outcomes w' = rest.
Proof.
  intros Hout Hmsg. unfold getOfflineInterviews. run.
  rewrite Hout. simpl. rewrite Hmsg. simpl.
  eexists. repeat split.
Qed.

(** A read that is answered, of a collection without dropped entries. *)
Lemma getOfflineInterviews_read_ok (w : World) (rest : list (option string)) :
  outcomes w = None :: rest ->
  List.filter kept (default [] (offline_interviews (storage w)))
  = default [] (offline_interviews (storage w)) ->
  exists w',
    getOfflineInterviews w
    = (Resolved (default [] (offline_interviews (storage w))), w')
    /\ storage w' = storage w
    /\ outcomes w' = rest
    /\ isDownloading w' = isDownloading w.
Proof.
  intros Hout Hvalid. unfold getOfflineInterviews. run. rewrite Hout. simpl.
  destruct (offline_interviews (storage w)) as [l|]; simpl in *.
  - rewrite Hvalid, Z.ltb_irrefl.
    destruct (5000000 <? size (JArr l)); simpl; eexists; repeat split.
  - eexists. repeat split.
Qed.

(** X3: when the storage answers the read and rejects the write,
    [saveOfflineInterview] rejects: with the message "Interview data too
    large to save. Please sync existing interviews first." when the rejection
    contains "Row too big", with the message of the rejection otherwise. The
    stored collection is not replaced. *)
Theorem saveOfflineInterview_write_rejected (interview : Obj) (w : World)
    (message : string) (rest : list (option string)) :
  outcomes w = None :: Some message :: rest ->
  List.filter kept (default [] (offline_interviews (storage w)))
  = default [] (offline_interviews (storage w)) ->
  exists w',
    saveOfflineInterview interview w
    = (Rejected
         (if message_includes message "Row too big"
          then "Interview data too large to save. Please sync existing interviews first."
          else message), w')
    /\ storage w' = storage w
    /\ outcomes w' = rest.
Proof.
  intros Hout Hvalid.
  destruct (getOfflineInterviews_read_ok w _ Hout Hvalid)
    as (w1 & Hrun & Hsto & Hout1 & _).
  unfold saveOfflineInterview. run. rewrite Hrun.
  destruct (findIndex _ (default [] (offline_interviews (storage w)))); simpl;
    match goal with
    | |- context [if 2000000 <? ?n then _ else _] => destruct (2000000 <? n)
    end; simpl; rewrite Hout1; simpl;
    destruct (message_includes message "Row too big"); simpl;
    eexists; repeat split; assumption.
Qed.

Lemma has_id_other a b v : has_id a v = true -> a <> b -> has_id b v = false.
Proof.
  unfold has_id, is_string. destruct (prop v "id") as [[]|]; try discriminate.
  intros Ha Hne. apply String.eqb_eq in Ha. subst.
  apply String.eqb_neq. exact Hne.
Qed.

Lemma has_id_of_fields fields id j :
  get_field fields "id" = Some (JStr id) -> id <> j ->
  has_id j (JObj fields) = false.
Proof.
  intros Hid Hne. unfold has_id. simpl. rewrite Hid. simpl.
  apply String.eqb_neq. exact Hne.
Qed.

Lemma find_filter_insert {A} (f g keep : A -> bool) l idx r :
  Forall (fun x => keep x = true) l ->
  findIndex f l = Some idx ->
  (forall x, f x = true -> g x = false) ->
  g r = false ->
  List.find g (List.filter keep (<[idx := r]> l)) = List.find g l.
Proof.
  intros Hall. revert idx. induction Hall as [|x l Hx Hl IH]; intros idx; simpl.
  - discriminate.
  - destruct (f x) eqn:Efx.
    + intros [= <-] Hfg Hr. simpl.
      rewrite (Hfg x Efx).
      replace (List.filter keep l) with l
        by (symmetry; apply List.forallb_filter_id, List.forallb_forall;
            rewrite List.Forall_forall in Hl; exact Hl).
      destruct (keep r); simpl; rewrite ?Hr; reflexivity.
    + destruct (findIndex f l) as [i|]; simpl; [|discriminate].
      intros [= <-] Hfg Hr. simpl. rewrite Hx. simpl.
      destruct (g x); [reflexivity|]. apply IH; auto.
Qed.

Lemma find_filter_app {A} (g keep : A -> bool) l r :
  Forall (fun x => keep x = true) l ->
  g r = false ->
  List.find g (List.filter keep (l ++ [r])%list) = List.find g l.
Proof.
  intros Hall Hr. induction Hall as [|x l Hx Hl IH]; simpl.
  - destruct (keep r); simpl; rewrite ?Hr; reflexivity.
  - rewrite Hx. simpl. destruct (g x); [reflexivity|]. exact IH.
Qed.

(** X4: with a storage that answers, saving an interview whose id is a
    string does not change what [getOfflineInterviewById] answers for any
    other id. *)
Theorem saveOfflineInterview_keeps_other_ids (interview : Obj) (id j : string)
    (w : World) :
  outcomes w = [] ->
  get_field interview "id" = Some (JStr id) ->
  id <> j ->
  fst (and_then (saveOfflineInterview interview) (getOfflineInterviewById j) w)
  = fst (getOfflineInterviewById j w).
Proof.
  intros Hok Hid Hne.
  destruct (StoreFacts.saveOfflineInterview_healthy interview w Hok)
    as (w1 & Hsave & Hsto1 & Hout1 & _).
  destruct (StoreFacts.getOfflineInterviews_healthy w1 Hout1) as (w2 & Hget1 & _).
  destruct (StoreFacts.getOfflineInterviews_healthy w Hok) as (w3 & Hget & _).
  rewrite Hsto1, write_read_interviews in Hget1.
  unfold and_then, getOfflineInterviewById. run.
  rewrite Hsave, Hget1, Hget. simpl. f_equal.
  fold (has_id j).
  set (valid := valid_of (offline_interviews (storage w))).
  pose proof (StoreFacts.kept_valid_of (offline_interviews (storage w))) as Hall.
  fold valid in Hall.
  rewrite (StoreFacts.upsert_by_id interview id) by exact Hid.
  unfold valid_of at 1. simpl.
  destruct (findIndex (has_id id) valid) as [idx|] eqn:E.
  - apply (find_filter_insert (has_id id)); auto.
    + intros x Hx. apply (has_id_other id j); assumption.
    + apply (has_id_of_fields _ id); [|exact Hne].
      rewrite StoreFacts.interviewToSave_field by reflexivity. exact Hid.
  - apply find_filter_app; auto.
    apply (has_id_of_fields _ id); [|exact Hne].
    destruct (negb (truthy_value (get_field interview "status")));
      rewrite ?JsonFacts.get_field_set_field_ne by reflexivity;
      rewrite StoreFacts.interviewToSave_field by reflexivity; exact Hid.
Qed.

Lemma findIndex_insert_first {A} (f : A -> bool) l idx r :
  findIndex f l = Some idx -> f r = true ->
  findIndex f (<[idx := r]> l) = Some idx.
Proof.
  revert idx. induction l as [|x l IH]; simpl; intros idx; [discriminate|].
  destruct (f x) eqn:E.
  - intros [= <-] Hr. simpl. rewrite Hr. reflexivity.
  - destruct (findIndex f l) as [i|] eqn:Ei; simpl; [|discriminate].
    intros [= <-] Hr. simpl. rewrite E, (IH i); auto.
Qed.

Lemma findIndex_app_last {A} (f : A -> bool) l r :
  findIndex f l = None -> f r = true ->
  findIndex f (l ++ [r])%list = Some (List.length l).
Proof.
  induction l as [|x l IH]; simpl; intros Hnone Hr.
  - rewrite Hr. reflexivity.
  - destruct (f x); [discriminate|].
    destruct (findIndex f l); [discriminate|]. rewrite IH; auto.
Qed.

Lemma insert_app_last {A} (l : list A) (r r' : A) :
  <[List.length l := r']> (l ++ [r])%list = (l ++ [r'])%list.
Proof. induction l as [|x l IH]; simpl; [reflexivity|]. rewrite IH. reflexivity. Qed.

(** The collection written for an interview that [getOfflineInterviews]
    will serve. *)
Lemma upsert_served (interview : Obj) (id : string) (st : Status) (l : list JSON) :
  get_field interview "id" = Some (JStr id) ->
  JsString.nonempty id = true ->
  get_field interview "status" = Some (JStr (status_text st)) ->
  size (stored_form interview) <= 2000000 ->
  Forall (fun i => kept i = true) l ->
  upsert interview l
  = match findIndex (has_id id) l with
    | Some idx => <[idx := stored_form interview]> l
    | None => (l ++ [stored_form interview])%list
    end
  /\ Forall (fun i => kept i = true) (upsert interview l)
  /\ has_id id (stored_form interview) = true.
Proof.
  intros Hid Hne Hst Hsize Hall.
  assert (Pid : prop (stored_form interview) "id" = Some (JStr id)).
  { simpl. rewrite StoreFacts.interviewToSave_field by reflexivity. exact Hid. }
  assert (Hkept : kept (stored_form interview) = true).
  { rewrite StoreFacts.kept_served. unfold Spec.served, Spec.well_formed.
    simpl in Pid. simpl. rewrite Pid. simpl. rewrite Hne. simpl.
    apply Z.leb_le. exact Hsize. }
  assert (Hup : upsert interview l
                = match findIndex (has_id id) l with
                  | Some idx => <[idx := stored_form interview]> l
                  | None => (l ++ [stored_form interview])%list
                  end).
  { rewrite (StoreFacts.upsert_by_id interview id) by exact Hid.
    rewrite Hst. destruct st; reflexivity. }
  split; [exact Hup|]. split.
  - rewrite Hup. destruct (findIndex (has_id id) l).
    + apply Forall_insert; assumption.
    + apply Forall_app. split; [assumption|]. constructor; [assumption|constructor].
  - unfold has_id. rewrite Pid. simpl. apply String.eqb_refl.
Qed.

(** X5: with a storage that answers, saving the same interview twice leaves
    the storage as one save does, for an interview with a non-empty string
    id, one of the four statuses and a stored form of at most 2,000,000
    characters: the record is replaced, not added again. *)
Theorem saveOfflineInterview_twice (interview : Obj) (id : string) (st : Status)
    (w : World) :
  outcomes w = [] ->
  get_field interview "id" = Some (JStr id) ->
  JsString.nonempty id = true ->
  get_field interview "status" = Some (JStr (status_text st)) ->
  size (stored_form interview) <= 2000000 ->
  exists w1 w2,
    saveOfflineInterview interview w = (Resolved tt, w1)
    /\ saveOfflineInterview interview w1 = (Resolved tt, w2)
    /\ storage w2 = storage w1.
Proof.
  intros Hok Hid Hne Hst Hsize.
  destruct (StoreFacts.saveOfflineInterview_healthy interview w Hok)
    as (w1 & Hsave1 & Hsto1 & Hout1 & _).
  destruct (StoreFacts.saveOfflineInterview_healthy interview w1 Hout1)
    as (w2 & Hsave2 & Hsto2 & _).
  exists w1, w2. split; [exact Hsave1|]. split; [exact Hsave2|].
  set (valid := valid_of (offline_interviews (storage w))) in *.
  pose proof (StoreFacts.kept_valid_of (offline_interviews (storage w))) as Hall.
  fold valid in Hall.
  destruct (upsert_served interview id st valid Hid Hne Hst Hsize Hall)
    as (Hup & Hall1 & Hhas).
  rewrite Hsto2, Hsto1, write_read_interviews, write_write_interviews.
  f_equal. f_equal.
  rewrite (StoreFacts.valid_of_all_kept _ Hall1).
  destruct (upsert_served interview id st _ Hid Hne Hst Hsize Hall1)
    as (Hup2 & _ & _).
  rewrite Hup2. rewrite Hup.
  destruct (findIndex (has_id id) valid) as [idx|] eqn:E.
  - rewrite (findIndex_insert_first _ _ _ _ E Hhas).
    apply list_insert_insert_eq.
  - rewrite (findIndex_app_last _ _ _ E Hhas). apply insert_app_last.
Qed.

(** What [deleteSyncedInterview] does when the storage answers. *)
Lemma deleteSyncedInterview_healthy (interviewId : string) (w : World) :
  outcomes w = [] ->
  exists w',
    deleteSyncedInterview interviewId w = (Resolved tt, w')
    /\ storage w'
       = write OFFLINE_INTERVIEWS
           (Some (List.filter (fun i => negb (has_id interviewId i))
                    (valid_of (offline_interviews (storage w)))))
           (storage w)
    /\ outcomes w' = [].
Proof.
  intros Hok.
  destruct (StoreFacts.getOfflineInterviews_healthy w Hok)
    as (w1 & Hrun & Hsto & Hout & _).
  unfold deleteSyncedInterview. run. rewrite Hrun, Hout. simpl.
  eexists. split; [reflexivity|]. simpl. rewrite Hsto. split; [|exact Hout].
  apply (StoreFacts.write_healed _ (storage w)).
Qed.

Lemma find_filter_negb {A} (f : A -> bool) l :
  List.find f (List.filter (fun x => negb (f x)) l) = None.
Proof.
  induction l as [|x l IH]; simpl; [reflexivity|].
  destruct (f x) eqn:E; simpl; rewrite ?E; exact IH.
Qed.

Lemma find_filter_other {A} (f g : A -> bool) l :
  (forall x, g x = true -> f x = false) ->
  List.find g (List.filter (fun x => negb (f x)) l) = List.find g l.
Proof.
  intros H. induction l as [|x l IH]; simpl; [reflexivity|].
  destruct (f x) eqn:E; simpl.
  - destruct (g x) eqn:Eg; [|exact IH]. rewrite (H x Eg) in E. discriminate.
  - rewrite IH. reflexivity.
Qed.

(** X6: with a storage that answers, after [deleteSyncedInterview] no record
    is found under the deleted id, records with the same id stored twice
    included, and every other id is answered as before. *)
Theorem deleteSyncedInterview_then_get (interviewId j : string) (w : World) :
  outcomes w = [] ->
  fst (and_then (deleteSyncedInterview interviewId)
         (getOfflineInterviewById interviewId) w) = Resolved None
  /\ (interviewId <> j ->
      fst (and_then (deleteSyncedInterview interviewId)
             (getOfflineInterviewById j) w)
      = fst (getOfflineInterviewById j w)).
Proof.
  intros Hok.
  destruct (deleteSyncedInterview_healthy interviewId w Hok)
    as (w1 & Hdel & Hsto1 & Hout1).
  destruct (StoreFacts.getOfflineInterviews_healthy w1 Hout1) as (w2 & Hget1 & _).
  destruct (StoreFacts.getOfflineInterviews_healthy w Hok) as (w3 & Hget & _).
  rewrite Hsto1, write_read_interviews in Hget1.
  set (valid := valid_of (offline_interviews (storage w))) in *.
  assert (Hall : Forall (fun i => kept i = true)
                   (List.filter (fun i => negb (has_id interviewId i)) valid)).
  { apply List.Forall_forall. intros x Hx. apply List.filter_In in Hx.
    destruct Hx as [Hx _].
    pose proof (StoreFacts.kept_valid_of (offline_interviews (storage w))) as Hv.
    rewrite List.Forall_forall in Hv. apply Hv. exact Hx. }
  rewrite (StoreFacts.valid_of_all_kept _ Hall) in Hget1.
  unfold and_then, getOfflineInterviewById. run. rewrite Hdel, Hget1, Hget.
  simpl. split.
  - f_equal. apply (find_filter_negb (has_id interviewId)).
  - intros Hne. f_equal. apply (find_filter_other (has_id interviewId) (has_id j)).
    intros x Hx. apply (has_id_other j interviewId); [exact Hx|]. congruence.
Qed.

(** What [updateInterviewStatus] does when the storage answers and a record
    is found. *)
Lemma updateInterviewStatus_healthy (now interviewId : string) (target : Status)
    (error : option string) (w : World) (found : JSON) :
  outcomes w = [] ->
  List.find (has_id interviewId) (valid_of (offline_interviews (storage w)))
  = Some found ->
  exists w' stored,
    updateInterviewStatus now interviewId target error w = (Resolved tt, w')
    /\ offline_interviews (storage w') = Some stored
    /\ List.find (has_id interviewId) stored
       = Some (stored_form (with_status now target error found))
    /\ (exists fields, found = JObj fields)
    /\ outcomes w' = []
    /\ exists idx,
         stored
         = <[idx := stored_form (with_status now target error found)]>
             (valid_of (offline_interviews (storage w))).
Proof.
  intros Hok Hfound.
  destruct (StoreFacts.getOfflineInterviews_healthy w Hok)
    as (w1 & Hget & Hsto1 & Hout1 & _).
  set (interview := with_status now target error found).
  destruct (StoreFacts.saveOfflineInterview_healthy interview w1 Hout1)
    as (w2 & Hsave & Hsto2 & Hout2 & _).
  assert (Hhas : has_id interviewId found = true).
  { apply List.find_some in Hfound. tauto. }
  assert (Hid : get_field interview "id" = Some (JStr interviewId))
    by (apply StoreFacts.with_status_id; exact Hhas).
  rewrite Hsto1, StoreFacts.valid_of_healed in Hsto2.
  set (valid := valid_of (offline_interviews (storage w))) in *.
  destruct (StoreFacts.find_findIndex _ _ _ Hfound) as [idx Hidx].
  rewrite (StoreFacts.upsert_by_id interview interviewId) in Hsto2 by exact Hid.
  rewrite Hidx in Hsto2.
  exists w2, (<[idx := stored_form interview]> valid).
  split.
  - unfold updateInterviewStatus. run. rewrite Hget.
    fold (has_id interviewId). fold valid. rewrite Hfound.
    fold interview. rewrite Hsave. reflexivity.
  - split; [rewrite Hsto2; reflexivity|]. split; [|split; [|split]].
    + apply StoreFacts.find_insert_first; [exact Hidx|].
      unfold has_id. simpl. rewrite StoreFacts.interviewToSave_field by reflexivity.
      rewrite Hid. simpl. apply String.eqb_refl.
    + unfold has_id in Hhas. destruct found; simpl in Hhas; try discriminate.
      eauto.
    + exact Hout2.
    + exists idx. reflexivity.
Qed.

Lemma plus_one_exact n :
  - 2 ^ 53 <= n < 2 ^ 53 -> plus_one n = JNum (n + 1).
Proof.
  change (2 ^ 53) with 9007199254740992. intros Hn.
  unfold plus_one, to_double. change (2 ^ 53) with 9007199254740992.
  destruct (Z.leb_spec (Z.abs n) 9007199254740992); [|lia].
  destruct (Z.leb_spec (Z.abs (n + 1)) 9007199254740992); [reflexivity|lia].
Qed.

(** X7: with a storage that answers, [updateInterviewStatus] with a
    non-empty error message stores, in the record found under the id, the
    message as [error], the time of the call as [lastSyncAttempt] and
    [(syncAttempts || 0) + 1] as [syncAttempts]: one more than a stored
    number from -2^53 up to 2^53 - 1, and 1 when there was none.  The sum is
    one of doubles: a count of 2^53 stays 2^53. *)
Theorem updateInterviewStatus_counts_failure (now interviewId message : string)
    (target : Status) (w : World) (found : JSON) :
  outcomes w = [] ->
  List.find (has_id interviewId) (valid_of (offline_interviews (storage w)))
  = Some found ->
  JsString.nonempty message = true ->
  exists w' stored updated,
    updateInterviewStatus now interviewId target (Some message) w
    = (Resolved tt, w')
    /\ offline_interviews (storage w') = Some stored
    /\ List.find (has_id interviewId) stored = Some updated
    /\ prop updated "error" = Some (JStr message)
    /\ prop updated "lastSyncAttempt" = Some (JStr now)
    /\ (forall n, prop found "syncAttempts" = Some (JNum n) ->
          - 2 ^ 53 <= n < 2 ^ 53 ->
          prop updated "syncAttempts" = Some (JNum (n + 1)))
    /\ (prop found "syncAttempts" = Some (JNum (2 ^ 53)) ->
          prop updated "syncAttempts" = Some (JNum (2 ^ 53)))
    /\ (prop found "syncAttempts" = None ->
          prop updated "syncAttempts" = Some (JNum 1)).
Proof.
  intros Hok Hfound Hmsg.
  destruct (updateInterviewStatus_healthy now interviewId target (Some message)
              w found Hok Hfound)
    as (w' & stored & Hrun & Hsto & Hfind & (fields & ->) & _).
  exists w', stored, (stored_form (with_status now target (Some message) (JObj fields))).
  split; [exact Hrun|]. split; [exact Hsto|]. split; [exact Hfind|].
  unfold stored_form, with_status. rewrite Hmsg. simpl.
  rewrite !StoreFacts.interviewToSave_field by reflexivity.
  repeat first [ rewrite JsonFacts.get_field_set_field_eq
               | rewrite JsonFacts.get_field_set_field_ne by reflexivity ].
  split; [reflexivity|]. split; [reflexivity|]. split; [|split].
  - intros n Hn Hrange. simpl in Hn. rewrite Hn.
    unfold or_zero_plus_one. rewrite (plus_one_exact n Hrange). reflexivity.
  - intros Hn. simpl in Hn. rewrite Hn. vm_compute. reflexivity.
  - intros Hn. simpl in Hn. rewrite Hn. reflexivity.
Qed.

(** X8: with a storage that answers, [updateInterviewStatus] for an id that
    no served record has resolves and writes nothing but what the read of
    the collection repairs. *)
Theorem updateInterviewStatus_unknown_id (now interviewId : string)
    (target : Status) (error : option string) (w : World) :
  outcomes w = [] ->
  List.find (has_id interviewId) (valid_of (offline_interviews (storage w)))
  = None ->
  exists w',
    updateInterviewStatus now interviewId target error w = (Resolved tt, w')
    /\ storage w' = healed (storage w)
    /\ (List.filter kept (default [] (offline_interviews (storage w)))
        = default [] (offline_interviews (storage w)) ->
        storage w' = storage w).
Proof.
  intros Hok Hnone.
  destruct (StoreFacts.getOfflineInterviews_healthy w Hok)
    as (w1 & Hget & Hsto1 & _).
  unfold updateInterviewStatus. run. rewrite Hget.
  fold (has_id interviewId). rewrite Hnone.
  eexists. split; [reflexivity|]. split; [exact Hsto1|].
  intros Hsame. rewrite Hsto1. unfold healed.
  destruct (offline_interviews (storage w)) eqn:E; [|reflexivity].
  simpl in Hsame. rewrite Hsame, <- E. apply write_same_interviews.
Qed.

Lemma with_status_other_field now target error found k :
  k <> "status" -> k <> "lastSyncAttempt" ->
  (k <> "error" /\ k <> "syncAttempts"
   \/ error = None \/ error = Some "") ->
  get_field (with_status now target error found) k
  = get_field (own_fields found) k.
Proof.
  intros H1 H2 H3.
  assert (E1 : String.eqb "status" k = false)
    by (apply String.eqb_neq; congruence).
  assert (E2 : String.eqb "lastSyncAttempt" k = false)
    by (apply String.eqb_neq; congruence).
  unfold with_status.
  destruct error as [message|].
  - destruct (JsString.nonempty message) eqn:Em.
    + destruct H3 as [[H3 H4] | [H3 | H3]]; [|discriminate|].
      * rewrite !JsonFacts.get_field_set_field_ne;
          try (apply String.eqb_neq; congruence); auto.
      * injection H3 as ->. discriminate.
    + rewrite !JsonFacts.get_field_set_field_ne; auto.
  - rewrite !JsonFacts.get_field_set_field_ne; auto.
Qed.

(** X9: with a storage that answers, [updateInterviewStatus] keeps every
    property of the record other than [status], [lastSyncAttempt], [survey]
    and [surveyName]; [error] and [syncAttempts] change only when a
    non-empty error message is given. *)
Theorem updateInterviewStatus_keeps_other_fields (now interviewId : string)
    (target : Status) (error : option string) (w : World) (found : JSON)
    (k : string) :
  outcomes w = [] ->
  List.find (has_id interviewId) (valid_of (offline_interviews (storage w)))
  = Some found ->
  k <> "status" -> k <> "lastSyncAttempt" ->
  k <> "survey" -> k <> "surveyName" ->
  (k <> "error" /\ k <> "syncAttempts" \/ error = None \/ error = Some "") ->
  exists w' stored updated,
    updateInterviewStatus now interviewId target error w = (Resolved tt, w')
    /\ offline_interviews (storage w') = Some stored
    /\ List.find (has_id interviewId) stored = Some updated
    /\ prop updated k = prop found k.
Proof.
  intros Hok Hfound H1 H2 H3 H4 H5.
  destruct (updateInterviewStatus_healthy now interviewId target error
              w found Hok Hfound)
    as (w' & stored & Hrun & Hsto & Hfind & (fields & ->) & _).
  exists w', stored, (stored_form (with_status now target error (JObj fields))).
  split; [exact Hrun|]. split; [exact Hsto|]. split; [exact Hfind|].
  unfold stored_form. simpl.
  rewrite StoreFacts.interviewToSave_field
    by (apply String.eqb_neq; congruence).
  apply (with_status_other_field now target error (JObj fields) k); assumption.
Qed.

(** X10: when the read of the collection is rejected and the calls that
    follow resolve, [saveOfflineInterview] leaves under the key the saved
    interview alone, and [deleteSyncedInterview] leaves an empty collection,
    whatever was stored. *)
Theorem write_after_rejected_read (interview : Obj) (interviewId : string)
    (w : World) (message : string) :
  outcomes w = [Some message] ->
  (exists w',
     saveOfflineInterview interview w = (Resolved tt, w')
     /\ offline_interviews (storage w') = Some (upsert interview []))
  /\ (exists w',
        deleteSyncedInterview interviewId w = (Resolved tt, w')
        /\ offline_interviews (storage w') = Some []).
Proof.
  intros Hout. split.
  - unfold saveOfflineInterview, getOfflineInterviews, upsert. run.
    rewrite Hout. simpl.
    destruct (message_includes message "Row too big"); simpl;
      match goal with
      | |- context [if 2000000 <? ?n then _ else _] => destruct (2000000 <? n)
      end; simpl; eexists; split; reflexivity.
  - unfold deleteSyncedInterview, getOfflineInterviews. run.
    rewrite Hout. simpl.
    destruct (message_includes message "Row too big"); simpl;
      eexists; split; reflexivity.
Qed.

(** X11: with a storage that answers, after [updateInterviewStatus] has
    given a status to the record found under the id, [getPendingInterviews]
    offers the updated record exactly when the status is pending or failed,
    provided the updated record is at most 2,000,000 characters long. *)
Theorem updateInterviewStatus_then_pending (now interviewId : string)
    (target : Status) (error : option string) (w : World) (found : JSON) :
  outcomes w = [] ->
  List.find (has_id interviewId) (valid_of (offline_interviews (storage w)))
  = Some found ->
  size (stored_form (with_status now target error found)) <= 2000000 ->
  exists offered,
    fst (and_then (updateInterviewStatus now interviewId target error)
           getPendingInterviews w) = Resolved offered
    /\ (In (stored_form (with_status now target error found)) offered
        <-> target = pending \/ target = failed).
Proof.
  intros Hok Hfound Hsize.
  destruct (updateInterviewStatus_healthy now interviewId target error
              w found Hok Hfound)
    as (w1 & stored & Hrun & Hsto & Hfind & _ & Hout1 & idx & Hstored).
  set (updated := stored_form (with_status now target error found)) in *.
  destruct (StoreFacts.getOfflineInterviews_healthy w1 Hout1) as (w2 & Hget & _).
  assert (Hkept : kept updated = true).
  { apply List.find_some in Hfound. destruct Hfound as [Hin Hhas].
    pose proof (StoreFacts.kept_valid_of (offline_interviews (storage w))) as Hv.
    rewrite List.Forall_forall in Hv. specialize (Hv found Hin).
    rewrite StoreFacts.kept_served in *. unfold Spec.served, Spec.well_formed, updated.
    simpl. rewrite StoreFacts.interviewToSave_field by reflexivity.
    rewrite (StoreFacts.with_status_id now target error found interviewId Hhas).
    apply andb_true_intro. split; [|apply Z.leb_le; exact Hsize].
    unfold Spec.served, Spec.well_formed in Hv. unfold has_id in Hhas.
    destruct found; simpl in *; try discriminate.
    destruct (get_field fields "id") as [[]|]; simpl in *; try discriminate.
    apply String.eqb_eq in Hhas. subst.
    apply andb_prop in Hv. tauto. }
  assert (Hall : Forall (fun i => kept i = true) stored).
  { rewrite Hstored. apply Forall_insert; [|exact Hkept].
    apply StoreFacts.kept_valid_of. }
  rewrite Hsto, (StoreFacts.valid_of_all_kept _ Hall) in Hget.
  exists (List.filter is_pending stored). split.
  - unfold and_then, getPendingInterviews. run. rewrite Hrun, Hget. reflexivity.
  - rewrite List.filter_In.
    assert (Hin : In updated stored).
    { apply List.find_some in Hfind. tauto. }
    assert (Hst : prop updated "status" = Some (JStr (status_text target))).
    { unfold updated. simpl. rewrite StoreFacts.interviewToSave_field by reflexivity.
      apply StoreFacts.with_status_status. }
    unfold is_pending. rewrite Hst. split.
    + intros [_ H]. destruct target; simpl in H; try discriminate; auto.
    + intros [-> | ->]; split; auto.
Qed.

End StoreExtras.

(** *** More about the reference data cache *)

Module CacheExtras.
Import JsString OfflineDataCache CacheMore Examples.

(** X12: with a storage that answers, a cached list of at least the floor
    of its state is returned as it is stored, and reading it writes
    nothing. *)
Theorem getAllACsForState_serves_complete (state : string) (w : World)
    (m : gmap string StateACs) (entry : StateACs) (cached : list JSON) :
  outcomes w = [] ->
  offline_all_acs_for_state (storage w) = Some m ->
  m !! state = Some entry ->
  acs entry = Some cached ->
  minExpectedACs state <= len cached ->
  exists w',
    getAllACsForState state w = (Resolved cached, w')
    /\ storage w' = storage w.
Proof.
  intros Hok Hm Hentry Hacs Hfloor. apply Z.leb_le in Hfloor.
  unfold getAllACsForState, getAllACsForAllStates. run.
  rewrite Hok. simpl. rewrite Hm. simpl. rewrite Hentry, Hacs, Hfloor. simpl.
  eexists. split; reflexivity.
Qed.

(** What [clearACsForState] does when the storage answers. *)
Lemma clearACsForState_healthy (state : string) (w : World) :
  outcomes w = [] ->
  exists w',
    clearACsForState state w = (Resolved tt, w')
    /\ storage w'
       = write ALL_ACS_FOR_STATE
           (Some (delete state (default ∅ (offline_all_acs_for_state (storage w)))))
           (storage w)
    /\ outcomes w' = [].
Proof.
  intros Hok. unfold clearACsForState, getAllACsForAllStates. run.
  rewrite Hok. simpl.
  match goal with
  | |- context [if ?c =? 0 then _ else _] => destruct (c =? 0)
  end; simpl; eexists; repeat split.
Qed.

(** X13: with a storage that answers, [clearACsForState] removes the entry
    of the state and nothing else: the entries of the other states, the
    polling groups, the interviews and the other keys stay as they are. *)
Theorem clearACsForState_frame (state : string) (w : World) :
  outcomes w = [] ->
  exists w',
    clearACsForState state w = (Resolved tt, w')
    /\ default ∅ (offline_all_acs_for_state (storage w')) !! state = None
    /\ (forall other, other <> state ->
          default ∅ (offline_all_acs_for_state (storage w')) !! other
          = default ∅ (offline_all_acs_for_state (storage w)) !! other)
    /\ offline_polling_groups (storage w') = offline_polling_groups (storage w)
    /\ offline_interviews (storage w') = offline_interviews (storage w)
    /\ other_keys (storage w') = other_keys (storage w).
Proof.
  intros Hok. destruct (clearACsForState_healthy state w Hok)
    as (w' & Hrun & Hsto & _).
  exists w'. split; [exact Hrun|]. rewrite Hsto. simpl.
  split; [apply lookup_delete_eq|]. split; [|auto].
  intros other Hne. apply lookup_delete_ne. congruence.
Qed.

(** X14: with a storage that answers, [getAllACsForState] for one state
    never changes the entry of another state, whether it serves the list,
    finds none or evicts an incomplete one. *)
Theorem getAllACsForState_other_states (state other : string) (w : World) :
  outcomes w = [] ->
  other <> state ->
  exists l w',
    getAllACsForState state w = (Resolved l, w')
    /\ default ∅ (offline_all_acs_for_state (storage w')) !! other
       = default ∅ (offline_all_acs_for_state (storage w)) !! other
    /\ offline_polling_groups (storage w') = offline_polling_groups (storage w)
    /\ offline_interviews (storage w') = offline_interviews (storage w)
    /\ other_keys (storage w') = other_keys (storage w).
Proof.
  intros Hok Hne.
  unfold getAllACsForState, getAllACsForAllStates. run. rewrite Hok. simpl.
  destruct (default ∅ (offline_all_acs_for_state (storage w)) !! state)
    as [entry|] eqn:Hentry; simpl; [|eexists; eexists; repeat split].
  destruct (acs entry) as [cached|]; simpl; [|eexists; eexists; repeat split].
  destruct (minExpectedACs state <=? len cached); simpl;
    [eexists; eexists; repeat split|].
  match goal with
  | |- context [clearACsForState state ?x] =>
      destruct (clearACsForState_healthy state x Hok) as (w' & Hrun & Hsto & _)
  end.
  rewrite Hrun. eexists. eexists. split; [reflexivity|].
  rewrite Hsto. simpl. split; [|auto]. apply lookup_delete_ne. congruence.
Qed.

(** X15: when the storage answers the read and rejects the write,
    [clearACsForState] rejects with the message of the rejection and the
    storage is as it was. *)
Theorem clearACsForState_write_rejected (state : string) (w : World)
    (message : string) (rest : list (option string)) :
  outcomes w = None :: Some message :: rest ->
  exists w',
    clearACsForState state w = (Rejected message, w')
    /\ storage w' = storage w
    /\ outcomes w' = rest.
Proof.
  intros Hout. unfold clearACsForState, getAllACsForAllStates. run.
  rewrite Hout. simpl. eexists. repeat split.
Qed.

(** What [saveAllACsForState] does when the storage answers. *)
Lemma saveAllACsForState_healthy (now state : string) (acs : list JSON)
    (w : World) :
  outcomes w = [] ->
  existsb is_null (take 5 acs) = false ->
  exists w',
    saveAllACsForState now state acs w = (Resolved tt, w')
    /\ storage w'
       = write ALL_ACS_FOR_STATE
           (Some (assign_state state {| Env.acs := Some acs; acs_cachedAt := now |}
                    (default ∅ (offline_all_acs_for_state (storage w)))))
           (storage w)
    /\ outcomes w' = [].
Proof.
  intros Hok Hnull. unfold saveAllACsForState, getAllACsForAllStates. run.
  rewrite Hnull. simpl. repeat (rewrite Hok; simpl).
  eexists. repeat split.
Qed.

Lemma getAllACsForState_complete (state : string) (w : World)
    (m : gmap string StateACs) (entry : StateACs) (cached : list JSON) :
  outcomes w = [] ->
  offline_all_acs_for_state (storage w) = Some m ->
  m !! state = Some entry ->
  acs entry = Some cached ->
  minExpectedACs state <= len cached ->
  exists w',
    getAllACsForState state w = (Resolved cached, w')
    /\ storage w' = storage w.
Proof.
  intros Hok Hm Hentry Hacs Hfloor. apply Z.leb_le in Hfloor.
  unfold getAllACsForState, getAllACsForAllStates. run.
  rewrite Hok. simpl. rewrite Hm. simpl. rewrite Hentry, Hacs, Hfloor. simpl.
  eexists. split; reflexivity.
Qed.

Lemma getAllACsForState_absent (state : string) (w : World)
    (m : gmap string StateACs) :
  outcomes w = [] ->
  offline_all_acs_for_state (storage w) = Some m ->
  m !! state = None ->
  exists w',
    getAllACsForState state w = (Resolved [], w')
    /\ storage w' = storage w.
Proof.
  intros Hok Hm Hentry.
  unfold getAllACsForState, getAllACsForAllStates. run.
  rewrite Hok. simpl. rewrite Hm. simpl. rewrite Hentry. simpl.
  eexists. split; reflexivity.
Qed.

(** X16: with a storage that answers, [saveAllACsForState] followed by
    [getAllACsForState] returns the saved list when it has at least the
    floor of the state, and the empty list otherwise; in the second case the
    entry just saved is no longer stored.  The first five entries of the list
    must not be [null].  The state "__proto__" is the exception: unless the
    stored mapping has an entry of that name, the assignment of the save
    adds none, the mapping is written as it was and the empty list is
    returned. *)
Theorem saveAllACsForState_then_get (now state : string) (acs : list JSON)
    (w : World) :
  outcomes w = [] ->
  existsb is_null (take 5 acs) = false ->
  (state <> "__proto__"
   \/ is_Some (default ∅ (offline_all_acs_for_state (storage w)) !! state) ->
   exists w',
     Views.and_then (saveAllACsForState now state acs) (getAllACsForState state) w
     = (Resolved (if minExpectedACs state <=? len acs then acs else []), w')
     /\ (minExpectedACs state <= len acs ->
         default ∅ (offline_all_acs_for_state (storage w')) !! state
         = Some {| Env.acs := Some acs; acs_cachedAt := now |})
     /\ (len acs < minExpectedACs state ->
         default ∅ (offline_all_acs_for_state (storage w')) !! state = None))
  /\ (state = "__proto__" ->
      default ∅ (offline_all_acs_for_state (storage w)) !! state = None ->
      exists w',
        Views.and_then (saveAllACsForState now state acs)
          (getAllACsForState state) w
        = (Resolved [], w')
        /\ default ∅ (offline_all_acs_for_state (storage w'))
           = default ∅ (offline_all_acs_for_state (storage w))).
Proof.
  intros Hok Hnull.
  destruct (saveAllACsForState_healthy now state acs w Hok Hnull)
    as (w1 & Hsave & Hsto1 & Hout1).
  set (entry := {| Env.acs := Some acs; acs_cachedAt := now |}) in *.
  set (before := default ∅ (offline_all_acs_for_state (storage w))) in *.
  assert (Hm : offline_all_acs_for_state (storage w1)
               = Some (assign_state state entry before))
    by (rewrite Hsto1; reflexivity).
  split.
  - intros Hadds.
    assert (Hassign : assign_state state entry before = <[state := entry]> before).
    { unfold assign_state. destruct (before !! state) as [old|] eqn:Hold;
        [reflexivity|].
      destruct Hadds as [Hname | [old Hsome]]; [|discriminate].
      apply String.eqb_neq in Hname. rewrite Hname. reflexivity. }
    rewrite Hassign in Hm.
    set (m := <[state := entry]> before) in *.
    assert (Hentry : m !! state = Some entry) by apply lookup_insert_eq.
    unfold Views.and_then. run. rewrite Hsave.
    destruct (minExpectedACs state <=? len acs) eqn:Hfloor.
    + apply Z.leb_le in Hfloor.
      destruct (getAllACsForState_complete state w1 m entry acs
                  Hout1 Hm Hentry eq_refl Hfloor) as (w2 & Hget & Hsto2).
      exists w2. split; [exact Hget|]. split.
      * intros _. rewrite Hsto2, Hm. exact Hentry.
      * intros Hlt. lia.
    + apply Z.leb_gt in Hfloor.
      assert (Hfew : len acs < Spec.floor_of state)
        by (rewrite <- CacheFacts.minExpectedACs_floor; exact Hfloor).
      destruct (CacheFacts.getAllACsForState_evicts state w1 m entry acs
                  Hout1 Hm Hentry eq_refl Hfew)
        as (_ & w2 & Hget & _ & _ & Hsto2).
      exists w2. split; [exact Hget|]. split.
      * intros Hge. lia.
      * intros _. rewrite Hsto2. simpl. apply lookup_delete_eq.
  - intros Hname Hnone.
    assert (Hassign : assign_state state entry before = before).
    { unfold assign_state. rewrite Hnone, Hname. reflexivity. }
    rewrite Hassign in Hm.
    destruct (getAllACsForState_absent state w1 before Hout1 Hm Hnone)
      as (w2 & Hget & Hsto2).
    unfold Views.and_then. run. rewrite Hsave.
    exists w2. split; [exact Hget|]. rewrite Hsto2, Hm. reflexivity.
Qed.

Lemma group_at_put_same key entry allGroups :
  group_at (put_group key entry allGroups) key = Some entry.
Proof.
  induction allGroups as [|[k v] rest IH]; simpl.
  - rewrite String.eqb_refl. reflexivity.
  - destruct (String.eqb k key) eqn:E; simpl.
    + rewrite String.eqb_refl. reflexivity.
    + rewrite E. exact IH.
Qed.

Lemma group_at_put_other key other entry allGroups :
  other <> key ->
  group_at (put_group key entry allGroups) other = group_at allGroups other.
Proof.
  intros Hne. induction allGroups as [|[k v] rest IH]; simpl.
  - apply String.eqb_neq in Hne. rewrite String.eqb_sym in Hne.
    rewrite Hne. reflexivity.
  - destruct (String.eqb k key) eqn:E; simpl.
    + apply String.eqb_eq in E. subst k.
      apply String.eqb_neq in Hne. rewrite String.eqb_sym in Hne.
      rewrite Hne. reflexivity.
    + rewrite IH. reflexivity.
Qed.

(** What [savePollingGroups] does when the storage answers. *)
Lemma savePollingGroups_healthy (now state acIdentifier : string)
    (data : PollingGroup) (w : World) :
  outcomes w = [] ->
  exists w',
    savePollingGroups now state acIdentifier data w = (Resolved tt, w')
    /\ storage w'
       = write POLLING_GROUPS
           (Some (put_group (state +:+ "::" +:+ acIdentifier)
                    (stamped_group now state acIdentifier data)
                    (default [] (offline_polling_groups (storage w)))))
           (storage w)
    /\ outcomes w' = [].
Proof.
  intros Hok. unfold savePollingGroups, getAllPollingGroups. run.
  repeat (rewrite Hok; simpl). eexists. repeat split.
Qed.

(** X17: with a storage that answers, [savePollingGroups] followed by
    [getPollingGroups] for the same state and identifier returns the saved
    data with [state], [acIdentifier] and [cachedAt] set by the save. *)
Theorem savePollingGroups_then_get (now state acIdentifier : string)
    (data : PollingGroup) (w : World) :
  outcomes w = [] ->
  fst (Views.and_then (savePollingGroups now state acIdentifier data)
         (getPollingGroups state acIdentifier) w)
  = Resolved (Some {| pg_state := state;
                      pg_acIdentifier := acIdentifier;
                      pg_groups := pg_groups data;
                      pg_ac_name := pg_ac_name data;
                      pg_more := set_field "cachedAt" (JStr now) (pg_more data) |}).
Proof.
  intros Hok.
  destruct (savePollingGroups_healthy now state acIdentifier data w Hok)
    as (w1 & Hsave & Hsto1 & Hout1).
  unfold Views.and_then. run. rewrite Hsave.
  unfold getPollingGroups, getAllPollingGroups. run.
  rewrite Hout1, Hsto1. simpl. rewrite group_at_put_same. reflexivity.
Qed.

(** X18: with a storage that answers, [savePollingGroups] changes the entry
    of its own key only: every other key of the mapping keeps its entry, and
    the all-ACs mapping, the interviews and the other storage keys are
    untouched. *)
Theorem savePollingGroups_frame (now state acIdentifier : string)
    (data : PollingGroup) (w : World) :
  outcomes w = [] ->
  exists w',
    savePollingGroups now state acIdentifier data w = (Resolved tt, w')
    /\ (forall other, other <> state +:+ "::" +:+ acIdentifier ->
          group_at (default [] (offline_polling_groups (storage w'))) other
          = group_at (default [] (offline_polling_groups (storage w))) other)
    /\ offline_all_acs_for_state (storage w')
       = offline_all_acs_for_state (storage w)
    /\ offline_interviews (storage w') = offline_interviews (storage w)
    /\ other_keys (storage w') = other_keys (storage w).
Proof.
  intros Hok.
  destruct (savePollingGroups_healthy now state acIdentifier data w Hok)
    as (w1 & Hsave & Hsto1 & _).
  exists w1. split; [exact Hsave|]. rewrite Hsto1. simpl.
  split; [|auto]. intros other Hne. apply group_at_put_other. exact Hne.
Qed.

Lemma getAllPollingGroups_resolves w :
  exists allGroups w',
    getAllPollingGroups w = (Resolved allGroups, w')
    /\ storage w' = storage w.
Proof.
  unfold getAllPollingGroups. run.
  destruct (outcomes w) as [|[m|] rest]; simpl; eexists; eexists; split; reflexivity.
Qed.

Lemma startsWith_append a b : startsWith (a +:+ b) a = true.
Proof.
  induction a as [|c a IH]; [destruct b; reflexivity|].
  change (String c a +:+ b) with (String c (a +:+ b)). simpl.
  rewrite Ascii.eqb_refl. exact IH.
Qed.

Lemma startsWith_append2 a b c : startsWith (a +:+ b +:+ c) (a +:+ b) = true.
Proof.
  induction a as [|x a IH]; [apply (startsWith_append b c)|].
  change (String x a +:+ b +:+ c) with (String x (a +:+ b +:+ c)).
  change (String x a +:+ b) with (String x (a +:+ b)). simpl.
  rewrite Ascii.eqb_refl. exact IH.
Qed.

Lemma group_at_In allGroups key g :
  group_at allGroups key = Some g -> In (key, g) allGroups.
Proof.
  induction allGroups as [|[k v] rest IH]; simpl; [discriminate|].
  destruct (String.eqb k key) eqn:E.
  - intros [= ->]. apply String.eqb_eq in E. subst. left. reflexivity.
  - intros H. right. apply IH. exact H.
Qed.

Lemma entry_found_prefix state acIdentifier search key data line :
  entry_found state acIdentifier search key data = Some line ->
  startsWith key (state +:+ "::") = true.
Proof.
  unfold entry_found. destruct (startsWith key (state +:+ "::")); [reflexivity|].
  discriminate.
Qed.

Lemma scan_groups_In state acIdentifier search allGroups line g :
  scan_groups state acIdentifier search allGroups = Some (line, g) ->
  exists key, In (key, g) allGroups
              /\ startsWith key (state +:+ "::") = true
              /\ entry_found state acIdentifier search key g = Some line.
Proof.
  induction allGroups as [|[k v] rest IH]; simpl; [discriminate|].
  destruct (entry_found state acIdentifier search k v) as [l|] eqn:E.
  - intros [= <- <-]. exists k. split; [left; reflexivity|]. split; [|exact E].
    apply (entry_found_prefix _ _ _ _ _ _ E).
  - intros H. destruct (IH H) as (key & Hin & Hp). exists key. split; [right|]; auto.
Qed.

(** X19: whatever the storage answers, an entry returned by
    [getPollingGroups] for a state is one of the entries that
    [getAllPollingGroupsForState] lists for that state: it is stored under a
    key that starts with the state and "::". *)
Theorem getPollingGroups_within_state (state acIdentifier : string) (w : World) :
  exists result groups w1 w2,
    getPollingGroups state acIdentifier w = (Resolved result, w1)
    /\ getAllPollingGroupsForState state w = (Resolved groups, w2)
    /\ (forall g, result = Some g -> In g groups).
Proof.
  destruct (getAllPollingGroups_resolves w) as (allGroups & w0 & Hall & _).
  unfold getPollingGroups, getAllPollingGroupsForState. run. rewrite Hall.
  assert (Hin : forall key g,
            In (key, g) allGroups -> startsWith key (state +:+ "::") = true ->
            In g (map snd (List.filter
                             (fun kv => startsWith (fst kv) (state +:+ "::"))
                             allGroups))).
  { intros key g Hin Hp. apply List.in_map_iff. exists (key, g).
    split; [reflexivity|]. apply List.filter_In. split; assumption. }
  destruct (group_at allGroups (state +:+ "::" +:+ acIdentifier)) as [hit|] eqn:Ehit.
  - eexists. eexists. eexists. eexists. split; [reflexivity|]. split; [reflexivity|].
    intros g [= <-]. apply (Hin _ _ (group_at_In _ _ _ Ehit)).
    apply startsWith_append2.
  - destruct (scan_groups state acIdentifier (normalized_name acIdentifier) allGroups)
      as [[line g]|] eqn:Escan; simpl.
    + eexists. eexists. eexists. eexists. split; [reflexivity|]. split; [reflexivity|].
      intros g' [= <-]. destruct (scan_groups_In _ _ _ _ _ _ Escan) as (key & Hk & Hp & _).
      apply (Hin key g Hk Hp).
    + destruct (0 <? len (availableKeys state allGroups)); simpl;
        eexists; eexists; eexists; eexists;
        (split; [reflexivity|]); (split; [reflexivity|]); intros g; discriminate.
Qed.


Lemma entry_found_tiers state acIdentifier search key data line :
  entry_found state acIdentifier search key data = Some line ->
  (exists name, line = FoundByACName acIdentifier name key)
  \/ (exists cached, line = FoundByCacheKey acIdentifier cached key).
Proof.
  unfold entry_found.
  destruct (startsWith key (state +:+ "::")); [|discriminate].
  set (name := default "" (pg_ac_name data)).
  set (agree := names_agree (if nonempty name then normalized_name name else "") search).
  destruct (nonempty name); destruct agree; simpl;
    try (intros [= <-]; left; eexists; reflexivity).
  all: rewrite ?andb_false_r; simpl.
  all: match goal with
       | |- context [if ?b then _ else _] => destruct b
       end; intros [= <-]; right; eexists; reflexivity.
Qed.

Lemma getAllPollingGroups_console w :
  exists allGroups w',
    getAllPollingGroups w = (Resolved allGroups, w')
    /\ (console w' = console w
        \/ exists e, console w' = (ERROR, ErrorAllPollingGroups e) :: console w).
Proof.
  unfold getAllPollingGroups. run.
  destruct (outcomes w) as [|[m|] rest]; simpl; eexists; eexists;
    (split; [reflexivity|]); simpl; eauto.
Qed.

(** X20: [getPollingGroups] never returns an entry by its second fallback
    comparison (numeric key and matching name): whenever that comparison
    holds, the first one has returned the entry already. No line of that
    comparison is ever written to the console. *)
Theorem getPollingGroups_code_tier_is_dead (state acIdentifier : string)
    (w : World) (a b c : string) :
  In (LOG, FoundByACCode a b c)
    (console (snd (getPollingGroups state acIdentifier w))) ->
  In (LOG, FoundByACCode a b c) (console w).
Proof.
  destruct (getAllPollingGroups_console w) as (allGroups & w0 & Hall & Hcon).
  unfold getPollingGroups. run. rewrite Hall.
  assert (H0 : In (LOG, FoundByACCode a b c) (console w0) ->
               In (LOG, FoundByACCode a b c) (console w)).
  { destruct Hcon as [-> | [e ->]]; [auto|]. intros [H|H]; [discriminate|exact H]. }
  destruct (group_at allGroups (state +:+ "::" +:+ acIdentifier)); simpl; [exact H0|].
  destruct (scan_groups state acIdentifier (normalized_name acIdentifier) allGroups)
    as [[line g]|] eqn:Escan; simpl.
  - destruct (scan_groups_In _ _ _ _ _ _ Escan) as (key & _ & _ & Hline).
    apply entry_found_tiers in Hline.
    intros [H|H]; [|exact (H0 H)].
    destruct Hline as [[name ->] | [cached ->]]; discriminate.
  - destruct (0 <? len (availableKeys state allGroups)); simpl;
      intros [H|[H|H]]; try discriminate; exact (H0 H).
Qed.

Lemma includes_empty s : includes s "" = true.
Proof. destruct s; reflexivity. Qed.

Lemma names_agree_empty s : names_agree s "" = true.
Proof.
  unfold names_agree. rewrite includes_empty.
  destruct (String.eqb s ""); reflexivity.
Qed.

Lemma scan_groups_empty_search state acIdentifier allGroups :
  option_map snd (scan_groups state acIdentifier "" allGroups)
  = option_map snd
      (List.find (fun kv => startsWith (fst kv) (state +:+ "::")) allGroups).
Proof.
  induction allGroups as [|[k v] rest IH]; simpl; [reflexivity|].
  unfold entry_found.
  destruct (startsWith k (state +:+ "::")); [|exact IH].
  destruct (nonempty (default "" (pg_ac_name v))); simpl;
    rewrite !names_agree_empty; simpl; try reflexivity.
  rewrite ?andb_false_r. reflexivity.
Qed.

(** X21: with a storage that answers, when the identifier has no entry of
    its own and is reduced to the empty string by the normalization (it is
    blank or only a remark in parentheses), [getPollingGroups] returns the
    first entry cached for the state, whatever its name, and [null] only
    when nothing is cached for the state. *)
Theorem getPollingGroups_blank_identifier (state acIdentifier : string)
    (w : World) :
  outcomes w = [] ->
  group_at (default [] (offline_polling_groups (storage w)))
    (state +:+ "::" +:+ acIdentifier) = None ->
  normalized_name acIdentifier = "" ->
  fst (getPollingGroups state acIdentifier w)
  = Resolved
      (option_map snd
         (List.find (fun kv => startsWith (fst kv) (state +:+ "::"))
            (default [] (offline_polling_groups (storage w))))).
Proof.
  intros Hok Hmiss Hblank.
  unfold getPollingGroups, getAllPollingGroups. run.
  rewrite Hok. simpl. rewrite Hmiss, Hblank.
  rewrite <- scan_groups_empty_search with (acIdentifier := acIdentifier).
  destruct (scan_groups state acIdentifier ""
              (default [] (offline_polling_groups (storage w))))
    as [[line g]|]; simpl; [reflexivity|].
  destruct (0 <? len (availableKeys state
                        (default [] (offline_polling_groups (storage w)))));
    reflexivity.
Qed.

(** X22: when no download is in progress, [downloadDependentDataForSurveys]
    runs the provisioning with the flag set, settles as the provisioning
    does (with the same error when it rejects) and always ends with the flag
    cleared. *)
Theorem downloadDependentDataForSurveys_clears_flag
    (provisioning : list JSON -> bool -> Async unit)
    (surveys : list JSON) (includeGPS : bool) (w : World) :
  isDownloading w = false ->
  exists w_start,
    isDownloading w_start = true
    /\ storage w_start = storage w
    /\ outcomes w_start = outcomes w
    /\ fst (downloadDependentDataForSurveys provisioning surveys includeGPS w)
       = fst (provisioning surveys includeGPS w_start)
    /\ storage (snd (downloadDependentDataForSurveys provisioning surveys
                       includeGPS w))
       = storage (snd (provisioning surveys includeGPS w_start))
    /\ isDownloading (snd (downloadDependentDataForSurveys provisioning surveys
                             includeGPS w)) = false.
Proof.
  intros Hidle. unfold downloadDependentDataForSurveys. run. rewrite Hidle.
  destruct includeGPS; simpl;
    match goal with
    | |- context [provisioning surveys ?g ?x] =>
        exists x; destruct (provisioning surveys g x) as [[r|e] w1]
    end; simpl; repeat split.
Qed.

Lemma lookup_foldr_delete (keys : list string) (m : gmap string string)
    (k : string) :
  foldr delete m keys !! k = if decide (k ∈ keys) then None else m !! k.
Proof.
  induction keys as [|x keys IH]; cbn [foldr].
  - destruct (decide (k ∈ [])) as [H|H]; [inversion H|reflexivity].
  - destruct (decide (x = k)) as [->|Hne].
    + rewrite lookup_delete_eq.
      destruct (decide (k ∈ k :: keys)) as [H|H]; [reflexivity|].
      exfalso. apply H. left.
    + rewrite lookup_delete_ne by exact Hne. rewrite IH.
      destruct (decide (k ∈ keys)) as [Hin|Hnin];
        destruct (decide (k ∈ x :: keys)) as [Hin'|Hnin']; try reflexivity.
      * exfalso. apply Hnin'. right. exact Hin.
      * exfalso. inversion Hin'; subst; [congruence|contradiction].
Qed.

(** X23: when the storage answers, [clearAllCache] empties the reference
    data: afterwards [getAllACsForState] returns the empty list for every
    state and [getPollingGroups] returns [null] for every identifier. The
    stored interviews and every key outside the eight cache keys are left as
    they are. *)
Theorem clearAllCache_empties_cache_only (w : World) :
  outcomes w = [] ->
  exists w',
    clearAllCache w = (Resolved tt, w')
    /\ (forall state, fst (getAllACsForState state w') = Resolved [])
    /\ (forall state acIdentifier,
          fst (getPollingGroups state acIdentifier w') = Resolved None)
    /\ offline_interviews (storage w') = offline_interviews (storage w)
    /\ (forall k, k ∉ cache_text_keys ->
          other_keys (storage w') !! k = other_keys (storage w) !! k).
Proof.
  intros Hok. unfold clearAllCache, multiRemove. run. rewrite Hok. simpl.
  eexists. split; [reflexivity|]. simpl. split; [|split; [|split]].
  - intros state. unfold getAllACsForState, getAllACsForAllStates. run.
    rewrite Hok. simpl. rewrite lookup_empty. reflexivity.
  - intros state acIdentifier. unfold getPollingGroups, getAllPollingGroups. run.
    rewrite Hok. reflexivity.
  - reflexivity.
  - intros k Hk.
    change (foldr delete (other_keys (storage w)) cache_text_keys !! k
            = other_keys (storage w) !! k).
    rewrite lookup_foldr_delete.
    destruct (decide (k ∈ cache_text_keys)); [contradiction|reflexivity].
Qed.

End CacheExtras.

Module StorageExtras2.
Import OfflineStorage OfflineDataCache CacheMore StorageMore.

(** X24: when the storage answers, [clearAllOfflineData] removes the
    interview collection, so that [getOfflineInterviews] then returns the
    empty list, and leaves the reference data alone: the all-ACs mapping,
    the polling groups and the six cache keys kept as text are as they
    were. When the storage rejects the call, the method rejects with the same
    message and nothing is removed. *)
Theorem clearAllOfflineData_spares_cache (w : World) :
  (outcomes w = [] ->
   exists w',
     clearAllOfflineData w = (Resolved tt, w')
     /\ fst (getOfflineInterviews w') = Resolved []
     /\ offline_all_acs_for_state (storage w')
        = offline_all_acs_for_state (storage w)
     /\ offline_polling_groups (storage w') = offline_polling_groups (storage w)
     /\ (forall k, k ∈ cache_text_keys ->
           other_keys (storage w') !! k = other_keys (storage w) !! k))
  /\ (forall message rest,
        outcomes w = Some message :: rest ->
        exists w',
          clearAllOfflineData w = (Rejected message, w')
          /\ storage w' = storage w).
Proof.
  split.
  - intros Hok. unfold clearAllOfflineData, multiRemove. run. rewrite Hok. simpl.
    eexists. split; [reflexivity|]. simpl. split; [|split; [|split]]; try reflexivity.
    + unfold getOfflineInterviews. run. rewrite Hok. reflexivity.
    + intros k Hk.
      change (foldr delete (other_keys (storage w)) offline_text_keys !! k
              = other_keys (storage w) !! k).
      rewrite CacheExtras.lookup_foldr_delete.
      destruct (decide (k ∈ offline_text_keys)) as [Hin|Hin]; [|reflexivity].
      exfalso. revert Hk Hin. unfold cache_text_keys, offline_text_keys.
      rewrite !elem_of_cons, !elem_of_nil. intuition (subst; discriminate).
  - intros message rest Hout. unfold clearAllOfflineData, multiRemove. run.
    rewrite Hout. simpl. eexists. split; reflexivity.
Qed.

End StorageExtras2.


(** *** More about the names of ACs *)

Module NameExtras.
Import JsString Bundled ACName BundledMore.

Lemma exact_mapping_values x v :
  exact_mapping acNameMappings x = Some v ->
  In (x, v) acNameMappings.
Proof.
  unfold acNameMappings. cbn [exact_mapping In].
  repeat match goal with
         | |- context [String.eqb ?k x] =>
             let E := fresh "E" in
             destruct (String.eqb k x) eqn:E;
             [apply String.eqb_eq in E; subst x; intros [= <-]; tauto|]
         end.
  discriminate.
Qed.

Lemma caseless_mapping_values x v :
  caseless_mapping acNameMappings x = Some v ->
  v = "COOCHBEHAR UTTAR (SC)" \/ v = "COOCHBEHAR DAKSHIN".
Proof.
  unfold acNameMappings. cbn [caseless_mapping].
  repeat match goal with
         | |- context [if ?b then _ else _] =>
             destruct b; [intros [= <-]; tauto|]
         end.
  discriminate.
Qed.

Lemma inherited_names name :
  JsObject.is_inherited name = true ->
  In name JsObject.object_prototype_names.
Proof.
  unfold JsObject.is_inherited. intros H.
  apply List.existsb_exists in H. destruct H as (x & Hin & Heq).
  apply String.eqb_eq in Heq. subst x. exact Hin.
Qed.

(** X25: [normalizeACName] is idempotent: the master spellings it returns
    are left as they are by a second pass, and so is every name it leaves
    unchanged.  For a name that the table inherits from [Object.prototype],
    such as "constructor", the first test returns the inherited member,
    which is not a string; the guard of the method returns a value that is
    not a string as it is. *)
Theorem normalizeACName_idempotent (acName : Name) :
  normalizeACName (normalizeACName acName) = normalizeACName acName
  /\ (forall name,
        JsObject.is_inherited name = true ->
        normalizeACName (Text name) = Member name).
Proof.
  assert (H1 : normalizeACName (Text "COOCHBEHAR UTTAR (SC)")
               = Text "COOCHBEHAR UTTAR (SC)") by (vm_compute; reflexivity).
  assert (H2 : normalizeACName (Text "COOCHBEHAR DAKSHIN")
               = Text "COOCHBEHAR DAKSHIN") by (vm_compute; reflexivity).
  split.
  - destruct acName as [s|name]; [|reflexivity].
    unfold normalizeACName at 2 3.
    destruct (negb (nonempty s)) eqn:Hempty.
    + unfold normalizeACName. rewrite Hempty. reflexivity.
    + unfold JsObject.get.
      destruct (exact_mapping acNameMappings s) as [v|] eqn:Hexact.
      * apply exact_mapping_values in Hexact. unfold acNameMappings in Hexact.
        simpl in Hexact.
        repeat (destruct Hexact as [Hexact|Hexact];
                [injection Hexact as _ <-; assumption|]).
        destruct Hexact.
      * destruct (JsObject.is_inherited s) eqn:Hproto; [reflexivity|].
        destruct (caseless_mapping acNameMappings (trim s)) as [v|] eqn:Hcase.
        -- apply caseless_mapping_values in Hcase.
           destruct Hcase as [-> | ->]; assumption.
        -- unfold normalizeACName, JsObject.get.
           rewrite Hempty, Hexact, Hproto, Hcase. reflexivity.
  - intros name Hname. apply inherited_names in Hname.
    unfold JsObject.object_prototype_names in Hname. simpl in Hname.
    repeat (destruct Hname as [Hname|Hname];
            [subst name; vm_compute; reflexivity|]).
    destruct Hname.
Qed.

(** X26: [normalizeACName] ignores letter case and surrounding white space
    for the names of its table: a name that equals a key of the table after
    [trim] and [toLowerCase] is mapped to the value of that key. *)
Theorem normalizeACName_caseless (acName key value : string) :
  In (key, value) acNameMappings ->
  toLowerCase (trim acName) = toLowerCase key ->
  normalizeACName (Text acName) = Text value.
Proof.
  intros Hin Hsame. unfold normalizeACName, JsObject.get.
  destruct (negb (nonempty acName)) eqn:Hempty.
  - destruct acName; [|discriminate]. exfalso.
    unfold acNameMappings in Hin. simpl in Hin.
    repeat (destruct Hin as [Hin|Hin];
            [injection Hin as <- <-; vm_compute in Hsame; discriminate|]).
    destruct Hin.
  - destruct (exact_mapping acNameMappings acName) as [v|] eqn:Hexact.
    + apply exact_mapping_values in Hexact.
      unfold acNameMappings in Hin, Hexact. simpl in Hin, Hexact.
      repeat (destruct Hexact as [Hexact|Hexact];
              [injection Hexact as <- <-;
               repeat (destruct Hin as [Hin|Hin];
                       [injection Hin as <- <-; vm_compute in Hsame;
                        first [discriminate | reflexivity]|]);
               destruct Hin|]).
      destruct Hexact.
    + destruct (JsObject.is_inherited acName) eqn:Hproto.
      * exfalso. apply inherited_names in Hproto.
        unfold JsObject.object_prototype_names in Hproto. simpl in Hproto.
        unfold acNameMappings in Hin. simpl in Hin.
        repeat (destruct Hproto as [Hproto|Hproto];
                [subst acName;
                 repeat (destruct Hin as [Hin|Hin];
                         [injection Hin as <- <-; vm_compute in Hsame;
                          discriminate|]);
                 destruct Hin|]).
        destruct Hproto.
      * unfold acNameMappings. cbn [caseless_mapping]. rewrite Hsame.
        unfold acNameMappings in Hin. simpl in Hin.
        repeat (destruct Hin as [Hin|Hin];
                [injection Hin as <- <-; vm_compute; reflexivity|]).
        destruct Hin.
Qed.

End NameExtras.

(** *** More about the bundled data set *)

Module BundledExtras.
Import JsString Bundled BundledMore.

Lemma first_match_In search entries acNo :
  first_match search entries = Some acNo ->
  exists acData, In (acNo, acData) entries /\ entry_matches search acData = true.
Proof.
  induction entries as [|[k v] rest IH]; simpl; [discriminate|].
  destruct (entry_matches search v) eqn:E.
  - intros [= <-]. exists v. split; [left; reflexivity|exact E].
  - intros H. destruct (IH H) as (d & Hin & Hm). exists d. split; [right|]; auto.
Qed.

Lemma first_match_exists search entries acNo acData :
  In (acNo, acData) entries -> entry_matches search acData = true ->
  exists found, first_match search entries = Some found.
Proof.
  induction entries as [|[k v] rest IH]; simpl; [tauto|].
  intros Hin Hm. destruct (entry_matches search v) eqn:E; [eauto|].
  destruct Hin as [[= -> ->]|Hin]; [congruence|]. apply IH; assumption.
Qed.

Lemma nonempty_trim s : nonempty (trim s) = true -> nonempty s = true.
Proof. destruct s; [discriminate|reflexivity]. Qed.

Lemma own_name_matches acData :
  nonempty (trim (ac_name acData)) = true ->
  entry_matches (collapse_ws (toLowerCase (trim (ac_name acData)))) acData = true.
Proof.
  intros H. unfold entry_matches. rewrite (nonempty_trim _ H). simpl.
  rewrite String.eqb_refl. reflexivity.
Qed.

(** X27: [findACNumberByName] only returns keys of the state it was asked
    for, and every name stored in the data set resolves: for an entry of the
    state whose name is not blank and not "N/A", the search for that name
    returns the key of an entry of the state (the first one that matches). *)
Theorem findACNumberByName_sound_and_complete (data : PollingStationData)
    (state : string) :
  (forall acName acNo,
     findACNumberByName data state acName = Some acNo ->
     exists entries acData,
       data !! state = Some entries /\ In (acNo, acData) entries)
  /\ (forall entries acNo acData,
        data !! state = Some entries ->
        In (acNo, acData) entries ->
        nonempty (trim (ac_name acData)) = true ->
        trim (ac_name acData) <> "N/A" ->
        exists found,
          findACNumberByName data state (ac_name acData) = Some found).
Proof.
  split.
  - intros acName acNo. unfold findACNumberByName.
    destruct (data !! state) as [entries|]; [|discriminate].
    destruct (negb (nonempty acName)); [discriminate|].
    destruct (negb (nonempty (trim acName)) || String.eqb (trim acName) "N/A");
      [discriminate|].
    intros H. apply first_match_In in H. destruct H as (d & Hin & _). eauto.
  - intros entries acNo acData Hdata Hin Hne Hna. unfold findACNumberByName.
    rewrite Hdata, (nonempty_trim _ Hne), Hne. simpl.
    apply String.eqb_neq in Hna. rewrite Hna.
    apply (first_match_exists _ _ acNo acData Hin). apply own_name_matches. exact Hne.
Qed.

Lemma record_at_In entries key r :
  record_at entries key = Some r -> In (key, r) entries.
Proof.
  induction entries as [|[k v] rest IH]; simpl; [discriminate|].
  destruct (String.eqb k key) eqn:E.
  - intros [= ->]. apply String.eqb_eq in E. subst. left. reflexivity.
  - intros H. right. apply IH. exact H.
Qed.

Lemma last_resort_In search entries r :
  last_resort search entries = Some r -> exists key, In (key, r) entries.
Proof.
  induction entries as [|[k v] rest IH]; simpl; [discriminate|].
  destruct (negb (nonempty (ac_name v))).
  - intros H. destruct (IH H) as [key Hk]. eauto.
  - destruct (String.eqb (toLowerCase (trim (ac_name v))) search);
      [intros [= <-]; eauto|].
    destruct (String.eqb (toLowerCase (trim (strip_parens (ac_name v)))) search);
      [intros [= <-]; eauto|].
    intros H. destruct (IH H) as [key Hk]. eauto.
Qed.

Lemma record_at_exists entries key r :
  In (key, r) entries -> exists found, record_at entries key = Some found.
Proof.
  induction entries as [|[k v] rest IH]; simpl; [tauto|].
  intros [[= -> ->]|Hin].
  - rewrite String.eqb_refl. eauto.
  - destruct (String.eqb k key); [eauto|]. apply IH. exact Hin.
Qed.

Lemma last_resort_exists entries key r :
  In (key, r) entries -> nonempty (ac_name r) = true ->
  exists found, last_resort (toLowerCase (trim (ac_name r))) entries = Some found.
Proof.
  induction entries as [|[k v] rest IH]; simpl; [tauto|].
  intros [[= -> ->]|Hin] Hne.
  - rewrite Hne. simpl. rewrite String.eqb_refl. eauto.
  - destruct (negb (nonempty (ac_name v))); [apply IH; assumption|].
    destruct (String.eqb (toLowerCase (trim (ac_name v)))
                (toLowerCase (trim (ac_name r)))); [eauto|].
    destruct (String.eqb (toLowerCase (trim (strip_parens (ac_name v))))
                (toLowerCase (trim (ac_name r)))); [eauto|].
    apply IH; assumption.
Qed.

Lemma inherited_nonempty name :
  JsObject.is_inherited name = true -> nonempty name = true.
Proof.
  unfold JsObject.is_inherited. intros H.
  apply List.existsb_exists in H. destruct H as (x & Hin & Heq).
  apply String.eqb_eq in Heq. subst x.
  unfold JsObject.object_prototype_names in Hin. simpl in Hin.
  repeat (destruct Hin as [Hin|Hin]; [subst name; reflexivity|]).
  destruct Hin.
Qed.

(** X28: a record that [getGroupsForAC] returns is a record of the state it
    was asked for; a key of the state always gives the record stored under
    it, whatever the names in the data set are; and the name of any entry of
    the state gives a record, unless it is a property name of
    [Object.prototype] that is no key of the state.  For such a name the
    first test of the method returns the inherited member, which is no
    record.  A state that is neither in the data set nor a property name of
    [Object.prototype] gives [null]. *)
Theorem getGroupsForAC_by_key (builtin_member : string -> string -> Probe)
    (data : PollingStationData) (state : string) :
  (forall acIdentifier found,
     getGroupsForAC builtin_member data state acIdentifier
     = Returns (Some (Record found)) ->
     exists entries key,
       data !! state = Some entries /\ In (key, found) entries)
  /\ (forall entries key found,
        data !! state = Some entries ->
        nonempty key = true ->
        record_at entries key = Some found ->
        getGroupsForAC builtin_member data state key
        = Returns (Some (Record found)))
  /\ (forall entries key acData,
        data !! state = Some entries ->
        In (key, acData) entries ->
        nonempty (ac_name acData) = true ->
        JsObject.is_inherited (ac_name acData) = false
        \/ is_Some (record_at entries (ac_name acData)) ->
        exists found,
          getGroupsForAC builtin_member data state (ac_name acData)
          = Returns (Some (Record found)))
  /\ (forall entries name,
        data !! state = Some entries ->
        record_at entries name = None ->
        JsObject.is_inherited name = true ->
        getGroupsForAC builtin_member data state name
        = Returns (Some (BuiltIn [name])))
  /\ (forall acIdentifier,
        data !! state = None ->
        JsObject.is_inherited state = false ->
        getGroupsForAC builtin_member data state acIdentifier = Returns None).
Proof.
  split; [|split; [|split; [|split]]].
  - intros acIdentifier found. unfold getGroupsForAC, JsObject.get.
    destruct (data !! state) as [entries|].
    2:{ destruct (JsObject.is_inherited state); [|discriminate].
        destruct (negb (nonempty acIdentifier)); [discriminate|].
        destruct (builtin_member state acIdentifier); discriminate. }
    destruct (negb (nonempty acIdentifier)); [discriminate|].
    destruct (record_at entries acIdentifier) as [r|] eqn:Ekey.
    + intros [= <-]. exists entries, acIdentifier. split; [reflexivity|].
      apply record_at_In. exact Ekey.
    + destruct (JsObject.is_inherited acIdentifier); [discriminate|].
      assert (Hlast :
                Returns (option_map Record
                           (last_resort (toLowerCase (trim acIdentifier)) entries))
                = Returns (Some (Record found)) ->
                exists entries0 key,
                  Some entries = Some entries0 /\ In (key, found) entries0).
      { destruct (last_resort (toLowerCase (trim acIdentifier)) entries)
          as [r|] eqn:Hr; [|discriminate].
        intros [= <-]. apply last_resort_In in Hr. destruct Hr as [key Hk].
        eauto. }
      destruct (findACNumberByName data state acIdentifier) as [acNo|];
        [|exact Hlast].
      destruct (nonempty acNo); [|exact Hlast].
      destruct (record_at entries acNo) as [r|] eqn:Ename.
      * intros [= <-]. exists entries, acNo. split; [reflexivity|].
        apply record_at_In. exact Ename.
      * destruct (JsObject.is_inherited acNo); [discriminate|exact Hlast].
  - intros entries key found Hdata Hne Hkey. unfold getGroupsForAC, JsObject.get.
    rewrite Hdata, Hne, Hkey. reflexivity.
  - intros entries key acData Hdata Hin Hne Hown.
    unfold getGroupsForAC, JsObject.get.
    rewrite Hdata, Hne. simpl.
    destruct (record_at entries (ac_name acData)) as [r|] eqn:Ekey; [eauto|].
    destruct Hown as [Hown | [r Hr]]; [|discriminate]. rewrite Hown.
    destruct (last_resort_exists entries key acData Hin Hne) as [r Hr].
    rewrite Hr. simpl.
    destruct (findACNumberByName data state (ac_name acData)) as [acNo|] eqn:Hfind;
      [|eauto].
    destruct (nonempty acNo); [|eauto].
    destruct (record_at entries acNo) as [r'|] eqn:Ename; [eauto|].
    exfalso. unfold findACNumberByName in Hfind. rewrite Hdata in Hfind.
    destruct (negb (nonempty (ac_name acData))); [discriminate|].
    destruct (negb (nonempty (trim (ac_name acData)))
              || String.eqb (trim (ac_name acData)) "N/A"); [discriminate|].
    apply first_match_In in Hfind. destruct Hfind as (d & Hd & _).
    destruct (record_at_exists entries acNo d Hd) as [x Hx]. congruence.
  - intros entries name Hdata Hkey Hname. unfold getGroupsForAC, JsObject.get.
    rewrite Hdata, (inherited_nonempty name Hname), Hkey, Hname. reflexivity.
  - intros acIdentifier Hdata Hstate. unfold getGroupsForAC, JsObject.get.
    rewrite Hdata, Hstate. reflexivity.
Qed.

Lemma is_space_lower c : is_space (lower_char c) = is_space c.
Proof. destruct c as [[] [] [] [] [] [] [] []]; vm_compute; reflexivity. Qed.

Lemma lower_char_twice c : lower_char (lower_char c) = lower_char c.
Proof. destruct c as [[] [] [] [] [] [] [] []]; vm_compute; reflexivity. Qed.

Lemma lower_char_not_N c : Ascii.eqb (lower_char c) "N" = false.
Proof. destruct c as [[] [] [] [] [] [] [] []]; vm_compute; reflexivity. Qed.

Lemma toLowerCase_twice s : toLowerCase (toLowerCase s) = toLowerCase s.
Proof.
  induction s as [|c s IH]; simpl; [reflexivity|].
  rewrite lower_char_twice, IH. reflexivity.
Qed.

Lemma trimStart_lower s : trimStart (toLowerCase s) = toLowerCase (trimStart s).
Proof.
  induction s as [|c s IH]; simpl; [reflexivity|].
  rewrite is_space_lower. destruct (is_space c); [exact IH|reflexivity].
Qed.

Lemma trimEnd_lower s : trimEnd (toLowerCase s) = toLowerCase (trimEnd s).
Proof.
  induction s as [|c s IH]; simpl; [reflexivity|].
  rewrite IH, is_space_lower.
  destruct (trimEnd s); simpl; [destruct (is_space c)|]; reflexivity.
Qed.

Lemma trim_lower s : trim (toLowerCase s) = toLowerCase (trim s).
Proof. unfold trim. rewrite trimStart_lower, trimEnd_lower. reflexivity. Qed.

Lemma nonempty_lower s : nonempty (toLowerCase s) = nonempty s.
Proof. destruct s; reflexivity. Qed.

Lemma lower_is_not_NA s : String.eqb (toLowerCase s) "N/A" = false.
Proof.
  destruct s as [|c s]; [reflexivity|].
  cbn [toLowerCase]. unfold String.eqb; fold String.eqb.
  rewrite lower_char_not_N. reflexivity.
Qed.

(** X29: [findACNumberByName] ignores the letter case of the searched name:
    the name in lower case gives the same answer, except for the literal
    "N/A", which is refused only in that spelling. *)
Theorem findACNumberByName_ignores_case (data : PollingStationData)
    (state acName : string) :
  trim acName <> "N/A" ->
  findACNumberByName data state (toLowerCase acName)
  = findACNumberByName data state acName.
Proof.
  intros Hna. apply String.eqb_neq in Hna. unfold findACNumberByName.
  destruct (data !! state) as [entries|]; [|reflexivity].
  rewrite nonempty_lower, trim_lower, nonempty_lower, lower_is_not_NA, Hna.
  rewrite toLowerCase_twice. reflexivity.
Qed.

End BundledExtras.

(** *** The assigned ACs of the surveys *)

Module AssignmentExtras.
Import JsString Json CacheMore.

Lemma set_add_In x y set : In x (set_add y set) <-> In x set \/ x = y.
Proof.
  unfold set_add. destruct (existsb (String.eqb y) set) eqn:E.
  - split; [auto|]. intros [H| ->]; [exact H|].
    apply List.existsb_exists in E. destruct E as (z & Hz & Hyz).
    apply String.eqb_eq in Hyz. subst. exact Hz.
  - rewrite List.in_app_iff. simpl. intuition.
Qed.

Lemma set_add_NoDup y set : List.NoDup set -> List.NoDup (set_add y set).
Proof.
  intros Hnd. unfold set_add. destruct (existsb (String.eqb y) set) eqn:E; [exact Hnd|].
  apply List.NoDup_app; [exact Hnd | repeat constructor; simpl; tauto |].
  intros z Hz [Heq|[]]. rewrite <- Heq in Hz.
  assert (existsb (String.eqb y) set = true); [|congruence].
  apply List.existsb_exists. exists y. split; [exact Hz|apply String.eqb_refl].
Qed.

Lemma add_acs_spec acs set x :
  In x (add_acs acs set)
  <-> In x set \/ (nonempty x = true /\ In (JStr x) acs).
Proof.
  revert set. induction acs as [|a acs IH]; intros set; simpl; [tauto|].
  destruct a as [| b | n | t | items | fields]; rewrite IH;
    try (split; [intros [H|[H1 H2]]; [tauto|right; tauto]
                |intros [H|[H1 [H2|H2]]]; [tauto|discriminate|tauto]]).
  destruct (nonempty t) eqn:Et.
  - rewrite set_add_In. split.
    + intros [[H| ->]|[H1 H2]]; [tauto|right; tauto|right; tauto].
    + intros [H|[H1 [[= <-]|H2]]]; tauto.
  - split.
    + intros [H|[H1 H2]]; [tauto|right; tauto].
    + intros [H|[H1 [[= <-]|H2]]]; [tauto|congruence|tauto].
Qed.

Lemma add_acs_NoDup acs set : List.NoDup set -> List.NoDup (add_acs acs set).
Proof.
  revert set. induction acs as [|a acs IH]; intros set Hnd; simpl; [exact Hnd|].
  destruct a; try (apply IH; exact Hnd).
  destruct (nonempty s); apply IH; [apply set_add_NoDup|]; exact Hnd.
Qed.

Lemma collect_acs_spec surveys set result :
  collect_acs surveys set = Some result ->
  List.NoDup set ->
  List.NoDup result
  /\ forall x,
       In x result
       <-> In x set
           \/ (nonempty x = true
               /\ exists survey acs,
                    In survey surveys /\ survey_acs survey = Some acs
                    /\ In (JStr x) acs).
Proof.
  revert set. induction surveys as [|survey rest IH]; intros set; simpl.
  - intros [= <-] Hnd. split; [exact Hnd|]. intros x. split; [tauto|].
    intros [H|(_ & s & a & [] & _)]. exact H.
  - destruct (survey_acs survey) as [acs|] eqn:E; [|discriminate].
    intros Hrun Hnd.
    destruct (IH _ Hrun (add_acs_NoDup acs set Hnd)) as [Hnd' Hin].
    split; [exact Hnd'|]. intros x. rewrite Hin, add_acs_spec. split.
    + intros [[H|[H1 H2]]|(H1 & s & a & Hs & Ha & Hx)].
      * tauto.
      * right. split; [exact H1|]. exists survey, acs. tauto.
      * right. split; [exact H1|]. exists s, a. tauto.
    + intros [H|(H1 & s & a & [<-|Hs] & Ha & Hx)].
      * tauto.
      * left. right. split; [exact H1|]. congruence.
      * right. split; [exact H1|]. exists s, a. tauto.
Qed.

Lemma collect_acs_none surveys set :
  collect_acs surveys set = None
  <-> exists survey, In survey surveys /\ survey_acs survey = None.
Proof.
  revert set. induction surveys as [|survey rest IH]; intros set; simpl.
  - split; [discriminate|]. intros (s & [] & _).
  - destruct (survey_acs survey) as [acs|] eqn:E.
    + rewrite IH. split.
      * intros (s & Hs & Hn). exists s. tauto.
      * intros (s & [<-|Hs] & Hn); [congruence|]. exists s. tauto.
    + split; [|reflexivity]. intros _. exists survey. tauto.
Qed.

Lemma assignment_acs_some a l :
  assignment_acs a = Some l ->
  forall x,
    In x l <-> exists acs, prop a "assignedACs" = Some (JArr acs) /\ In x acs.
Proof.
  unfold assignment_acs. intros H x.
  assert (Hgen :
            match prop a "assignedACs" with
            | Some (JArr assigned) => Some assigned
            | _ => Some []
            end = Some l ->
            (In x l
             <-> exists acs, prop a "assignedACs" = Some (JArr acs) /\ In x acs)).
  { destruct (prop a "assignedACs") as [[| | | |assigned|]|];
      intros [= <-];
      try (split; [intros [] | intros (acs & [=] & _)]; fail).
    split.
    - intros Hx. exists assigned. split; [reflexivity|exact Hx].
    - intros (acs & [= <-] & Hx). exact Hx. }
  destruct a; first [discriminate | exact (Hgen H)].
Qed.

Lemma assignment_acs_none a : assignment_acs a = None <-> a = JNull.
Proof.
  unfold assignment_acs. destruct a; split; try discriminate; try reflexivity.
  all: destruct (prop _ "assignedACs") as [[| | | | |]|]; discriminate.
Qed.

Lemma assignments_acs_some assignments r :
  assignments_acs assignments = Some r ->
  forall x,
    In x r
    <-> exists a acs,
          In a assignments /\ prop a "assignedACs" = Some (JArr acs) /\ In x acs.
Proof.
  revert r. induction assignments as [|a rest IH]; simpl; intros r.
  - intros [= <-] x. split; [intros []|]. intros (a & acs & [] & _).
  - destruct (assignment_acs a) as [l|] eqn:Ea; [|discriminate].
    destruct (assignments_acs rest) as [ls|]; [|discriminate].
    intros [= <-] x. rewrite List.in_app_iff, (assignment_acs_some a l Ea x),
      (IH ls eq_refl x).
    split.
    + intros [(acs & Hp & Hx)|(a' & acs & Ha & Hp & Hx)].
      * exists a, acs. tauto.
      * exists a', acs. tauto.
    + intros (a' & acs & [<-|Ha] & Hp & Hx).
      * left. exists acs. tauto.
      * right. exists a', acs. tauto.
Qed.

Lemma assignments_acs_none assignments :
  assignments_acs assignments = None <-> In JNull assignments.
Proof.
  induction assignments as [|a rest IH]; simpl.
  - split; [discriminate|tauto].
  - destruct (assignment_acs a) as [l|] eqn:Ea.
    + assert (Hnot : a <> JNull).
      { intros Hnull. apply assignment_acs_none in Hnull. congruence. }
      destruct (assignments_acs rest) as [ls|].
      * split; [discriminate|]. intros [H|H]; [congruence|].
        apply IH in H. discriminate.
      * split; [|reflexivity]. intros _. right. apply IH. reflexivity.
    + apply assignment_acs_none in Ea. split; [|reflexivity]. intros _.
      left. exact Ea.
Qed.

Lemma interviewers_acs_some survey k r :
  interviewers_acs survey k = Some r ->
  forall x,
    In x r
    <-> exists assignments a acs,
          prop survey k = Some (JArr assignments) /\ In a assignments
          /\ prop a "assignedACs" = Some (JArr acs) /\ In x acs.
Proof.
  unfold interviewers_acs. intros H x.
  destruct (prop survey k) as [v|].
  - destruct v as [| flag | n | t | assignments | fields];
      try (destruct (truthy _); [discriminate|]; injection H as <-;
           split; [intros []|intros (l & a & acs & [=] & _)]).
    rewrite (assignments_acs_some assignments r H x). split.
    + intros (a & acs & Ha & Hp & Hx). exists assignments, a, acs. tauto.
    + intros (l & a & acs & [= <-] & Ha & Hp & Hx). exists a, acs. tauto.
  - injection H as <-. split; [intros []|]. intros (l & a & acs & [=] & _).
Qed.

Lemma interviewers_acs_none survey k :
  interviewers_acs survey k = None
  <-> exists v,
        prop survey k = Some v
        /\ ((truthy v = true /\ forall l, v <> JArr l)
            \/ exists l, v = JArr l /\ In JNull l).
Proof.
  unfold interviewers_acs. destruct (prop survey k) as [v|].
  - destruct v as [| flag | n | t | assignments | fields].
    all: try (destruct (truthy _) eqn:Et;
              [split; [intros _; eexists; split; [reflexivity|]; left;
                       split; [exact Et|discriminate]
                      |reflexivity]
              |split; [discriminate|];
               intros (v & [= <-] & [[Ht _]|(l & [=] & _)]); congruence]).
    rewrite assignments_acs_none. split.
    + intros Hnull. exists (JArr assignments). split; [reflexivity|].
      right. exists assignments. tauto.
    + intros (v & [= <-] & [[_ Hno]|(l & [= <-] & Hnull)]); [|exact Hnull].
      exfalso. exact (Hno assignments eq_refl).
  - split; [discriminate|]. intros (v & [=] & _).
Qed.

(** What the array [acs] of one survey holds, and when the survey makes
    the loop raise. *)
Lemma survey_acs_some survey acs :
  survey_acs survey = Some acs ->
  forall x,
    In x acs
    <-> (exists k assignments a l,
           In k ["assignedInterviewers"; "capiInterviewers"; "catiInterviewers"]
           /\ prop survey k = Some (JArr assignments) /\ In a assignments
           /\ prop a "assignedACs" = Some (JArr l) /\ In x l)
        \/ (exists l, prop survey "assignedACs" = Some (JArr l) /\ In x l).
Proof.
  intros H x.
  assert (Hgen :
            match interviewers_acs survey "assignedInterviewers",
                  interviewers_acs survey "capiInterviewers",
                  interviewers_acs survey "catiInterviewers" with
            | Some a, Some b, Some c =>
                Some (a ++ b ++ c
                        ++ match prop survey "assignedACs" with
                           | Some (JArr assigned) => assigned
                           | _ => []
                           end)%list
            | _, _, _ => None
            end = Some acs ->
            (In x acs
             <-> (exists k assignments a l,
                    In k ["assignedInterviewers"; "capiInterviewers";
                          "catiInterviewers"]
                    /\ prop survey k = Some (JArr assignments) /\ In a assignments
                    /\ prop a "assignedACs" = Some (JArr l) /\ In x l)
                 \/ (exists l, prop survey "assignedACs" = Some (JArr l)
                               /\ In x l))).
  { destruct (interviewers_acs survey "assignedInterviewers") as [a|] eqn:Ea;
      [|discriminate].
    destruct (interviewers_acs survey "capiInterviewers") as [b|] eqn:Eb;
      [|discriminate].
    destruct (interviewers_acs survey "catiInterviewers") as [c|] eqn:Ec;
      [|discriminate].
    intros [= <-]. rewrite !List.in_app_iff.
    rewrite (interviewers_acs_some _ _ _ Ea x), (interviewers_acs_some _ _ _ Eb x),
      (interviewers_acs_some _ _ _ Ec x).
    split.
    - intros [(l & a' & acs' & H1 & H2 & H3 & H4)
             |[(l & a' & acs' & H1 & H2 & H3 & H4)
              |[(l & a' & acs' & H1 & H2 & H3 & H4)|Hd]]].
      + left. exists "assignedInterviewers", l, a', acs'. simpl. tauto.
      + left. exists "capiInterviewers", l, a', acs'. simpl. tauto.
      + left. exists "catiInterviewers", l, a', acs'. simpl. tauto.
      + right. destruct (prop survey "assignedACs") as [[| | | |assigned|]|];
          try destruct Hd. exists assigned. tauto.
    - intros [(k & l & a' & acs' & Hk & H1 & H2 & H3 & H4)|(l & Hp & Hx)].
      + simpl in Hk. destruct Hk as [<-|[<-|[<-|[]]]].
        * left. exists l, a', acs'. tauto.
        * right. left. exists l, a', acs'. tauto.
        * right. right. left. exists l, a', acs'. tauto.
      + right. right. right. rewrite Hp. exact Hx. }
  unfold survey_acs in H. destruct survey; first [discriminate | exact (Hgen H)].
Qed.

Lemma survey_acs_none survey :
  survey_acs survey = None
  <-> survey = JNull
      \/ exists k v,
           In k ["assignedInterviewers"; "capiInterviewers"; "catiInterviewers"]
           /\ prop survey k = Some v
           /\ ((truthy v = true /\ forall l, v <> JArr l)
               \/ exists l, v = JArr l /\ In JNull l).
Proof.
  assert (Hgen :
            match interviewers_acs survey "assignedInterviewers",
                  interviewers_acs survey "capiInterviewers",
                  interviewers_acs survey "catiInterviewers" with
            | Some a, Some b, Some c =>
                Some (a ++ b ++ c
                        ++ match prop survey "assignedACs" with
                           | Some (JArr assigned) => assigned
                           | _ => []
                           end)%list
            | _, _, _ => None
            end = None
            <-> exists k v,
                  In k ["assignedInterviewers"; "capiInterviewers";
                        "catiInterviewers"]
                  /\ prop survey k = Some v
                  /\ ((truthy v = true /\ forall l, v <> JArr l)
                      \/ exists l, v = JArr l /\ In JNull l)).
  { split.
    - destruct (interviewers_acs survey "assignedInterviewers") eqn:Ea.
      2:{ intros _. apply interviewers_acs_none in Ea.
          destruct Ea as (v & Hv & Hwhy).
          exists "assignedInterviewers", v. simpl. tauto. }
      destruct (interviewers_acs survey "capiInterviewers") eqn:Eb.
      2:{ intros _. apply interviewers_acs_none in Eb.
          destruct Eb as (v & Hv & Hwhy).
          exists "capiInterviewers", v. simpl. tauto. }
      destruct (interviewers_acs survey "catiInterviewers") eqn:Ec.
      2:{ intros _. apply interviewers_acs_none in Ec.
          destruct Ec as (v & Hv & Hwhy).
          exists "catiInterviewers", v. simpl. tauto. }
      discriminate.
    - intros (k & v & Hk & Hv & Hwhy).
      assert (Hnone : interviewers_acs survey k = None)
        by (apply interviewers_acs_none; exists v; tauto).
      simpl in Hk. destruct Hk as [<-|[<-|[<-|[]]]]; rewrite Hnone.
      + reflexivity.
      + destruct (interviewers_acs survey "assignedInterviewers"); reflexivity.
      + destruct (interviewers_acs survey "assignedInterviewers");
          [destruct (interviewers_acs survey "capiInterviewers")|]; reflexivity. }
  unfold survey_acs. destruct survey.
  - split; [tauto|reflexivity].
  - rewrite Hgen. split; [tauto|]. intros [[=]|H]. exact H.
  - rewrite Hgen. split; [tauto|]. intros [[=]|H]. exact H.
  - rewrite Hgen. split; [tauto|]. intros [[=]|H]. exact H.
  - rewrite Hgen. split; [tauto|]. intros [[=]|H]. exact H.
  - rewrite Hgen. split; [tauto|]. intros [[=]|H]. exact H.
Qed.

(** X30: the assigned ACs that [downloadDependentDataForSurveys] collects
    are, without repetition, exactly the non-empty strings that stand in
    an [assignedACs] array of a survey or of an assignment of one of its
    three interviewer lists.  The loop raises a [TypeError] exactly when a
    survey is [null], or one of its interviewer lists is a truthy value that
    is not an array, or an array that holds [null]. *)
Theorem assigned_acs_exact (surveys : list JSON) :
  (forall result,
     assigned_acs surveys = Some result ->
     List.NoDup result
     /\ forall ac,
          In ac result
          <-> nonempty ac = true
              /\ exists survey,
                   In survey surveys
                   /\ ((exists k assignments assignment acs,
                          In k ["assignedInterviewers"; "capiInterviewers";
                                "catiInterviewers"]
                          /\ prop survey k = Some (JArr assignments)
                          /\ In assignment assignments
                          /\ prop assignment "assignedACs" = Some (JArr acs)
                          /\ In (JStr ac) acs)
                       \/ (exists acs,
                             prop survey "assignedACs" = Some (JArr acs)
                             /\ In (JStr ac) acs)))
  /\ (assigned_acs surveys = None
      <-> exists survey,
            In survey surveys
            /\ (survey = JNull
                \/ exists k v,
                     In k ["assignedInterviewers"; "capiInterviewers";
                           "catiInterviewers"]
                     /\ prop survey k = Some v
                     /\ ((truthy v = true /\ forall l, v <> JArr l)
                         \/ exists l, v = JArr l /\ In JNull l))).
Proof.
  split.
  - intros result Hrun. unfold assigned_acs in Hrun.
    assert (Hall : forall survey, In survey surveys ->
                                  exists acs, survey_acs survey = Some acs).
    { intros survey Hs. destruct (survey_acs survey) as [acs|] eqn:E; [eauto|].
      assert (Hnone : collect_acs surveys [] = None)
        by (apply collect_acs_none; exists survey; tauto).
      congruence. }
    destruct (collect_acs_spec surveys [] result Hrun (List.NoDup_nil _))
      as [Hnd Hin].
    split; [exact Hnd|]. intros ac. rewrite Hin. simpl. split.
    + intros [[]|(Hne & survey & acs & Hs & Hacs & Hx)].
      split; [exact Hne|]. exists survey. split; [exact Hs|].
      apply (survey_acs_some survey acs Hacs). exact Hx.
    + intros (Hne & survey & Hs & Hx). right. split; [exact Hne|].
      destruct (Hall survey Hs) as [acs Hacs].
      exists survey, acs. split; [exact Hs|]. split; [exact Hacs|].
      apply (survey_acs_some survey acs Hacs). exact Hx.
  - unfold assigned_acs. rewrite collect_acs_none. split.
    + intros (survey & Hs & Hnone). exists survey. split; [exact Hs|].
      apply survey_acs_none. exact Hnone.
    + intros (survey & Hs & Hwhy). exists survey. split; [exact Hs|].
      apply survey_acs_none. exact Hwhy.
Qed.

End AssignmentExtras.


(** *** The further theorems at concrete inputs *)

Module MoreChecks.
Import OfflineStorage OfflineDataCache Views Examples CacheMore StorageMore
  BundledMore MoreExamples.

Lemma getOfflineInterviews_twice_witness :
  outcomes world_with_corruption = []
  /\ exists w1 w2,
       getOfflineInterviews world_with_corruption = (Resolved [interview_a], w1)
       /\ getOfflineInterviews w1 = (Resolved [interview_a], w2)
       /\ storage w2 = storage w1.
Proof.
  split; [reflexivity|].
  destruct (StoreExtras.getOfflineInterviews_twice world_with_corruption eq_refl)
    as (l & w1 & w2 & H1 & H2 & H3).
  assert (Hl : fst (getOfflineInterviews world_with_corruption)
               = Resolved [interview_a]) by (vm_compute; reflexivity).
  rewrite H1 in Hl. simpl in Hl. injection Hl as ->.
  exists w1, w2. auto.
Defined.

Lemma getOfflineInterviews_other_read_error_witness :
  outcomes world_locked = [Some "database is locked"]
  /\ message_includes "database is locked" "Row too big" = false
  /\ exists w',
       getOfflineInterviews world_locked = (Resolved [], w')
       /\ storage w' = storage world_locked
       /\ outcomes w' = [].
Proof.
  repeat (split; [reflexivity|]).
  apply (StoreExtras.getOfflineInterviews_other_read_error world_locked
           "database is locked" [] eq_refl eq_refl).
Defined.

Lemma saveOfflineInterview_write_rejected_witness :
  outcomes world_write_rejected
  = [None; Some "Row too big to fit into CursorWindow"]
  /\ List.filter kept (default [] (offline_interviews (storage world_write_rejected)))
     = default [] (offline_interviews (storage world_write_rejected))
  /\ exists w',
       saveOfflineInterview interview_e world_write_rejected
       = (Rejected "Interview data too large to save. Please sync existing interviews first.",
          w')
       /\ storage w' = storage world_write_rejected.
Proof.
  assert (H : List.filter kept
                (default [] (offline_interviews (storage world_write_rejected)))
              = default [] (offline_interviews (storage world_write_rejected)))
    by (vm_compute; reflexivity).
  split; [reflexivity|]. split; [exact H|].
  destruct (StoreExtras.saveOfflineInterview_write_rejected interview_e
              world_write_rejected "Row too big to fit into CursorWindow" []
              eq_refl H) as (w' & Hrun & Hsto & _).
  exists w'. split; [exact Hrun|exact Hsto].
Defined.

Lemma saveOfflineInterview_keeps_other_ids_witness :
  outcomes world_mixed_status = []
  /\ get_field interview_e "id" = Some (JStr "offline_5_e")
  /\ "offline_5_e" <> "offline_1_a"
  /\ fst (and_then (saveOfflineInterview interview_e)
            (getOfflineInterviewById "offline_1_a") world_mixed_status)
     = fst (getOfflineInterviewById "offline_1_a" world_mixed_status).
Proof.
  assert (Hne : "offline_5_e" <> "offline_1_a") by discriminate.
  repeat (split; [first [reflexivity | exact Hne]|]).
  apply (StoreExtras.saveOfflineInterview_keeps_other_ids interview_e
           "offline_5_e" "offline_1_a" world_mixed_status eq_refl eq_refl Hne).
Defined.

Lemma saveOfflineInterview_twice_witness :
  outcomes world_mixed_status = []
  /\ get_field interview_e "id" = Some (JStr "offline_5_e")
  /\ JsString.nonempty "offline_5_e" = true
  /\ get_field interview_e "status" = Some (JStr (status_text pending))
  /\ size (stored_form interview_e) <= 2000000
  /\ exists w1 w2,
       saveOfflineInterview interview_e world_mixed_status = (Resolved tt, w1)
       /\ saveOfflineInterview interview_e w1 = (Resolved tt, w2)
       /\ storage w2 = storage w1.
Proof.
  assert (Hsize : size (stored_form interview_e) <= 2000000)
    by (vm_compute; discriminate).
  repeat (split; [first [reflexivity | exact Hsize]|]).
  apply (StoreExtras.saveOfflineInterview_twice interview_e "offline_5_e" pending
           world_mixed_status eq_refl eq_refl eq_refl eq_refl Hsize).
Defined.

Lemma deleteSyncedInterview_then_get_witness :
  outcomes world_mixed_status = []
  /\ "offline_2_b" <> "offline_1_a"
  /\ fst (and_then (deleteSyncedInterview "offline_2_b")
            (getOfflineInterviewById "offline_2_b") world_mixed_status)
     = Resolved None
  /\ fst (and_then (deleteSyncedInterview "offline_2_b")
            (getOfflineInterviewById "offline_1_a") world_mixed_status)
     = fst (getOfflineInterviewById "offline_1_a" world_mixed_status).
Proof.
  assert (Hne : "offline_2_b" <> "offline_1_a") by discriminate.
  split; [reflexivity|]. split; [exact Hne|].
  destruct (StoreExtras.deleteSyncedInterview_then_get "offline_2_b" "offline_1_a"
              world_mixed_status eq_refl) as [H1 H2].
  split; [exact H1|exact (H2 Hne)].
Defined.

Lemma updateInterviewStatus_counts_failure_witness :
  outcomes world_attempts = []
  /\ List.find (has_id "offline_3_c")
       (valid_of (offline_interviews (storage world_attempts)))
     = Some interview_c_attempts
  /\ JsString.nonempty "timeout" = true
  /\ prop interview_c_attempts "syncAttempts" = Some (JNum 2)
  /\ exists w' stored updated,
       updateInterviewStatus "2025-01-01T00:00:00.000Z" "offline_3_c" failed
         (Some "timeout") world_attempts = (Resolved tt, w')
       /\ offline_interviews (storage w') = Some stored
       /\ List.find (has_id "offline_3_c") stored = Some updated
       /\ prop updated "error" = Some (JStr "timeout")
       /\ prop updated "syncAttempts" = Some (JNum 3).
Proof.
  assert (H : List.find (has_id "offline_3_c")
                (valid_of (offline_interviews (storage world_attempts)))
              = Some interview_c_attempts) by (vm_compute; reflexivity).
  split; [reflexivity|]. split; [exact H|]. split; [reflexivity|].
  split; [reflexivity|].
  destruct (StoreExtras.updateInterviewStatus_counts_failure
              "2025-01-01T00:00:00.000Z" "offline_3_c" "timeout" failed
              world_attempts interview_c_attempts eq_refl H eq_refl)
    as (w' & stored & updated & Hrun & Hsto & Hfind & Herr & _ & Hnum & _).
  exists w', stored, updated. repeat (split; [assumption|]).
  apply (Hnum 2); [reflexivity|]. vm_compute. split; [discriminate|reflexivity].
Defined.

Lemma updateInterviewStatus_unknown_id_witness :
  outcomes world_mixed_status = []
  /\ List.find (has_id "offline_9_z")
       (valid_of (offline_interviews (storage world_mixed_status))) = None
  /\ exists w',
       updateInterviewStatus "2025-01-01T00:00:00.000Z" "offline_9_z" syncing None
         world_mixed_status = (Resolved tt, w')
       /\ storage w' = storage world_mixed_status.
Proof.
  assert (H : List.find (has_id "offline_9_z")
                (valid_of (offline_interviews (storage world_mixed_status)))
              = None) by (vm_compute; reflexivity).
  split; [reflexivity|]. split; [exact H|].
  destruct (StoreExtras.updateInterviewStatus_unknown_id
              "2025-01-01T00:00:00.000Z" "offline_9_z" syncing None
              world_mixed_status eq_refl H) as (w' & Hrun & _ & Hsame).
  exists w'. split; [exact Hrun|]. apply Hsame. vm_compute. reflexivity.
Defined.

Lemma updateInterviewStatus_keeps_other_fields_witness :
  outcomes world_attempts = []
  /\ List.find (has_id "offline_3_c")
       (valid_of (offline_interviews (storage world_attempts)))
     = Some interview_c_attempts
  /\ exists w' stored updated,
       updateInterviewStatus "2025-01-01T00:00:00.000Z" "offline_3_c" syncing None
         world_attempts = (Resolved tt, w')
       /\ offline_interviews (storage w') = Some stored
       /\ List.find (has_id "offline_3_c") stored = Some updated
       /\ prop updated "syncAttempts" = prop interview_c_attempts "syncAttempts".
Proof.
  assert (H : List.find (has_id "offline_3_c")
                (valid_of (offline_interviews (storage world_attempts)))
              = Some interview_c_attempts) by (vm_compute; reflexivity).
  split; [reflexivity|]. split; [exact H|].
  apply (StoreExtras.updateInterviewStatus_keeps_other_fields
           "2025-01-01T00:00:00.000Z" "offline_3_c" syncing None
           world_attempts interview_c_attempts "syncAttempts" eq_refl H);
    try discriminate.
  right. left. reflexivity.
Defined.

Lemma write_after_rejected_read_witness :
  outcomes world_locked = [Some "database is locked"]
  /\ offline_interviews (storage world_locked)
     = Some [interview_a; interview_b_synced]
  /\ (exists w',
        saveOfflineInterview interview_e world_locked = (Resolved tt, w')
        /\ offline_interviews (storage w') = Some [stored_form interview_e])
  /\ (exists w',
        deleteSyncedInterview "offline_2_b" world_locked = (Resolved tt, w')
        /\ offline_interviews (storage w') = Some []).
Proof.
  split; [reflexivity|]. split; [reflexivity|].
  destruct (StoreExtras.write_after_rejected_read interview_e "offline_2_b"
              world_locked "database is locked" eq_refl)
    as [(w1 & Hs & Hsto1) (w2 & Hd & Hsto2)].
  split; [exists w1|exists w2]; split; assumption.
Defined.

Lemma updateInterviewStatus_then_pending_witness :
  outcomes world_synced = []
  /\ List.find (has_id "offline_2_b")
       (valid_of (offline_interviews (storage world_synced)))
     = Some interview_b_synced
  /\ size (stored_form (with_status "2025-01-01T00:00:00.000Z" failed
                          (Some "timeout") interview_b_synced)) <= 2000000
  /\ exists offered,
       fst (and_then (updateInterviewStatus "2025-01-01T00:00:00.000Z"
                        "offline_2_b" failed (Some "timeout"))
              getPendingInterviews world_synced) = Resolved offered
       /\ In (stored_form (with_status "2025-01-01T00:00:00.000Z" failed
                             (Some "timeout") interview_b_synced)) offered.
Proof.
  assert (H : List.find (has_id "offline_2_b")
                (valid_of (offline_interviews (storage world_synced)))
              = Some interview_b_synced) by (vm_compute; reflexivity).
  assert (Hsize : size (stored_form (with_status "2025-01-01T00:00:00.000Z" failed
                                       (Some "timeout") interview_b_synced))
                  <= 2000000) by (vm_compute; discriminate).
  split; [reflexivity|]. split; [exact H|]. split; [exact Hsize|].
  destruct (StoreExtras.updateInterviewStatus_then_pending
              "2025-01-01T00:00:00.000Z" "offline_2_b" failed (Some "timeout")
              world_synced interview_b_synced eq_refl H Hsize)
    as (offered & Hrun & Hiff).
  exists offered. split; [exact Hrun|]. apply Hiff. right. reflexivity.
Defined.

Lemma getAllACsForState_serves_complete_witness :
  outcomes world_complete_bihar = []
  /\ minExpectedACs "Bihar" <= len (default [] (acs bihar_complete))
  /\ exists w',
       getAllACsForState "Bihar" world_complete_bihar
       = (Resolved (default [] (acs bihar_complete)), w')
       /\ storage w' = storage world_complete_bihar.
Proof.
  assert (Hfloor : minExpectedACs "Bihar" <= len (default [] (acs bihar_complete)))
    by (vm_compute; discriminate).
  split; [reflexivity|]. split; [exact Hfloor|].
  apply (CacheExtras.getAllACsForState_serves_complete "Bihar"
           world_complete_bihar {[ "Bihar" := bihar_complete ]} bihar_complete
           (default [] (acs bihar_complete)) eq_refl eq_refl);
    [vm_compute; reflexivity | reflexivity | exact Hfloor].
Defined.

Lemma clearACsForState_frame_witness :
  outcomes world_partial_bihar = []
  /\ exists w',
       clearACsForState "Bihar" world_partial_bihar = (Resolved tt, w')
       /\ default ∅ (offline_all_acs_for_state (storage w')) !! "Bihar" = None
       /\ offline_interviews (storage w')
          = offline_interviews (storage world_partial_bihar).
Proof.
  split; [reflexivity|].
  destruct (CacheExtras.clearACsForState_frame "Bihar" world_partial_bihar eq_refl)
    as (w' & Hrun & Hgone & _ & _ & Hint & _).
  exists w'. auto.
Defined.

Lemma getAllACsForState_other_states_witness :
  outcomes world_partial_bihar = []
  /\ "West Bengal" <> "Bihar"
  /\ exists l w',
       getAllACsForState "Bihar" world_partial_bihar = (Resolved l, w')
       /\ default ∅ (offline_all_acs_for_state (storage w')) !! "West Bengal"
          = default ∅ (offline_all_acs_for_state (storage world_partial_bihar))
              !! "West Bengal".
Proof.
  assert (Hne : "West Bengal" <> "Bihar") by discriminate.
  split; [reflexivity|]. split; [exact Hne|].
  destruct (CacheExtras.getAllACsForState_other_states "Bihar" "West Bengal"
              world_partial_bihar eq_refl Hne) as (l & w' & Hrun & Hsame & _).
  exists l, w'. auto.
Defined.

Lemma clearACsForState_write_rejected_witness :
  outcomes world_clear_rejected = [None; Some "disk full"]
  /\ exists w',
       clearACsForState "Bihar" world_clear_rejected = (Rejected "disk full", w')
       /\ storage w' = storage world_clear_rejected
       /\ outcomes w' = [].
Proof.
  split; [reflexivity|].
  apply (CacheExtras.clearACsForState_write_rejected "Bihar" world_clear_rejected
           "disk full" [] eq_refl).
Defined.

Lemma saveAllACsForState_then_get_witness :
  outcomes world_idle = []
  /\ existsb is_null (take 5 (default [] (acs bihar_partial))) = false
  /\ "Bihar" <> "__proto__"
  /\ (exists w',
        and_then (saveAllACsForState "2025-01-01T00:00:00.000Z" "Bihar"
                    (default [] (acs bihar_partial)))
          (getAllACsForState "Bihar") world_idle
        = (Resolved (if minExpectedACs "Bihar" <=? len (default [] (acs bihar_partial))
                     then default [] (acs bihar_partial) else []), w'))
  /\ default ∅ (offline_all_acs_for_state (storage world_complete_bihar))
       !! "__proto__" = None
  /\ (exists w',
        and_then (saveAllACsForState "2025-01-01T00:00:00.000Z" "__proto__"
                    (default [] (acs bihar_complete)))
          (getAllACsForState "__proto__") world_complete_bihar
        = (Resolved [], w')).
Proof.
  assert (Hne : "Bihar" <> "__proto__") by discriminate.
  assert (Hnone : default ∅ (offline_all_acs_for_state
                               (storage world_complete_bihar)) !! "__proto__"
                  = None) by (vm_compute; reflexivity).
  split; [reflexivity|]. split; [reflexivity|]. split; [exact Hne|].
  split; [|split; [exact Hnone|]].
  - destruct (CacheExtras.saveAllACsForState_then_get "2025-01-01T00:00:00.000Z"
                "Bihar" (default [] (acs bihar_partial)) world_idle eq_refl eq_refl)
      as [Hadds _].
    destruct (Hadds (or_introl Hne)) as (w' & Hrun & _).
    exists w'. exact Hrun.
  - destruct (CacheExtras.saveAllACsForState_then_get "2025-01-01T00:00:00.000Z"
                "__proto__" (default [] (acs bihar_complete)) world_complete_bihar
                eq_refl eq_refl) as [_ Hproto].
    destruct (Hproto eq_refl Hnone) as (w' & Hrun & _).
    exists w'. exact Hrun.
Defined.

Lemma savePollingGroups_then_get_witness :
  outcomes world_idle = []
  /\ fst (and_then (savePollingGroups "2025-02-02T00:00:00.000Z" "Bihar" "7"
                      example_group)
            (getPollingGroups "Bihar" "7") world_idle)
     = Resolved (Some {| pg_state := "Bihar";
                         pg_acIdentifier := "7";
                         pg_groups := pg_groups example_group;
                         pg_ac_name := pg_ac_name example_group;
                         pg_more := set_field "cachedAt"
                                      (JStr "2025-02-02T00:00:00.000Z")
                                      (pg_more example_group) |}).
Proof.
  split; [reflexivity|].
  apply (CacheExtras.savePollingGroups_then_get "2025-02-02T00:00:00.000Z"
           "Bihar" "7" example_group world_idle eq_refl).
Defined.

Lemma savePollingGroups_frame_witness :
  outcomes world_example_group = []
  /\ "West Bengal::23" <> "Bihar" +:+ "::" +:+ "7"
  /\ exists w',
       savePollingGroups "2025-02-02T00:00:00.000Z" "Bihar" "7" example_group
         world_example_group = (Resolved tt, w')
       /\ group_at (default [] (offline_polling_groups (storage w')))
            "West Bengal::23"
          = group_at (default [] (offline_polling_groups
                                    (storage world_example_group)))
              "West Bengal::23".
Proof.
  assert (Hne : "West Bengal::23" <> "Bihar" +:+ "::" +:+ "7") by discriminate.
  split; [reflexivity|]. split; [exact Hne|].
  destruct (CacheExtras.savePollingGroups_frame "2025-02-02T00:00:00.000Z"
              "Bihar" "7" example_group world_example_group eq_refl)
    as (w' & Hrun & Hother & _).
  exists w'. split; [exact Hrun|]. apply Hother. exact Hne.
Defined.

Lemma getPollingGroups_within_state_witness :
  exists groups w1 w2,
    getPollingGroups "West Bengal" "Example AC" world_example_group
    = (Resolved (Some example_group), w1)
    /\ getAllPollingGroupsForState "West Bengal" world_example_group
       = (Resolved groups, w2)
    /\ In example_group groups.
Proof.
  destruct (CacheExtras.getPollingGroups_within_state "West Bengal" "Example AC"
              world_example_group) as (result & groups & w1 & w2 & H1 & H2 & Hin).
  assert (Hres : fst (getPollingGroups "West Bengal" "Example AC"
                        world_example_group) = Resolved (Some example_group))
    by (vm_compute; reflexivity).
  rewrite H1 in Hres. simpl in Hres. injection Hres as ->.
  exists groups, w1, w2. split; [exact H1|]. split; [exact H2|].
  apply Hin. reflexivity.
Defined.

Lemma getPollingGroups_code_tier_is_dead_witness :
  In (LOG, FoundByACCode "Example AC" "23" "Example AC (SC)")
    (console (snd (getPollingGroups "West Bengal" "Example AC" world_old_line)))
  /\ In (LOG, FoundByACCode "Example AC" "23" "Example AC (SC)")
       (console world_old_line).
Proof.
  assert (H : In (LOG, FoundByACCode "Example AC" "23" "Example AC (SC)")
                (console (snd (getPollingGroups "West Bengal" "Example AC"
                                 world_old_line))))
    by (vm_compute; auto 10).
  split; [exact H|].
  apply (CacheExtras.getPollingGroups_code_tier_is_dead "West Bengal"
           "Example AC" world_old_line _ _ _ H).
Defined.

Lemma getPollingGroups_blank_identifier_witness :
  outcomes world_example_group = []
  /\ normalized_name "(SC)" = ""
  /\ fst (getPollingGroups "West Bengal" "(SC)" world_example_group)
     = Resolved
         (option_map snd
            (List.find (fun kv => JsString.startsWith (fst kv)
                                    ("West Bengal" +:+ "::"))
               (default [] (offline_polling_groups
                              (storage world_example_group))))).
Proof.
  assert (Hnorm : normalized_name "(SC)" = "") by (vm_compute; reflexivity).
  split; [reflexivity|]. split; [exact Hnorm|].
  apply (CacheExtras.getPollingGroups_blank_identifier "West Bengal" "(SC)"
           world_example_group eq_refl); [vm_compute; reflexivity | exact Hnorm].
Defined.

Lemma downloadDependentDataForSurveys_clears_flag_witness :
  isDownloading world_idle = false
  /\ isDownloading
       (snd (downloadDependentDataForSurveys provisioning_that_writes [] false
               world_idle)) = false.
Proof.
  split; [reflexivity|].
  destruct (CacheExtras.downloadDependentDataForSurveys_clears_flag
              provisioning_that_writes [] false world_idle eq_refl)
    as (w_start & _ & _ & _ & _ & _ & Hflag).
  exact Hflag.
Defined.

Lemma clearAllCache_empties_cache_only_witness :
  outcomes world_text_keys = []
  /\ exists w',
       clearAllCache world_text_keys = (Resolved tt, w')
       /\ fst (getAllACsForState "Bihar" w') = Resolved []
       /\ fst (getPollingGroups "West Bengal" "23" w') = Resolved None
       /\ offline_interviews (storage w') = Some [interview_a]
       /\ other_keys (storage w') !! "sync_queue" = Some "[]".
Proof.
  split; [reflexivity|].
  destruct (CacheExtras.clearAllCache_empties_cache_only world_text_keys eq_refl)
    as (w' & Hrun & Hacs & Hgroups & Hint & Hkeys).
  exists w'. split; [exact Hrun|]. split; [apply Hacs|].
  split; [apply Hgroups|]. split; [exact Hint|].
  rewrite Hkeys; [vm_compute; reflexivity|].
  rewrite list_elem_of_In. vm_compute. intuition discriminate.
Defined.

Lemma clearAllOfflineData_spares_cache_witness :
  outcomes world_text_keys = []
  /\ exists w',
       clearAllOfflineData world_text_keys = (Resolved tt, w')
       /\ fst (getOfflineInterviews w') = Resolved []
       /\ offline_polling_groups (storage w')
          = Some [("West Bengal::23", example_group)]
       /\ other_keys (storage w') !! "offline_user_data" = Some "{}".
Proof.
  split; [reflexivity|].
  destruct (StorageExtras2.clearAllOfflineData_spares_cache world_text_keys)
    as [Hok _].
  destruct (Hok eq_refl) as (w' & Hrun & Hget & _ & Hgroups & Hkeys).
  exists w'. split; [exact Hrun|]. split; [exact Hget|].
  split; [exact Hgroups|].
  rewrite Hkeys; [vm_compute; reflexivity|].
  rewrite list_elem_of_In. vm_compute. auto 10.
Defined.

Lemma normalizeACName_idempotent_witness :
  JsObject.is_inherited "constructor" = true
  /\ ACName.normalizeACName (ACName.Text "constructor")
     = ACName.Member "constructor"
  /\ ACName.normalizeACName
       (ACName.normalizeACName (ACName.Text "Coochbehar Uttar"))
     = ACName.normalizeACName (ACName.Text "Coochbehar Uttar").
Proof.
  split; [reflexivity|].
  destruct (NameExtras.normalizeACName_idempotent (ACName.Text "Coochbehar Uttar"))
    as [Htwice Hmember].
  split; [apply Hmember; reflexivity | exact Htwice].
Defined.

Lemma normalizeACName_caseless_witness :
  In ("Cooch Behar Uttar", "COOCHBEHAR UTTAR (SC)") ACName.acNameMappings
  /\ JsString.toLowerCase (JsString.trim "  cooch behar UTTAR ")
     = JsString.toLowerCase "Cooch Behar Uttar"
  /\ ACName.normalizeACName (ACName.Text "  cooch behar UTTAR ")
     = ACName.Text "COOCHBEHAR UTTAR (SC)".
Proof.
  assert (Hin : In ("Cooch Behar Uttar", "COOCHBEHAR UTTAR (SC)")
                  ACName.acNameMappings) by (left; reflexivity).
  assert (Hlow : JsString.toLowerCase (JsString.trim "  cooch behar UTTAR ")
                 = JsString.toLowerCase "Cooch Behar Uttar")
    by (vm_compute; reflexivity).
  split; [exact Hin|]. split; [exact Hlow|].
  apply (NameExtras.normalizeACName_caseless "  cooch behar UTTAR "
           "Cooch Behar Uttar" "COOCHBEHAR UTTAR (SC)" Hin Hlow).
Defined.

Lemma findACNumberByName_sound_and_complete_witness :
  bundled_only_canonical !! "West Bengal" = Some [("3", cooch_behar_uttar)]
  /\ JsString.nonempty (JsString.trim (Bundled.ac_name cooch_behar_uttar)) = true
  /\ JsString.trim (Bundled.ac_name cooch_behar_uttar) <> "N/A"
  /\ exists found,
       Bundled.findACNumberByName bundled_only_canonical "West Bengal"
         (Bundled.ac_name cooch_behar_uttar) = Some found.
Proof.
  assert (Hdata : bundled_only_canonical !! "West Bengal"
                  = Some [("3", cooch_behar_uttar)]) by (vm_compute; reflexivity).
  assert (Hna : JsString.trim (Bundled.ac_name cooch_behar_uttar) <> "N/A")
    by (vm_compute; discriminate).
  split; [exact Hdata|]. split; [reflexivity|]. split; [exact Hna|].
  destruct (BundledExtras.findACNumberByName_sound_and_complete
              bundled_only_canonical "West Bengal") as [_ Hall].
  apply (Hall [("3", cooch_behar_uttar)] "3" cooch_behar_uttar Hdata);
    [left; reflexivity | reflexivity | exact Hna].
Defined.

Lemma getGroupsForAC_by_key_witness :
  bundled_only_canonical !! "West Bengal" = Some [("3", cooch_behar_uttar)]
  /\ record_at [("3", cooch_behar_uttar)] "3" = Some cooch_behar_uttar
  /\ getGroupsForAC example_runtime bundled_only_canonical "West Bengal" "3"
     = Returns (Some (Record cooch_behar_uttar))
  /\ record_at [("3", cooch_behar_uttar)] "constructor" = None
  /\ JsObject.is_inherited "constructor" = true
  /\ getGroupsForAC example_runtime bundled_only_canonical "West Bengal"
       "constructor"
     = Returns (Some (BuiltIn ["constructor"])).
Proof.
  assert (Hdata : bundled_only_canonical !! "West Bengal"
                  = Some [("3", cooch_behar_uttar)]) by (vm_compute; reflexivity).
  split; [exact Hdata|]. split; [reflexivity|].
  destruct (BundledExtras.getGroupsForAC_by_key example_runtime
              bundled_only_canonical "West Bengal")
    as (_ & Hkey & _ & Hmember & _).
  split.
  - apply (Hkey [("3", cooch_behar_uttar)] "3" cooch_behar_uttar Hdata);
      reflexivity.
  - split; [reflexivity|]. split; [reflexivity|].
    apply (Hmember [("3", cooch_behar_uttar)] "constructor" Hdata); reflexivity.
Defined.

Lemma findACNumberByName_ignores_case_witness :
  JsString.trim "Coochbehar Uttar (SC)" <> "N/A"
  /\ Bundled.findACNumberByName bundled_only_canonical "West Bengal"
       (JsString.toLowerCase "Coochbehar Uttar (SC)")
     = Bundled.findACNumberByName bundled_only_canonical "West Bengal"
         "Coochbehar Uttar (SC)".
Proof.
  assert (Hna : JsString.trim "Coochbehar Uttar (SC)" <> "N/A")
    by (vm_compute; discriminate).
  split; [exact Hna|].
  apply (BundledExtras.findACNumberByName_ignores_case bundled_only_canonical
           "West Bengal" "Coochbehar Uttar (SC)" Hna).
Defined.

Lemma assigned_acs_exact_witness :
  assigned_acs [survey_with_acs] = Some ["Natabari"; "Sitai"; "Dinhata"]
  /\ List.NoDup ["Natabari"; "Sitai"; "Dinhata"]
  /\ prop survey_broken "catiInterviewers" = Some (JStr "none")
  /\ assigned_acs [survey_with_acs; survey_broken] = None.
Proof.
  assert (Hrun : assigned_acs [survey_with_acs]
                 = Some ["Natabari"; "Sitai"; "Dinhata"])
    by (vm_compute; reflexivity).
  split; [exact Hrun|].
  split.
  - destruct (AssignmentExtras.assigned_acs_exact [survey_with_acs]) as [Hsome _].
    apply (Hsome _ Hrun).
  - split; [reflexivity|].
    destruct (AssignmentExtras.assigned_acs_exact
                [survey_with_acs; survey_broken]) as [_ Hnone].
    apply Hnone. exists survey_broken. split; [right; left; reflexivity|].
    right. exists "catiInterviewers", (JStr "none").
    split; [right; right; left; reflexivity|]. split; [reflexivity|].
    left. split; [reflexivity|discriminate].
Defined.

End MoreChecks.
